(** * rWeb: an LXMF "web over mesh" client and server

    A shallow embedding of the parts of [rWeb_server.py] and
    [rWeb_client.py] that decide the behaviour of the page store, the
    request dispatcher, the outbound send with its path wait, the client
    cache with its link interceptor, the request correlator, the announce
    filter, the list parser and the bookmarks.

    Conventions.
    - A Python [str] is a [string]; a character is a code point below 256.
    - [bytes] are [list byte].
    - A [dict] is a [gmap], a [set] is a [gset], a [list] is a [list].
    - Durations and clock readings are integers in milliseconds
      ([time.sleep(0.5)] advances the clock by 500); the clock moves in
      the sleeps of the programs only.
    - Mutable objects are records that every operation takes and returns.
    - What the programs print is left out. Whether [open] takes a file
      name for writing is for the file system to say, and is a variable of
      the section that needs it; a write to an open file succeeds. An
      exception that a [try] of the program catches is the branch of its
      handler.
    - What the mesh answers ([RNS.Identity.recall], the decoding of the app
      data of an announce) is a variable of the section that needs it.
    - The markup of the pages and the texts the server builds is kept as a
      constructor over the values the markup is built around. *)

From Stdlib Require Import ZArith Ascii String Strings.Byte List Lia Bool Sorting.Sorted.
From Stdlib Require Import Numbers.DecimalString.
From stdpp Require Import base option list gmap strings sorting.
From Equations Require Import Equations.
Import ListNotations.

Local Open Scope Z_scope.

#[global] Instance byte_eq_dec : EqDecision byte := Byte.byte_eq_dec.

(** ** Python string operations *)

Module PyStr.

(** [str.isspace] on one character. *)
Definition isspace (c : ascii) : bool :=
  let n := nat_of_ascii c in
  ((9 <=? n) && (n <=? 13))%nat || ((28 <=? n) && (n <=? 32))%nat
  || (n =? 133)%nat || (n =? 160)%nat.

(** [str.lower] on one character: A-Z, and the upper-case letters of the
    Latin-1 supplement (all of U+00C0..U+00DE but the multiplication sign). *)
Definition lower_char (c : ascii) : ascii :=
  let n := nat_of_ascii c in
  if ((65 <=? n) && (n <=? 90))%nat then ascii_of_nat (n + 32)
  else if ((192 <=? n) && (n <=? 222) && negb (n =? 215))%nat
       then ascii_of_nat (n + 32)
       else c.

Fixpoint lower (s : string) : string :=
  match s with
  | EmptyString => EmptyString
  | String c s' => String (lower_char c) (lower s')
  end.

(** [s.startswith(p)] *)
Fixpoint startswith (s p : string) {struct p} : bool :=
  match p with
  | EmptyString => true
  | String a p' =>
      match s with
      | EmptyString => false
      | String b s' => if Ascii.eqb a b then startswith s' p' else false
      end
  end.

(** [s.endswith(p)] *)
Definition endswith (s p : string) : bool :=
  startswith (String.rev s) (String.rev p).

(** [sub in s] *)
Fixpoint contains (sub s : string) : bool :=
  startswith s sub ||
  match s with
  | EmptyString => false
  | String _ s' => contains sub s'
  end.

(** The number of positions of [s] at which [sub] occurs (occurrences that
    overlap are all counted). *)
Fixpoint occurrences (sub s : string) : nat :=
  ((if startswith s sub then 1 else 0) +
   match s with
   | EmptyString => 0
   | String _ s' => occurrences sub s'
   end)%nat.

(** [s[n:]] and [s[:n]] for [n >= 0]. *)
Fixpoint drop (n : nat) (s : string) : string :=
  match n, s with
  | O, _ => s
  | S _, EmptyString => EmptyString
  | S n', String _ s' => drop n' s'
  end.

Fixpoint take (n : nat) (s : string) : string :=
  match n, s with
  | O, _ => EmptyString
  | S _, EmptyString => EmptyString
  | S n', String c s' => String c (take n' s')
  end.

(** [s.lstrip()], [s.rstrip()], [s.strip()] *)
Fixpoint lstrip (s : string) : string :=
  match s with
  | EmptyString => EmptyString
  | String c s' => if isspace c then lstrip s' else s
  end.

Fixpoint rstrip (s : string) : string :=
  match s with
  | EmptyString => EmptyString
  | String c s' =>
      match rstrip s' with
      | EmptyString => if isspace c then EmptyString else String c EmptyString
      | r => String c r
      end
  end.

Definition strip (s : string) : string := rstrip (lstrip s).

(** What [s.partition(sep)] finds for a non-empty [sep]: the text before
    the first occurrence of [sep] and the text after it; [None] when [sep]
    does not occur (Python then gives back [s] and two empty strings). *)
Fixpoint partition (sep s : string) : option (string * string) :=
  if startswith s sep then Some (EmptyString, drop (String.length sep) s)
  else match s with
       | EmptyString => None
       | String c s' =>
           match partition sep s' with
           | Some (before, after) => Some (String c before, after)
           | None => None
           end
       end.

(** [s.split(sep, 1)] for a non-empty [sep]. *)
Definition split_once (sep s : string) : list string :=
  match partition sep s with
  | Some (before, after) => [before; after]
  | None => [s]
  end.

(** [s.split(sep)[0]] for a non-empty [sep]. *)
Definition split_head (sep s : string) : string :=
  match partition sep s with
  | Some (before, _) => before
  | None => s
  end.

(** [s.split(c)] for a one-character separator: always at least one
    piece. *)
Fixpoint split_char (c : ascii) (s : string) : list string :=
  match s with
  | EmptyString => [EmptyString]
  | String a s' =>
      if Ascii.eqb a c then EmptyString :: split_char c s'
      else match split_char c s' with
           | [] => [String a EmptyString]
           | piece :: rest => String a piece :: rest
           end
  end.

(** [s.replace(old, new)] for a non-empty [old]: the occurrences of [old]
    are taken from the left and do not overlap. [skip] counts the
    characters of a matched occurrence that are still to be passed. *)
Fixpoint replace_from (old new : string) (skip : nat) (s : string) : string :=
  match s with
  | EmptyString => EmptyString
  | String c s' =>
      match skip with
      | S k => replace_from old new k s'
      | O =>
          if startswith s old
          then new +:+ replace_from old new (String.length old - 1) s'
          else String c (replace_from old new 0 s')
      end
  end.

Definition replace (old new s : string) : string := replace_from old new 0 s.

(** [s.rfind(c)] for one character: the last index of [c], or -1. *)
Fixpoint rfind_char (c : ascii) (s : string) : Z :=
  match s with
  | EmptyString => -1
  | String a s' =>
      let r := rfind_char c s' in
      if 0 <=? r then r + 1
      else if Ascii.eqb a c then 0 else -1
  end.

(** [s[i:j]] for [0 <= i]. *)
Definition slice (i j : Z) (s : string) : string :=
  take (Z.to_nat (j - i)) (drop (Z.to_nat i) s).

(** [x in l] for a list of strings. *)
Definition mem (x : string) (l : list string) : bool :=
  existsb (String.eqb x) l.

(** [Py_ISSPACE]: the white space [bytes.fromhex] passes over. *)
Definition is_ascii_space (c : ascii) : bool :=
  let n := nat_of_ascii c in
  (((9 <=? n) && (n <=? 13)) || (n =? 32))%nat.

(** The value of a hexadecimal digit, in either case. *)
Definition hex_value (c : ascii) : option N :=
  let n := N_of_ascii c in
  if ((48 <=? n) && (n <=? 57))%N then Some (n - 48)%N
  else if ((97 <=? n) && (n <=? 102))%N then Some (n - 87)%N
  else if ((65 <=? n) && (n <=? 70))%N then Some (n - 55)%N
  else None.

(** [bytes.fromhex]: two digits for each byte, white space allowed
    between bytes; [None] stands for [ValueError]. *)
Fixpoint bytes_fromhex (s : string) : option (list byte) :=
  match s with
  | EmptyString => Some []
  | String c s' =>
      if is_ascii_space c then bytes_fromhex s'
      else
        match hex_value c, s' with
        | Some top, String d s'' =>
            match hex_value d with
            | Some bot =>
                match Byte.of_N (top * 16 + bot), bytes_fromhex s'' with
                | Some b, Some rest => Some (b :: rest)
                | _, _ => None
                end
            | None => None
            end
        | _, _ => None
        end
  end.

(** [str(n)] for an integer. *)
Definition str_of_int (n : Z) : string :=
  NilZero.string_of_int (Z.to_int n).

End PyStr.


(** ** The parts of the Python and Reticulum libraries the programs call *)

Module Posix.
Import PyStr.

(** [os.path.basename]: [i = p.rfind('/') + 1; return p[i:]]. *)
Definition basename (p : string) : string :=
  let i := rfind_char "/" p + 1 in
  drop (Z.to_nat i) p.

(** The scan of [genericpath._splitext] over [p[filenameIndex:dotIndex]]:
    it stops at the first character that is not a dot. *)
Fixpoint has_non_dot (s : string) : bool :=
  match s with
  | EmptyString => false
  | String c s' => if Ascii.eqb c "." then has_non_dot s' else true
  end.

(** [os.path.splitext]: the extension starts at the last dot, when that
    dot comes after the last separator and after a character of the file
    name that is not itself a dot. *)
Definition splitext (p : string) : string * string :=
  let sepIndex := rfind_char "/" p in
  let dotIndex := rfind_char "." p in
  if (sepIndex <? dotIndex) && has_non_dot (slice (sepIndex + 1) dotIndex p)
  then (take (Z.to_nat dotIndex) p, drop (Z.to_nat dotIndex) p)
  else (p, EmptyString).

End Posix.

Module RNS.

Definition hex_digit (n : N) : ascii :=
  match n with
  | 0%N => "0" | 1%N => "1" | 2%N => "2" | 3%N => "3"
  | 4%N => "4" | 5%N => "5" | 6%N => "6" | 7%N => "7"
  | 8%N => "8" | 9%N => "9" | 10%N => "a" | 11%N => "b"
  | 12%N => "c" | 13%N => "d" | 14%N => "e" | _ => "f"
  end%char.

(** ["{:02x}".format(c)] *)
Definition hex_byte (b : byte) : string :=
  let n := Byte.to_N b in
  String (hex_digit (n / 16)) (String (hex_digit (n mod 16)) EmptyString).

Fixpoint hexrep (data : list byte) : string :=
  match data with
  | [] => EmptyString
  | b :: rest => hex_byte b +:+ hexrep rest
  end.

(** [RNS.prettyhexrep]: the lower-case hexadecimal digits of the hash
    between angle brackets. *)
Definition prettyhexrep (data : list byte) : string :=
  "<" +:+ hexrep data +:+ ">".

End RNS.

(** ** The server, [rWeb_server.py] *)

Module Server.
Import PyStr Posix.

(** *** The pages directory *)

(** What a name of the pages directory leads to. [text] is what reading
    the file with [encoding='utf-8'] returns, [None] when its bytes do
    not decode. *)
Inductive node :=
| Directory
| RegularFile (data : list byte) (text : option string).

(** [os.listdir(self.pages_path)]: the entry names, in some order. *)
Definition listdir (pages : gmap string node) : list string :=
  fst <$> map_to_list pages.

(** What [os.path.join(self.pages_path, name)] leads to, for a [name]
    without separator: the two dot entries are directories, every other
    name is looked up among the entries. *)
Definition lookup_path (pages : gmap string node) (name : string) : option node :=
  if String.eqb name "." || String.eqb name ".." then Some Directory
  else pages !! name.

(** [os.path.exists] *)
Definition path_exists (pages : gmap string node) (name : string) : bool :=
  match lookup_path pages name with Some _ => true | None => false end.

(** [self.supported_extensions] *)
Definition supported_extensions : gmap string string :=
  list_to_map
    [ (".html", "text/html"); (".htm", "text/html");
      (".txt", "text/plain"); (".md", "text/markdown");
      (".jpg", "image/jpeg"); (".jpeg", "image/jpeg");
      (".png", "image/png"); (".gif", "image/gif");
      (".bmp", "image/bmp"); (".webp", "image/webp");
      (".zip", "application/zip");
      (".rar", "application/x-rar-compressed");
      (".7z", "application/x-7z-compressed");
      (".pdf", "application/pdf") ].

(** [ext in self.supported_extensions] *)
Definition is_supported (ext : string) : bool :=
  match supported_extensions !! ext with Some _ => true | None => false end.

(** [os.path.splitext(filename)[1].lower()] *)
Definition extension (filename : string) : string :=
  lower (snd (splitext filename)).

Definition _get_page_list (pages : gmap string node) : list string :=
  merge_sort String.le
    (List.filter (fun filename => is_supported (extension filename))
                 (listdir pages)).

Definition _get_mime_type (filename : string) : string :=
  default "application/octet-stream" (supported_extensions !! extension filename).

(** *** Messages *)

Definition FIELD_HTML_CONTENT : Z := 10.
Definition FIELD_HTML_REQUEST : Z := 11.
Definition FIELD_FILE_ATTACHMENTS : Z := 2.

(** The HTML documents the server builds. Their markup is a fixed
    template around the values kept here. *)
Inductive html_content :=
| DynamicIndex (files : list string)
| ErrorPage (page_name : string)
| ProcessedTemplate (source : string) (files : list string).

(** The body texts the server builds. *)
Inductive text_content :=
| Literal (text : string)
| FileNotice (filename : string) (file_size : nat)
| TextIndex (files : list string).

Inductive field_value :=
| HtmlValue (html : html_content)
| AttachmentsValue (attachments : list (string * list byte)).

Record lxmf_message := {
  destination : list byte;
  content : text_content;
  title : string;
  fields : gmap Z field_value }.

(** One line of [access.log]. *)
Record access_entry := {
  entry_time : Z;
  entry_sender : list byte;
  entry_page : string;
  entry_success : bool }.

(** The text [_log_access] writes for an entry; [strftime] renders a clock
    reading as [%Y-%m-%d %H:%M:%S]. *)
Definition log_entry (strftime : Z -> string) (e : access_entry) : string :=
  "[" +:+ strftime (entry_time e) +:+ "] " +:+
  RNS.prettyhexrep (entry_sender e) +:+ " requested '" +:+ entry_page e +:+
  "' - " +:+ (if entry_success e then "SUCCESS" else "FAILED") +:+
  String "010"%char EmptyString.

(** *** State *)

Record server := {
  pages : gmap string node;
  requests_served : nat;
  access_log : list access_entry;
  outbound : list lxmf_message;
  path_requests : list (list byte);
  clock : Z }.

Definition sleep (ms : Z) (s : server) : server :=
  {| pages := pages s; requests_served := requests_served s;
     access_log := access_log s; outbound := outbound s;
     path_requests := path_requests s; clock := clock s + ms |}.

(** [RNS.Transport.request_path] *)
Definition request_path (dest_hash : list byte) (s : server) : server :=
  {| pages := pages s; requests_served := requests_served s;
     access_log := access_log s; outbound := outbound s;
     path_requests := path_requests s ++ [dest_hash]; clock := clock s |}.

(** [self.message_router.handle_outbound] *)
Definition handle_outbound (m : lxmf_message) (s : server) : server :=
  {| pages := pages s; requests_served := requests_served s;
     access_log := access_log s; outbound := outbound s ++ [m];
     path_requests := path_requests s; clock := clock s |}.

Definition count_request (s : server) : server :=
  {| pages := pages s; requests_served := S (requests_served s);
     access_log := access_log s; outbound := outbound s;
     path_requests := path_requests s; clock := clock s |}.

(** [_log_access]: one line is appended; the write is taken to succeed. *)
Definition _log_access (sender_hash : list byte) (page : string)
    (success : bool) (s : server) : server :=
  {| pages := pages s; requests_served := requests_served s;
     access_log := access_log s ++
       [ {| entry_time := clock s; entry_sender := sender_hash;
            entry_page := page; entry_success := success |} ];
     outbound := outbound s;
     path_requests := path_requests s; clock := clock s |}.

Definition _generate_dynamic_index (s : server) : html_content :=
  DynamicIndex (_get_page_list (pages s)).

Definition _generate_text_index (s : server) : text_content :=
  match _get_page_list (pages s) with
  | [] => Literal "No files available"
  | files => TextIndex files
  end.

Definition _process_template (html : string) (s : server) : html_content :=
  ProcessedTemplate html (_get_page_list (pages s)).

Definition max_wait : Z := 15000.
Definition wait_interval : Z := 500.

Section WithNetwork.

(** [RNS.Identity.recall(dest_hash)] at a clock reading: whether the
    identity of the destination is known then. *)
Variable recall : list byte -> Z -> bool.

(** The loop [while waited < max_wait] of [_send_html] and
    [_send_file]. *)
Equations? wait_for_identity (dest_hash : list byte) (waited : Z)
    (s : server) : bool * server
    by wf (Z.to_nat (max_wait - waited)) lt :=
  wait_for_identity dest_hash waited s with Z_lt_dec waited max_wait => {
    | right _ => (false, s)
    | left _ =>
        let s1 := sleep wait_interval s in
        if recall dest_hash (clock s1) then (true, s1)
        else wait_for_identity dest_hash (waited + wait_interval) s1 }.
Proof. unfold max_wait, wait_interval in *. lia. Qed.

(** The first lines of [_send_html] and [_send_file]: recall the
    identity, and request a path and wait when it is not known. *)
Definition resolve_identity (dest_hash : list byte) (s : server)
    : bool * server :=
  if recall dest_hash (clock s) then (true, s)
  else wait_for_identity dest_hash 0 (request_path dest_hash s).

Definition _send_html (dest_hash : list byte) (html : html_content)
    (message_text : text_content) (s : server) : bool * server :=
  match resolve_identity dest_hash s with
  | (false, s1) => (false, s1)
  | (true, s1) =>
      (true, handle_outbound
               {| destination := dest_hash; content := message_text;
                  title := "";
                  fields := {[ FIELD_HTML_CONTENT := HtmlValue html ]} |} s1)
  end.

(** [file_path] is the name of the file inside the pages directory.
    Opening a directory raises, and the handler returns [False]. *)
Definition _send_file (dest_hash : list byte) (file_path filename : string)
    (s : server) : bool * server :=
  match resolve_identity dest_hash s with
  | (false, s1) => (false, s1)
  | (true, s1) =>
      match lookup_path (pages s1) file_path with
      | Some (RegularFile file_data _) =>
          (true, handle_outbound
                   {| destination := dest_hash;
                      content := FileNotice filename (length file_data);
                      title := filename;
                      fields := {[ FIELD_FILE_ATTACHMENTS :=
                                     AttachmentsValue [(filename, file_data)] ]} |} s1)
      | _ => (false, s1)
      end
  end.

Definition _send_simple_message (dest_hash : list byte)
    (text : text_content) (s : server) : bool * server :=
  let send s1 :=
    (true, handle_outbound
             {| destination := dest_hash; content := text; title := "";
                fields := ∅ |} s1) in
  if recall dest_hash (clock s) then send s
  else
    let s1 := sleep 2000 (request_path dest_hash s) in
    if recall dest_hash (clock s1) then send s1 else (false, s1).

(** [page_name.lower() in ['index', '_index', '_list', 'list', '']],
    or an empty name. *)
Definition is_index_name (page_name : string) : bool :=
  String.eqb page_name "" ||
  mem (lower page_name) ["index"; "_index"; "_list"; "list"; ""].

Definition _serve_page (sender_hash : list byte) (page_name : string)
    (s : server) : bool * server :=
  let page_name := basename page_name in
  if is_index_name page_name then
    let html_content := _generate_dynamic_index s in
    let text_index := _generate_text_index s in
    let s1 := snd (_send_html sender_hash html_content (Literal "File Index") s) in
    let s2 := snd (_send_simple_message sender_hash text_index s1) in
    (true, _log_access sender_hash "INDEX" true s2)
  else
    match lookup_path (pages s) page_name with
    | None =>
        let s1 := snd (_send_html sender_hash (ErrorPage page_name)
                         (Literal ("404: " +:+ page_name)) s) in
        (false, _log_access sender_hash page_name false s1)
    | Some file =>
        let ext := extension page_name in
        if mem ext [".html"; ".htm"] then
          match file with
          | RegularFile _ (Some html) =>
              let html_content := _process_template html s in
              let s1 := snd (_send_html sender_hash html_content
                               (Literal ("Serving: " +:+ page_name)) s) in
              (true, count_request (_log_access sender_hash page_name true s1))
          | _ =>
              (* [open] or [read] raises: the [except] clause *)
              (false, _log_access sender_hash page_name false s)
          end
        else
          let s1 := snd (_send_file sender_hash page_name page_name s) in
          (true, count_request (_log_access sender_hash page_name true s1))
    end.

End WithNetwork.

End Server.

(** ** The client, [rWeb_client.py] *)

Module Client.
Import PyStr.

Definition FIELD_HTML_CONTENT : Z := 10.
Definition FIELD_HTML_REQUEST : Z := 11.

(** *** Messages *)

(** A field holds a string, or a list of attachments, each a pair of a
    file name and the bytes of the file. *)
Inductive field_value :=
| TextValue (text : string)
| AttachmentsValue (attachments : list (string * list byte)).

Record inbound_message := {
  source_hash : list byte;
  content : string;
  fields : gmap Z field_value }.

Record outbound_message := {
  destination : list byte;
  out_content : string;
  out_fields : gmap Z field_value }.

(** *** Data *)

Record bookmark := {
  bookmark_name : string;
  bookmark_hash : string;
  bookmark_added : Z }.

Record history_entry := {
  entry_server : string;
  entry_server_name : string;
  entry_page : string;
  entry_timestamp : Z;
  entry_is_file : bool }.

Record server_info := {
  name : string;
  pages : list string;
  last_seen : Z }.

Inductive request_type :=
| ListRequest
| PageRequest (page : string).

Record pending_request := {
  request : request_type;
  request_time : Z }.

(** What is emitted on the socket. *)
Inductive event :=
| server_discovered (hash name : string) (timestamp : Z)
| pages_updated (hash : string) (pages : list string)
| html_received (server server_name page filename : string) (timestamp : Z)
| file_received (server server_name filename : string) (size : nat) (timestamp : Z).

(** *** State *)

(** [lxmf_destination] is the hash of the client's own destination, set by
    [_init_lxmf]. [html_cache] and [cache] are what has been written
    through the two cache directories, by the name given to [open]. *)
Record browser := {
  bookmarks : list bookmark;
  history : list history_entry;
  discovered_servers : gmap string server_info;
  known_peers : gset string;
  pending_requests : gmap string pending_request;
  socketio : bool;
  lxmf_destination : option (list byte);
  html_cache : gmap string string;
  cache : gmap string (list byte);
  emitted : list event;
  outbound : list outbound_message;
  path_requests : list (list byte);
  announces : nat;
  clock : Z }.

Definition set_bookmarks (v : list bookmark) (s : browser) : browser :=
  {| bookmarks := v;
     history := history s;
     discovered_servers := discovered_servers s;
     known_peers := known_peers s;
     pending_requests := pending_requests s;
     socketio := socketio s;
     lxmf_destination := lxmf_destination s;
     html_cache := html_cache s;
     cache := cache s;
     emitted := emitted s;
     outbound := outbound s;
     path_requests := path_requests s;
     announces := announces s;
     clock := clock s |}.

Definition set_history (v : list history_entry) (s : browser) : browser :=
  {| bookmarks := bookmarks s;
     history := v;
     discovered_servers := discovered_servers s;
     known_peers := known_peers s;
     pending_requests := pending_requests s;
     socketio := socketio s;
     lxmf_destination := lxmf_destination s;
     html_cache := html_cache s;
     cache := cache s;
     emitted := emitted s;
     outbound := outbound s;
     path_requests := path_requests s;
     announces := announces s;
     clock := clock s |}.

Definition set_discovered_servers (v : gmap string server_info) (s : browser) : browser :=
  {| bookmarks := bookmarks s;
     history := history s;
     discovered_servers := v;
     known_peers := known_peers s;
     pending_requests := pending_requests s;
     socketio := socketio s;
     lxmf_destination := lxmf_destination s;
     html_cache := html_cache s;
     cache := cache s;
     emitted := emitted s;
     outbound := outbound s;
     path_requests := path_requests s;
     announces := announces s;
     clock := clock s |}.

Definition set_known_peers (v : gset string) (s : browser) : browser :=
  {| bookmarks := bookmarks s;
     history := history s;
     discovered_servers := discovered_servers s;
     known_peers := v;
     pending_requests := pending_requests s;
     socketio := socketio s;
     lxmf_destination := lxmf_destination s;
     html_cache := html_cache s;
     cache := cache s;
     emitted := emitted s;
     outbound := outbound s;
     path_requests := path_requests s;
     announces := announces s;
     clock := clock s |}.

Definition set_pending_requests (v : gmap string pending_request) (s : browser) : browser :=
  {| bookmarks := bookmarks s;
     history := history s;
     discovered_servers := discovered_servers s;
     known_peers := known_peers s;
     pending_requests := v;
     socketio := socketio s;
     lxmf_destination := lxmf_destination s;
     html_cache := html_cache s;
     cache := cache s;
     emitted := emitted s;
     outbound := outbound s;
     path_requests := path_requests s;
     announces := announces s;
     clock := clock s |}.

Definition set_socketio (v : bool) (s : browser) : browser :=
  {| bookmarks := bookmarks s;
     history := history s;
     discovered_servers := discovered_servers s;
     known_peers := known_peers s;
     pending_requests := pending_requests s;
     socketio := v;
     lxmf_destination := lxmf_destination s;
     html_cache := html_cache s;
     cache := cache s;
     emitted := emitted s;
     outbound := outbound s;
     path_requests := path_requests s;
     announces := announces s;
     clock := clock s |}.

Definition set_lxmf_destination (v : option (list byte)) (s : browser) : browser :=
  {| bookmarks := bookmarks s;
     history := history s;
     discovered_servers := discovered_servers s;
     known_peers := known_peers s;
     pending_requests := pending_requests s;
     socketio := socketio s;
     lxmf_destination := v;
     html_cache := html_cache s;
     cache := cache s;
     emitted := emitted s;
     outbound := outbound s;
     path_requests := path_requests s;
     announces := announces s;
     clock := clock s |}.

Definition set_html_cache (v : gmap string string) (s : browser) : browser :=
  {| bookmarks := bookmarks s;
     history := history s;
     discovered_servers := discovered_servers s;
     known_peers := known_peers s;
     pending_requests := pending_requests s;
     socketio := socketio s;
     lxmf_destination := lxmf_destination s;
     html_cache := v;
     cache := cache s;
     emitted := emitted s;
     outbound := outbound s;
     path_requests := path_requests s;
     announces := announces s;
     clock := clock s |}.

Definition set_cache (v : gmap string (list byte)) (s : browser) : browser :=
  {| bookmarks := bookmarks s;
     history := history s;
     discovered_servers := discovered_servers s;
     known_peers := known_peers s;
     pending_requests := pending_requests s;
     socketio := socketio s;
     lxmf_destination := lxmf_destination s;
     html_cache := html_cache s;
     cache := v;
     emitted := emitted s;
     outbound := outbound s;
     path_requests := path_requests s;
     announces := announces s;
     clock := clock s |}.

Definition set_emitted (v : list event) (s : browser) : browser :=
  {| bookmarks := bookmarks s;
     history := history s;
     discovered_servers := discovered_servers s;
     known_peers := known_peers s;
     pending_requests := pending_requests s;
     socketio := socketio s;
     lxmf_destination := lxmf_destination s;
     html_cache := html_cache s;
     cache := cache s;
     emitted := v;
     outbound := outbound s;
     path_requests := path_requests s;
     announces := announces s;
     clock := clock s |}.

Definition set_outbound (v : list outbound_message) (s : browser) : browser :=
  {| bookmarks := bookmarks s;
     history := history s;
     discovered_servers := discovered_servers s;
     known_peers := known_peers s;
     pending_requests := pending_requests s;
     socketio := socketio s;
     lxmf_destination := lxmf_destination s;
     html_cache := html_cache s;
     cache := cache s;
     emitted := emitted s;
     outbound := v;
     path_requests := path_requests s;
     announces := announces s;
     clock := clock s |}.

Definition set_path_requests (v : list (list byte)) (s : browser) : browser :=
  {| bookmarks := bookmarks s;
     history := history s;
     discovered_servers := discovered_servers s;
     known_peers := known_peers s;
     pending_requests := pending_requests s;
     socketio := socketio s;
     lxmf_destination := lxmf_destination s;
     html_cache := html_cache s;
     cache := cache s;
     emitted := emitted s;
     outbound := outbound s;
     path_requests := v;
     announces := announces s;
     clock := clock s |}.

Definition set_announces (v : nat) (s : browser) : browser :=
  {| bookmarks := bookmarks s;
     history := history s;
     discovered_servers := discovered_servers s;
     known_peers := known_peers s;
     pending_requests := pending_requests s;
     socketio := socketio s;
     lxmf_destination := lxmf_destination s;
     html_cache := html_cache s;
     cache := cache s;
     emitted := emitted s;
     outbound := outbound s;
     path_requests := path_requests s;
     announces := v;
     clock := clock s |}.

Definition set_clock (v : Z) (s : browser) : browser :=
  {| bookmarks := bookmarks s;
     history := history s;
     discovered_servers := discovered_servers s;
     known_peers := known_peers s;
     pending_requests := pending_requests s;
     socketio := socketio s;
     lxmf_destination := lxmf_destination s;
     html_cache := html_cache s;
     cache := cache s;
     emitted := emitted s;
     outbound := outbound s;
     path_requests := path_requests s;
     announces := announces s;
     clock := v |}.

(** [if self.socketio: ... self.socketio.emit(...)] *)
Definition emit (e : event) (s : browser) : browser :=
  if socketio s then set_emitted (emitted s ++ [e]) s else s.

Definition sleep (ms : Z) (s : browser) : browser :=
  set_clock (clock s + ms) s.

(** [self.history[-100:]] *)
Definition last_100 (l : list history_entry) : list history_entry :=
  skipn (length l - 100) l.

(** [_save_data]: the three files are rewritten, and the history is cut to
    its last hundred entries. *)
Definition _save_data (s : browser) : browser :=
  if (100 <? length (history s))%nat then set_history (last_100 (history s)) s
  else s.

(** *** The list parser *)

(** The body of the loop of [_parse_page_list]: the page name a line
    contributes, if any. *)
Definition parse_line (line : string) : list string :=
  let line := strip line in
  if startswith line "[" && contains "]" line then
    match split_once "]" line with
    | _ :: part :: _ =>
        let page_info := strip part in
        if contains "(" page_info then
          let page_name := strip (split_head "(" page_info) in
          if String.eqb page_name "" then [] else [page_name]
        else []
    | _ => []
    end
  else [].

Definition _parse_page_list (text : string) : list string :=
  flat_map parse_line (split_char "010" text).

(** *** The content cache *)

Definition script_head : string :=
  "
<script>
// LXMF Browser - Link Interceptor
(function() {
    const currentServer = '".

Definition script_tail : string :=
  "';
    
    document.addEventListener('DOMContentLoaded', function() {
        // Intercept all clicks on links
        document.addEventListener('click', function(e) {
            let target = e.target;
            
            // Find the closest <a> tag
            while (target && target.tagName !== 'A') {
                target = target.parentElement;
            }
            
            if (target && target.tagName === 'A') {
                const href = target.getAttribute('href');
                
                // Check if it's a relative link or .html file
                if (href && (href.endsWith('.html') || !href.includes('://'))) {
                    e.preventDefault();
                    
                    // Extract page name
                    let pageName = href;
                    if (pageName.startsWith('./')) {
                        pageName = pageName.substring(2);
                    }
                    if (pageName.startsWith('/')) {
                        pageName = pageName.substring(1);
                    }
                    
                    // Tell parent window to request this page from LXMF
                    window.parent.postMessage({
                        type: 'lxmf_navigate',
                        server: currentServer,
                        page: pageName
                    }, '*');
                }
            }
        }, true);
    });
})();
</script>
".

(** The f-string [inject_script]. *)
Definition inject_script (server_hash : string) : string :=
  script_head +:+ server_hash +:+ script_tail.

(** The text [_save_html_file] writes. *)
Definition injected_html (html_content server_hash : string) : string :=
  let inject_script := inject_script server_hash in
  if contains "</head>" html_content then
    replace "</head>" (inject_script +:+ "</head>") html_content
  else if contains "</body>" html_content then
    replace "</body>" (inject_script +:+ "</body>") html_content
  else html_content +:+ inject_script.

(** *** Discovery *)

Definition _handle_discovery (peer_hash_str display_name : string)
    (s : browser) : browser :=
  let server_name := strip (replace "[HTML]" "" display_name) in
  let server_name :=
    if String.eqb server_name "" then "Unknown Server" else server_name in
  if bool_decide (peer_hash_str ∈ known_peers s) then
    match discovered_servers s !! peer_hash_str with
    | Some info =>
        _save_data
          (set_discovered_servers
             (<[peer_hash_str := {| name := name info; pages := pages info;
                                    last_seen := clock s |}]>
                (discovered_servers s)) s)
    | None => s
    end
  else
    let s1 :=
      set_discovered_servers
        (<[peer_hash_str := {| name := server_name; pages := [];
                               last_seen := clock s |}]>
           (discovered_servers s)) s in
    let s2 := set_known_peers ({[peer_hash_str]} ∪ known_peers s1) s1 in
    let s3 := _save_data s2 in
    emit (server_discovered peer_hash_str server_name (clock s3)) s3.

Section WithMesh.

(** [RNS.Identity.recall(dest_hash)] at a clock reading. *)
Variable recall : list byte -> Z -> bool.

(** [LXMF.display_name_from_app_data] *)
Variable display_name_from_app_data : list byte -> option string.

(** [HTMLServerAnnounceHandler.received_announce] *)
Definition received_announce (destination_hash app_data : list byte)
    (s : browser) : browser :=
  let peer_hash_str := RNS.prettyhexrep destination_hash in
  if bool_decide (lxmf_destination s = Some destination_hash) then s
  else
    match app_data with
    | [] => s
    | _ =>
        match display_name_from_app_data app_data with
        | Some display_name =>
            if String.eqb display_name "" then s
            else if contains "[HTML]" display_name || contains "HTML" display_name
                 then _handle_discovery peer_hash_str display_name s
                 else s
        | None => s
        end
    end.

(** *** Requests *)

(** [server_hash[1:-1]] when the hash is written between angle
    brackets. *)
Definition strip_brackets (server_hash : string) : string :=
  if startswith server_hash "<" && endswith server_hash ">"
  then take (String.length server_hash - 2) (drop 1 server_hash)
  else server_hash.

(** The lines of [request_page] and [_request_page_list] from
    [self.lxmf_destination.announce()] to the hand-over of the message:
    whether the message was sent. *)
Definition send_request (dest_hash : list byte) (m : outbound_message)
    (s : browser) : bool * browser :=
  let s1 := sleep 300 (set_announces (S (announces s)) s) in
  let send s2 := (true, set_outbound (outbound s2 ++ [m]) s2) in
  if recall dest_hash (clock s1) then send s1
  else
    let s2 := sleep 2000 (set_path_requests (path_requests s1 ++ [dest_hash]) s1) in
    if recall dest_hash (clock s2) then send s2 else (false, s2).

Definition _request_page_list (server_hash : string) (s : browser) : browser :=
  let server_hash := strip_brackets server_hash in
  match bytes_fromhex (replace ":" "" server_hash) with
  | None => s
  | Some dest_hash =>
      let s1 :=
        set_pending_requests
          (<[server_hash := {| request := ListRequest; request_time := clock s |}]>
             (pending_requests s)) s in
      snd (send_request dest_hash
             {| destination := dest_hash; out_content := "list";
                out_fields := ∅ |} s1)
  end.

Definition request_page (server_hash page_name : string) (s : browser)
    : bool * browser :=
  let server_hash := strip_brackets server_hash in
  let server_hash :=
    if startswith server_hash "lxmf://" then drop 7 server_hash
    else server_hash in
  let '(server_hash, page_name) :=
    match partition "/" server_hash with
    | Some (before, after) =>
        (before, if String.eqb page_name "" then after else page_name)
    | None => (server_hash, page_name)
    end in
  let page_name := if String.eqb page_name "" then "index" else page_name in
  match bytes_fromhex (replace ":" "" server_hash) with
  | None => (false, s)
  | Some dest_hash =>
      let s1 :=
        set_pending_requests
          (<[server_hash := {| request := PageRequest page_name;
                               request_time := clock s |}]>
             (pending_requests s)) s in
      send_request dest_hash
        {| destination := dest_hash; out_content := "GET:" +:+ page_name;
           out_fields := {[ FIELD_HTML_REQUEST := TextValue page_name ]} |} s1
  end.

End WithMesh.

(** *** Inbound messages *)

(** [if is_pending and server_hash in self.pending_requests: del ...] *)
Definition clear_pending (server_hash : string) (s : browser) : browser :=
  match pending_requests s !! server_hash with
  | Some _ => set_pending_requests (delete server_hash (pending_requests s)) s
  | None => s
  end.

(** The page list branch of [_handle_message] is taken for a sender with
    a pending list request whose text holds the words of the index. *)
Definition is_list_response (server_hash content : string) (s : browser) : bool :=
  match pending_requests s !! server_hash with
  | Some p =>
      match request p with
      | ListRequest => contains "Available Pages" content
      | PageRequest _ => false
      end
  | None => false
  end.

Definition handle_list_response (server_hash content : string) (s : browser)
    : browser :=
  let pages := _parse_page_list content in
  let s1 :=
    match discovered_servers s !! server_hash with
    | Some info =>
        emit (pages_updated server_hash pages)
          (_save_data
             (set_discovered_servers
                (<[server_hash := {| name := name info; pages := pages;
                                     last_seen := last_seen info |}]>
                   (discovered_servers s)) s))
    | None => s
    end in
  set_pending_requests (delete server_hash (pending_requests s1)) s1.

Definition server_name_of (server_hash : string) (s : browser) : string :=
  match discovered_servers s !! server_hash with
  | Some info => name info
  | None => "Unknown Server"
  end.

(** The last components of [self.html_cache_path] and [self.cache_path]. *)
Definition html_cache_path : string := "html_cache".
Definition cache_path : string := "cache".

Section WithFiles.

(** [open(os.path.join(directory, filename), mode)] for writing: whether
    the file system takes the name. It raises for a name with the
    character zero, for a name that is too long, for a name that leads
    to a directory or through a directory that is not there. *)
Variable opens : string -> string -> bool.

(** [_save_html_file]; [None] stands for the exception of [open]. *)
Definition _save_html_file (html_content filename server_hash : string)
    (s : browser) : option (string * browser) :=
  if opens html_cache_path filename
  then Some (filename,
             set_html_cache
               (<[filename := injected_html html_content server_hash]>
                  (html_cache s)) s)
  else None.

(** [int(time.time())] cuts the fraction off, towards zero. *)
Definition handle_html (server_hash content : string) (html : field_value)
    (s : browser) : browser :=
  let page_name :=
    if startswith content "Serving:" then strip (replace "Serving:" "" content)
    else if contains "Page Index" content || contains "Available Pages" content
         then "index.html"
         else "page.html" in
  let server_name := server_name_of server_hash s in
  let timestamp := Z.quot (clock s) 1000 in
  let filename := str_of_int timestamp +:+ "_" +:+ page_name in
  match html with
  | TextValue html_content =>
      match _save_html_file html_content filename server_hash s with
      | None => s
      | Some (saved_filename, s1) =>
          let s2 :=
            set_history
              (history s1 ++
                 [ {| entry_server := server_hash; entry_server_name := server_name;
                      entry_page := page_name; entry_timestamp := clock s1;
                      entry_is_file := false |} ]) s1 in
          let s3 := _save_data s2 in
          let s4 :=
            emit (html_received server_hash server_name page_name
                    saved_filename (clock s3)) s3 in
          clear_pending server_hash s4
      end
  | AttachmentsValue _ =>
      (* a list is not written: [open] makes the file, [write] raises *)
      if opens html_cache_path filename
      then set_html_cache (<[filename := ""]> (html_cache s)) s
      else s
  end.

(** The body of the loop over the attachments; [None] stands for the
    exception of [open]. *)
Definition save_attachment (server_hash server_name : string) (s : browser)
    (attachment : string * list byte) : option browser :=
  let '(filename, file_data) := attachment in
  if opens cache_path filename then
    let s1 := set_cache (<[filename := file_data]> (cache s)) s in
    let s2 :=
      set_history
        (history s1 ++
           [ {| entry_server := server_hash; entry_server_name := server_name;
                entry_page := filename; entry_timestamp := clock s1;
                entry_is_file := true |} ]) s1 in
    let s3 := _save_data s2 in
    Some (emit (file_received server_hash server_name filename (length file_data)
                  (clock s3)) s3)
  else None.

(** The loop over the attachments: whether it came to its end, and the
    browser as it left it. An exception ends the loop where it is
    raised. *)
Fixpoint save_attachments (server_hash server_name : string)
    (file_attachments : list (string * list byte)) (s : browser)
    : bool * browser :=
  match file_attachments with
  | [] => (true, s)
  | attachment :: rest =>
      match save_attachment server_hash server_name s attachment with
      | Some s1 => save_attachments server_hash server_name rest s1
      | None => (false, s)
      end
  end.

(** The pending request is cleared after the loop; an exception in the
    loop goes to the handler of [_handle_message] and passes it by. *)
Definition handle_files (server_hash : string) (files : field_value)
    (s : browser) : browser :=
  let server_name := server_name_of server_hash s in
  match files with
  | AttachmentsValue file_attachments =>
      match save_attachments server_hash server_name file_attachments s with
      | (true, s1) => clear_pending server_hash s1
      | (false, s1) => s1
      end
  | TextValue _ => clear_pending server_hash s
  end.

Definition _handle_message (message : inbound_message) (s : browser) : browser :=
  let server_hash := RNS.prettyhexrep (source_hash message) in
  let content := content message in
  if is_list_response server_hash content s then
    handle_list_response server_hash content s
  else
    match fields message !! FIELD_HTML_CONTENT with
    | Some html => handle_html server_hash content html s
    | None =>
        match fields message !! 2 with
        | Some files => handle_files server_hash files s
        | None => s
        end
    end.

End WithFiles.

(** *** Bookmarks *)

Definition add_bookmark (name hash : string) (s : browser) : browser :=
  _save_data
    (set_bookmarks
       (bookmarks s ++
          [ {| bookmark_name := name; bookmark_hash := hash;
               bookmark_added := clock s |} ]) s).

Definition remove_bookmark (hash : string) (s : browser) : browser :=
  _save_data
    (set_bookmarks
       (List.filter (fun b => negb (String.eqb (bookmark_hash b) hash))
                    (bookmarks s)) s).

End Client.

(** ** What the properties of the server speak of *)

Module ServerObs.
Import PyStr Posix Server.

(** Two states that differ in the clock and the path requests only. *)
Definition same_store (s s' : server) : Prop :=
  pages s' = pages s /\ requests_served s' = requests_served s /\
  access_log s' = access_log s /\ outbound s' = outbound s.

Definition html_message (dest : list byte) (html : html_content)
    (text : text_content) : lxmf_message :=
  {| destination := dest; content := text; title := "";
     fields := {[ FIELD_HTML_CONTENT := HtmlValue html ]} |}.

Definition file_message (dest : list byte) (filename : string)
    (data : list byte) : lxmf_message :=
  {| destination := dest; content := FileNotice filename (length data);
     title := filename;
     fields := {[ FIELD_FILE_ATTACHMENTS := AttachmentsValue [(filename, data)] ]} |}.

(** The 404 response for a page name. *)
Definition not_found_message (dest : list byte) (page_name : string)
    : lxmf_message :=
  html_message dest (ErrorPage page_name) (Literal ("404: " +:+ page_name)).

(** What an operation has handed to the router. *)
Definition sent (s s' : server) (l : list lxmf_message) : Prop :=
  outbound s' = outbound s ++ l.

(** A value of a message that comes from the entry [name] of the pages
    directory, or from no file at all: the index and the 404 page hold no
    file content, a processed page holds the text of the entry, and an
    attachment holds the bytes of the entry under its name. *)
Definition served_from (pages : gmap string node) (name : string)
    (v : field_value) : Prop :=
  match v with
  | HtmlValue (DynamicIndex _) => True
  | HtmlValue (ErrorPage _) => True
  | HtmlValue (ProcessedTemplate source _) =>
      exists data, lookup_path pages name = Some (RegularFile data (Some source))
  | AttachmentsValue l =>
      exists data text,
        lookup_path pages name = Some (RegularFile data text) /\
        l = [(name, data)]
  end.

(** Two states with the same directory, counter and log. *)
Definition same_records (s s' : server) : Prop :=
  pages s' = pages s /\ requests_served s' = requests_served s /\
  access_log s' = access_log s.

Section WithNetwork.
Variable recall : list byte -> Z -> bool.

(** The identity is recalled at once or at one of the thirty polls. *)
Definition reachable (dest : list byte) (s : server) : Prop :=
  exists k, 0 <= k <= 30 /\ recall dest (clock s + 500 * k) = true.

(** The 404 answer of the serve operation: the 404 page is given to
    [_send_html], the failure is logged, and the result is [False]. *)
Definition answer_not_found (sender : list byte) (name : string)
    (s : server) : bool * server :=
  (false,
   _log_access sender name false
     (snd (_send_html recall sender (ErrorPage name)
             (Literal ("404: " +:+ name)) s))).

End WithNetwork.

End ServerObs.

(** ** What the properties of the client speak of *)

Module ClientObs.
Import PyStr Client.

(** The peer hashes of the bookmarks, one for each bookmark. *)
Definition bookmarked (s : browser) : list string :=
  bookmark_hash <$> bookmarks s.

(** No pending request is kept under a key that begins with an angle
    bracket. *)
Definition plain_keys (s : browser) : Prop :=
  forall k, is_Some (pending_requests s !! k) -> startswith k "<" = false.

(** The banner line of the interceptor script. *)
Definition banner : string := "// LXMF Browser - Link Interceptor".

(** The head of the script between its first line break and the quote
    that opens the hash, and the tail between the quote that closes the
    hash and the last line break. *)
Definition head_text : string :=
  take (String.length script_head - 2) (drop 1 script_head).
Definition tail_text : string :=
  take (String.length script_tail - 2) (drop 1 script_tail).

(** The name a peer is presented under: the display name without the
    marker, trimmed, or "Unknown Server" when nothing is left. *)
Definition presentation_name (display_name : string) : string :=
  let stripped := strip (replace "[HTML]" "" display_name) in
  if String.eqb stripped "" then "Unknown Server" else stripped.

(** The rule of the list parser for one line, in the words of its
    description: trim the line; when it begins with "[" and contains "]",
    split it once on "]", the text after it being the descriptor; when the
    descriptor contains "(", the page name is the text before the "(",
    trimmed; a page name that is empty is dropped. *)
Definition described_page_name (line : string) : option string :=
  let line := strip line in
  if startswith line "[" && contains "]" line then
    match partition "]" line with
    | Some (_, descriptor) =>
        if contains "(" descriptor then
          let page_name := strip (split_head "(" descriptor) in
          if String.eqb page_name "" then None else Some page_name
        else None
    | None => None
    end
  else None.

(** The page names of a text, line by line, in the order met. *)
Definition described_page_list (text : string) : list string :=
  omap described_page_name (split_char "010" text).

End ClientObs.

(** ** Sample data *)

Module Samples.
Import Server.

(** A destination whose identity is always recalled, and one whose
    identity never is. *)
Definition always_known (dest : list byte) (t : Z) : bool := true.
Definition never_known (dest : list byte) (t : Z) : bool := false.

Definition peer : list byte := [Byte.xaa; Byte.xbb].

Definition bare_server : server :=
  {| pages := ∅; requests_served := 0; access_log := [];
     outbound := []; path_requests := []; clock := 0 |}.

Definition site : gmap string node :=
  list_to_map
    [ ("about.html", RegularFile [Byte.x3c; Byte.x70; Byte.x3e] (Some "<p>"));
      ("photo.png", RegularFile [Byte.x89; Byte.x50] None);
      ("notes.bin", RegularFile [Byte.x00; Byte.x01; Byte.x02] None) ].

Definition small_server : server :=
  {| pages := site; requests_served := 0; access_log := [];
     outbound := []; path_requests := []; clock := 0 |}.

Definition fresh_browser : Client.browser :=
  {| Client.bookmarks := []; Client.history := [];
     Client.discovered_servers := ∅; Client.known_peers := ∅;
     Client.pending_requests := ∅; Client.socketio := true;
     Client.lxmf_destination := Some [Byte.x01; Byte.x02];
     Client.html_cache := ∅; Client.cache := ∅; Client.emitted := [];
     Client.outbound := []; Client.path_requests := [];
     Client.announces := 0; Client.clock := 0 |}.

(** A file system that takes the plain names of up to 255 characters:
    not empty, not a dot entry, without separator and without the
    character zero. *)
Definition opens_plain (directory filename : string) : bool :=
  negb (String.eqb filename "") && negb (String.eqb filename ".")
  && negb (String.eqb filename "..")
  && negb (PyStr.contains "/" filename)
  && negb (PyStr.contains (String "000" EmptyString) filename)
  && (String.length filename <=? 255)%nat.

(** A decoder for app data that holds the bare display name. *)
Definition bare_name (app_data : list byte) : option string :=
  Some (string_of_list_byte app_data).

End Samples.


(** ** The dispatcher of the server, [rWeb_server.py] *)

Module Dispatcher.
Import PyStr Posix Server.

(** An inbound message: the hash of its source, its content as text, and
    its fields, the request field holding a page name as text. A message
    whose content does not decode raises in the handler, which then does
    nothing. *)
Record inbound_message := {
  source_hash : list byte;
  content : string;
  fields : gmap Z string }.

Section WithNetwork.

Variable recall : list byte -> Z -> bool.

(** The help text, an f-string around the number of files. *)
Variable help_text : nat -> string.

Definition _handle_message (message : inbound_message) (s : server) : server :=
  let sender_hash := source_hash message in
  let content := content message in
  match fields message !! FIELD_HTML_REQUEST with
  | Some page_name => snd (_serve_page recall sender_hash page_name s)
  | None =>
      let content_lower := strip (lower content) in
      if mem content_lower ["list"; "pages"; "dir"; "ls"; "_index"; "_list"] then
        snd (_serve_page recall sender_hash "_index" s)
      else if String.eqb content_lower "index" then
        snd (_serve_page recall sender_hash "index" s)
      else if startswith content "GET:" || startswith content "get:" then
        let page_name := strip (drop 4 content) in
        snd (_serve_page recall sender_hash page_name s)
      else if mem content_lower ["announce"; "hello"; "ping"] then
        snd (_send_simple_message recall sender_hash
               (Literal "Server received your announcement") s)
      else
        snd (_send_simple_message recall sender_hash
               (Literal (help_text (length (_get_page_list (pages s))))) s)
  end.

End WithNetwork.

End Dispatcher.

(** ** The templates of the server, [rWeb_server.py] *)

Module Template.
Import PyStr Posix Server.

Section WithRendering.

(** [datetime.now().strftime('%Y-%m-%d %H:%M:%S')] *)
Variable timestamp : string.

(** [_get_file_icon]: the icon of a file name, a character outside the
    code points of the strings here. *)
Variable _get_file_icon : string -> string.

Definition quote : string := String "034" EmptyString.

(** [f'<a href="{filename}">{icon} {filename}</a>'] *)
Definition file_link (filename : string) : string :=
  "<a href=" +:+ quote +:+ filename +:+ quote +:+ ">" +:+
  _get_file_icon filename +:+ " " +:+ filename +:+ "</a>".

(** [sep.join(l)] *)
Fixpoint join (sep : string) (l : list string) : string :=
  match l with
  | [] => EmptyString
  | [x] => x
  | x :: rest => x +:+ sep +:+ join sep rest
  end.

Definition _process_template (html_content : string) (s : server) : string :=
  let files := _get_page_list (pages s) in
  let file_links := List.map file_link files in
  let page_list_html := join ("<br>" +:+ String "010" EmptyString) file_links in
  let html_content := replace "{{timestamp}}" timestamp html_content in
  let html_content := replace "{{page_list}}" page_list_html html_content in
  let html_content :=
    replace "{{page_count}}" (str_of_int (Z.of_nat (length files))) html_content in
  html_content.

End WithRendering.

End Template.

(** ** The announces of the server, [rWeb_server.py] *)

Module Announcer.

(** The attributes of the server the announce loop reads and writes.
    [auto_announce_interval] is in seconds; [announced] holds the clock
    readings of the calls of [self.lxmf_destination.announce()]. *)
Record announcer := {
  running : bool;
  auto_announce_enabled : bool;
  auto_announce_interval : Z;
  last_announce : Z;
  announced : list Z;
  clock : Z }.

Definition sleep (ms : Z) (a : announcer) : announcer :=
  {| running := running a; auto_announce_enabled := auto_announce_enabled a;
     auto_announce_interval := auto_announce_interval a;
     last_announce := last_announce a; announced := announced a;
     clock := clock a + ms |}.

Definition _announce_server (a : announcer) : announcer :=
  {| running := running a; auto_announce_enabled := auto_announce_enabled a;
     auto_announce_interval := auto_announce_interval a;
     last_announce := clock a; announced := announced a ++ [clock a];
     clock := clock a |}.

(** The body of the loop of [_auto_announce_loop]. *)
Definition announce_if_due (a : announcer) : announcer :=
  let a1 :=
    if auto_announce_enabled a then
      let time_since_announce := clock a - last_announce a in
      if 1000 * auto_announce_interval a <=? time_since_announce
      then _announce_server a
      else a
    else a in
  sleep 10000 a1.

(** [_auto_announce_loop], for the first [n] turns of its loop. *)
Fixpoint _auto_announce_loop (n : nat) (a : announcer) : announcer :=
  match n with
  | O => a
  | S n' => if running a then _auto_announce_loop n' (announce_if_due a) else a
  end.

End Announcer.

(** ** The stored data and the endpoints of the client, [rWeb_client.py] *)

Module WebApi.
Import PyStr Client.

(** What a file of the storage directory holds: nothing, when the file
    does not exist; text that [json.load] refuses; or a value. *)
Inductive stored (A : Type) :=
| Missing
| Malformed
| Stored (value : A).
Arguments Missing {A}.
Arguments Malformed {A}.
Arguments Stored {A} value.

Record storage := {
  bookmarks_file : stored (list bookmark);
  history_file : stored (list history_entry);
  discovered_file : stored (gmap string server_info) }.

Definition _load_data (files : storage) (s : browser) : browser :=
  let s1 :=
    match bookmarks_file files with
    | Missing => s
    | Malformed => set_bookmarks [] s
    | Stored v => set_bookmarks v s
    end in
  let s2 :=
    match history_file files with
    | Missing => s1
    | Malformed => set_history [] s1
    | Stored v => set_history v s1
    end in
  match discovered_file files with
  | Missing => s2
  | Malformed => set_discovered_servers ∅ s2
  | Stored v =>
      set_known_peers (dom v ∪ known_peers s2) (set_discovered_servers v s2)
  end.

(** [browser.history[-50:]] *)
Definition get_history (s : browser) : list history_entry :=
  skipn (length (history s) - 50) (history s).

Definition clear_history (s : browser) : browser :=
  _save_data (set_history [] s).

Definition remove_server (server_hash : string) (s : browser) : browser :=
  let s1 :=
    match discovered_servers s !! server_hash with
    | Some _ => set_discovered_servers (delete server_hash (discovered_servers s)) s
    | None => s
    end in
  let s2 :=
    if bool_decide (server_hash ∈ known_peers s1)
    then set_known_peers (known_peers s1 ∖ {[server_hash]}) s1
    else s1 in
  _save_data s2.

End WebApi.

(** ** What the further properties speak of *)

Module DispatcherObs.
Import PyStr Posix Server Dispatcher.


(** The text message with the index. *)
Definition text_message (dest : list byte) (text : text_content) : lxmf_message :=
  {| destination := dest; Server.content := text; title := ""; Server.fields := ∅ |}.

(** What an operation does besides its log and its counter: it leaves
    the pages alone, takes at most [dt] milliseconds, asks for at most [k]
    paths, all of them to [sender], and hands at most [n] messages to the
    router, all of them for [sender]. *)
Definition effect (sender : list byte) (dt : Z) (k n : nat) (s s' : server) : Prop :=
  pages s' = pages s /\
  clock s <= clock s' <= clock s + dt /\
  (exists q, path_requests s' = path_requests s ++ q /\ (length q <= k)%nat /\
             Forall (eq sender) q) /\
  (exists l, outbound s' = outbound s ++ l /\ (length l <= n)%nat /\
             Forall (fun m => destination m = sender) l).

(** The destination is recalled at no time. *)
Definition never_recalled (recall : list byte -> Z -> bool) (dest : list byte) : Prop :=
  forall t, recall dest t = false.

End DispatcherObs.

Module AnnouncerObs.
Import Announcer.

(** Clock readings that lie at least [gap] apart, the first one at least
    [gap] after [since]. *)
Fixpoint spaced (gap since : Z) (times : list Z) : Prop :=
  match times with
  | [] => True
  | t :: rest => since + gap <= t /\ spaced gap t rest
  end.

End AnnouncerObs.

Module WebApiObs.
Import PyStr Client WebApi.

(** The peers of the registry are the known peers. *)
Definition coherent (s : browser) : Prop :=
  dom (discovered_servers s) = known_peers s.

(** What the interface shows of a server: its name and its pages. *)
Definition shown (info : server_info) : string * list string :=
  (name info, pages info).

(** The history entry and the event of an attachment. *)
Definition file_entry (server_hash server_name : string) (t : Z)
    (attachment : string * list byte) : history_entry :=
  {| entry_server := server_hash; entry_server_name := server_name;
     entry_page := fst attachment; entry_timestamp := t;
     entry_is_file := true |}.

Definition file_event (server_hash server_name : string) (t : Z)
    (attachment : string * list byte) : event :=
  file_received server_hash server_name (fst attachment)
    (length (snd attachment)) t.

End WebApiObs.

Module MoreSamples.
Import Announcer.

(** A server that announced at start, with the default interval. *)
Definition started : announcer :=
  {| running := true; auto_announce_enabled := true;
     auto_announce_interval := 1800; last_announce := 0; announced := [0];
     clock := 0 |}.

(** A destination whose identity is recalled from a clock reading on. *)
Definition known_from (since : Z) (dest : list byte) (t : Z) : bool := since <=? t.

End MoreSamples.
(** * Properties *)

(** ** The string operations on samples *)

Section StringSamples.
Import PyStr Posix.

Example strip_sample : strip "  [1] a.html (2B) " = "[1] a.html (2B)".
Proof. reflexivity. Qed.

Example split_once_sample : split_once "]" "[1] a]b" = ["[1"; " a]b"].
Proof. reflexivity. Qed.

Example split_char_sample : split_char "/" "a//b/" = ["a"; ""; "b"; ""].
Proof. reflexivity. Qed.

Example replace_sample : replace "aa" "b" "aaaxaa" = "baxb".
Proof. reflexivity. Qed.

Example lower_sample : lower "InDeX.HTML" = "index.html".
Proof. reflexivity. Qed.

Example occurrences_sample : occurrences "aa" "aaa" = 2%nat.
Proof. reflexivity. Qed.

Example basename_sample :
  basename "../../etc/passwd" = "passwd" /\ basename "a/" = "" /\ basename ".." = "..".
Proof. repeat split. Qed.

Example splitext_sample :
  splitext "a.tar.GZ" = ("a.tar", ".GZ") /\ splitext ".html" = (".html", "") /\
  splitext "README" = ("README", "") /\ splitext "a." = ("a", ".").
Proof. repeat split. Qed.

Example fromhex_sample :
  bytes_fromhex "aa BB" = Some [Byte.xaa; Byte.xbb] /\
  bytes_fromhex "<aabb>" = None /\ bytes_fromhex "abc" = None.
Proof. repeat split. Qed.

Example prettyhexrep_sample : RNS.prettyhexrep [Byte.xaa; Byte.x0b] = "<aa0b>".
Proof. reflexivity. Qed.

End StringSamples.

(** ** The page store *)

Section PageStore.
Import PyStr Posix Server.

Lemma listdir_spec (pages : gmap string node) (f : string) :
  f ∈ listdir pages <-> is_Some (pages !! f).
Proof.
  unfold listdir. rewrite list_elem_of_fmap. split.
  - intros [[k v] [-> Hin]]. apply elem_of_map_to_list in Hin. simpl. eauto.
  - intros [v Hv]. exists (f, v). split; [done|]. by apply elem_of_map_to_list.
Qed.

Lemma listdir_NoDup (pages : gmap string node) : NoDup (listdir pages).
Proof. apply NoDup_fst_map_to_list. Qed.

Lemma is_supported_spec (ext : string) :
  is_supported ext = true <-> is_Some (supported_extensions !! ext).
Proof.
  unfold is_supported. destruct (supported_extensions !! ext); split; intros H.
  - eauto.
  - done.
  - done.
  - by destruct H.
Qed.

(** C8. [_get_page_list] returns a list sorted in the order of the code
    points (each name is at most every name after it), without repetition,
    whose members are exactly the entries of the pages directory whose
    lowered extension is a key of [supported_extensions]. *)
Theorem get_page_list_sorted_supported (pages : gmap string node) :
  StronglySorted String.le (_get_page_list pages) /\
  NoDup (_get_page_list pages) /\
  forall f : string,
    f ∈ _get_page_list pages <->
    is_Some (pages !! f) /\
    is_Some (supported_extensions !! lower (snd (splitext f))).
Proof.
  unfold _get_page_list. split; [|split].
  - apply StronglySorted_merge_sort; apply _.
  - rewrite merge_sort_Permutation. apply NoDup_ListNoDup, List.NoDup_filter.
    apply NoDup_ListNoDup, listdir_NoDup.
  - intros f. rewrite merge_sort_Permutation, list_elem_of_In, filter_In.
    rewrite <- list_elem_of_In, listdir_spec, is_supported_spec. done.
Qed.

End PageStore.

(** ** The outbound send of the server *)

Section ServerSend.
Import PyStr Posix Server ServerObs.

Variable recall : list byte -> Z -> bool.

Lemma same_store_refl s : same_store s s.
Proof. by repeat split. Qed.

Lemma same_store_trans s1 s2 s3 :
  same_store s1 s2 -> same_store s2 s3 -> same_store s1 s3.
Proof. unfold same_store. intuition congruence. Qed.

Lemma wait_for_identity_unfold dest waited s :
  wait_for_identity recall dest waited s =
  if Z_lt_dec waited max_wait then
    if recall dest (clock (sleep wait_interval s))
    then (true, sleep wait_interval s)
    else wait_for_identity recall dest (waited + wait_interval)
           (sleep wait_interval s)
  else (false, s).
Proof.
  simp wait_for_identity.
  destruct (Z_lt_dec waited max_wait); simpl; [|reflexivity].
  destruct (recall dest _); [reflexivity|]. by simp wait_for_identity.
Qed.

(** The loop started with [500 * n] milliseconds left to wait. *)
Lemma wait_for_identity_polls (n : nat) dest s :
  (n <= 30)%nat ->
  let r := wait_for_identity recall dest (max_wait - 500 * Z.of_nat n) s in
  same_store s (snd r) /\
  path_requests (snd r) = path_requests s /\
  (fst r = false ->
     clock (snd r) = clock s + 500 * Z.of_nat n /\
     forall k, 1 <= k <= Z.of_nat n -> recall dest (clock s + 500 * k) = false) /\
  (fst r = true ->
     exists k, 1 <= k <= Z.of_nat n /\ clock (snd r) = clock s + 500 * k /\
               recall dest (clock s + 500 * k) = true).
Proof.
  revert s. induction n as [|n IH]; intros s Hn; cbv zeta.
  - rewrite wait_for_identity_unfold.
    destruct (Z_lt_dec _ _) as [Hlt|_]; [unfold max_wait in Hlt; lia|]. simpl.
    repeat split; try done; try lia.
  - rewrite wait_for_identity_unfold.
    destruct (Z_lt_dec _ _) as [_|Hge]; [|unfold max_wait in Hge; lia].
    destruct (recall dest (clock (sleep wait_interval s))) eqn:Hrec.
    + simpl in *. repeat split; try done.
      exists 1. unfold wait_interval in Hrec. rewrite Z.mul_1_r.
      repeat split; try lia; done.
    + replace (max_wait - 500 * Z.of_nat (S n) + wait_interval)
        with (max_wait - 500 * Z.of_nat n) by (unfold wait_interval; lia).
      specialize (IH (sleep wait_interval s) ltac:(lia)). cbv zeta in IH.
      destruct IH as (Hstore & Hpath & Hfail & Hok).
      split; [|split; [|split]].
      * eapply same_store_trans; [|exact Hstore]. by repeat split.
      * exact Hpath.
      * intros Hf. destruct (Hfail Hf) as [Hclock Hall]. simpl in *.
        unfold wait_interval in *. split; [lia|].
        intros k Hk. destruct (decide (k = 1)) as [->|Hne].
        -- by rewrite Z.mul_1_r.
        -- replace (clock s + 500 * k) with (clock s + 500 + 500 * (k - 1)) by lia.
           apply Hall. lia.
      * intros Ht. destruct (Hok Ht) as (k & Hk & Hclock & Hrk). simpl in *.
        unfold wait_interval in *. exists (k + 1).
        replace (clock s + 500 * (k + 1)) with (clock s + 500 + 500 * k) by lia.
        repeat split; try lia; done.
Qed.

Lemma resolve_identity_spec dest s :
  let r := resolve_identity recall dest s in
  same_store s (snd r) /\
  (fst r = true <-> reachable recall dest s) /\
  (recall dest (clock s) = true -> r = (true, s)) /\
  (recall dest (clock s) = false ->
     path_requests (snd r) = path_requests s ++ [dest] /\
     clock s + 500 <= clock (snd r) <= clock s + max_wait /\
     (fst r = false -> clock (snd r) = clock s + max_wait)).
Proof.
  cbv zeta. unfold resolve_identity.
  destruct (recall dest (clock s)) eqn:Hnow.
  - simpl. repeat split; try done.
    intros _. exists 0. rewrite Z.mul_0_r, Z.add_0_r. split; [lia|done].
  - pose proof (wait_for_identity_polls 30 dest (request_path dest s) ltac:(lia)) as H.
    cbv zeta in H. change (max_wait - 500 * Z.of_nat 30) with 0 in H.
    destruct H as (Hstore & Hpath & Hfail & Hok).
    destruct (wait_for_identity recall dest 0 (request_path dest s)) as [ok s'] eqn:Hw.
    simpl in *. split; [exact Hstore|]. split; [|split; [done|]].
    + split.
      * intros ->. destruct (Hok eq_refl) as (k & Hk & _ & Hrk).
        exists k. split; [lia|done].
      * intros (k & Hk & Hrk). destruct ok; [done|].
        destruct (Hfail eq_refl) as [_ Hall].
        destruct (decide (k = 0)) as [->|Hne].
        -- rewrite Z.mul_0_r, Z.add_0_r in Hrk. congruence.
        -- rewrite Hall in Hrk; [done|lia].
    + intros _. split; [exact Hpath|]. unfold max_wait. destruct ok.
      * destruct (Hok eq_refl) as (k & Hk & Hclock & _). split; [lia|done].
      * destruct (Hfail eq_refl) as [Hclock _]. split; [lia|]. intros _. lia.
Qed.

End ServerSend.

(** ** Path names *)

Section PathNames.
Import PyStr Posix.

Lemma rfind_char_lower_bound c s : -1 <= rfind_char c s.
Proof.
  induction s as [|a s IH]; simpl; [lia|].
  destruct (0 <=? rfind_char c s) eqn:H; [lia|]. destruct (Ascii.eqb a c); lia.
Qed.

Lemma basename_cons a p :
  basename (String a p) =
  if 0 <=? rfind_char "/" p then basename p
  else if Ascii.eqb a "/" then p else String a p.
Proof.
  unfold basename. simpl rfind_char.
  pose proof (rfind_char_lower_bound "/" p) as Hlb.
  destruct (0 <=? rfind_char "/" p) eqn:H.
  - apply Z.leb_le in H.
    replace (Z.to_nat (rfind_char "/" p + 1 + 1))
      with (S (Z.to_nat (rfind_char "/" p + 1))) by lia.
    reflexivity.
  - apply Z.leb_gt in H. destruct (Ascii.eqb a "/"); reflexivity.
Qed.

Lemma basename_no_separator p : rfind_char "/" (basename p) = -1.
Proof.
  induction p as [|a p IH]; [reflexivity|].
  rewrite basename_cons. destruct (0 <=? rfind_char "/" p) eqn:H; [exact IH|].
  apply Z.leb_gt in H. pose proof (rfind_char_lower_bound "/" p) as Hlb.
  destruct (Ascii.eqb a "/") eqn:Ha; [lia|].
  simpl. rewrite (proj2 (Z.leb_gt _ _) H), Ha. reflexivity.
Qed.

Lemma basename_idempotent p : basename (basename p) = basename p.
Proof. unfold basename at 1. rewrite basename_no_separator. reflexivity. Qed.

Lemma rfind_char_absent c s :
  rfind_char c s = -1 -> contains (String c EmptyString) s = false.
Proof.
  induction s as [|a s IH]; [reflexivity|]. simpl.
  pose proof (rfind_char_lower_bound c s) as Hlb.
  destruct (0 <=? rfind_char c s) eqn:H; [apply Z.leb_le in H; lia|].
  apply Z.leb_gt in H. rewrite (Ascii.eqb_sym c a).
  destruct (Ascii.eqb a c); [lia|]. intros _. simpl. apply IH. lia.
Qed.

Lemma basename_flat p : contains "/" (basename p) = false.
Proof. apply rfind_char_absent, basename_no_separator. Qed.

End PathNames.

(** ** The request dispatcher *)

Section ServePage.
Import PyStr Posix Server ServerObs.

Variable recall : list byte -> Z -> bool.

Lemma send_html_spec dest html text s :
  let r := _send_html recall dest html text s in
  same_records s (snd r) /\
  (fst r = true <-> reachable recall dest s) /\
  sent s (snd r) (if fst r then [html_message dest html text] else []).
Proof.
  cbv zeta. unfold _send_html, sent, same_records.
  destruct (resolve_identity_spec recall dest s) as ((Hp & Hn & Hl & Ho) & Hreach & _).
  destruct (resolve_identity recall dest s) as [[|] s1]; simpl in *.
  - rewrite Ho. done.
  - rewrite app_nil_r. done.
Qed.

Lemma send_file_spec dest file_path filename s :
  let r := _send_file recall dest file_path filename s in
  same_records s (snd r) /\
  (fst r = true <->
     reachable recall dest s /\
     exists data text, lookup_path (pages s) file_path = Some (RegularFile data text)) /\
  (forall data text,
     lookup_path (pages s) file_path = Some (RegularFile data text) ->
     sent s (snd r) (if fst r then [file_message dest filename data] else [])) /\
  (fst r = false -> sent s (snd r) []).
Proof.
  cbv zeta. unfold _send_file, sent, same_records.
  destruct (resolve_identity_spec recall dest s) as ((Hp & Hn & Hl & Ho) & Hreach & _).
  destruct (resolve_identity recall dest s) as [[|] s1]; simpl in *.
  - rewrite Hp. destruct (lookup_path (pages s) file_path) as [[|data text]|] eqn:Hf;
      simpl; rewrite ?app_nil_r.
    + repeat split; try done. intros [_ (? & ? & ?)]; done.
    + repeat split; try done.
      * by apply Hreach.
      * eauto.
      * intros ?? [= <- <-]. by rewrite Ho.
    + repeat split; try done. intros [_ (? & ? & ?)]; done.
  - rewrite app_nil_r. repeat split; try done.
    intros [Hr _]. apply Hreach in Hr. done.
Qed.

Lemma send_simple_message_spec dest text s :
  let r := _send_simple_message recall dest text s in
  same_records s (snd r) /\
  sent s (snd r)
    (if fst r
     then [ {| destination := dest; content := text; title := ""; fields := ∅ |} ]
     else []).
Proof.
  cbv zeta. unfold _send_simple_message, sent, same_records.
  destruct (recall dest (clock s)); simpl; [done|].
  destruct (recall dest (clock s + 2000)); simpl; [done|].
  by rewrite app_nil_r.
Qed.

Lemma sent_inj s s' l1 l2 : sent s s' l1 -> sent s s' l2 -> l1 = l2.
Proof. unfold sent. intros H1 H2. rewrite H1 in H2. by apply app_inv_head in H2. Qed.

Lemma serve_page_basename sender P s :
  _serve_page recall sender P s = _serve_page recall sender (basename P) s.
Proof. unfold _serve_page. cbv zeta. by rewrite basename_idempotent. Qed.

Lemma path_exists_false pages name :
  path_exists pages name = false <-> lookup_path pages name = None.
Proof. unfold path_exists. destruct (lookup_path pages name); split; done. Qed.

(** The answer to a request for a name that leads to nothing. *)
Lemma serve_page_not_found sender P s :
  is_index_name (basename P) = false ->
  path_exists (pages s) (basename P) = false ->
  let r := _serve_page recall sender P s in
  r = answer_not_found recall sender (basename P) s /\
  fst r = false /\
  (reachable recall sender s -> sent s (snd r) [not_found_message sender (basename P)]) /\
  (~ reachable recall sender s -> sent s (snd r) []).
Proof.
  intros Hidx Hmiss. apply path_exists_false in Hmiss.
  unfold _serve_page, answer_not_found. cbv zeta. rewrite Hidx, Hmiss.
  split; [reflexivity|].
  destruct (send_html_spec sender (ErrorPage (basename P))
              (Literal ("404: " +:+ basename P)) s) as (_ & Hreach & Hsent).
  cbv zeta in Hreach, Hsent. unfold sent in *. simpl.
  split; [done|]. split.
  - intros Hr. apply Hreach in Hr. by rewrite Hr in Hsent.
  - intros Hr. destruct (fst (_send_html _ _ _ _ _)) eqn:Hf; [|done].
    exfalso. by apply Hr, Hreach.
Qed.

Lemma sent_trans s1 s2 s3 l1 l2 :
  sent s1 s2 l1 -> sent s2 s3 l2 -> sent s1 s3 (l1 ++ l2).
Proof. unfold sent. intros H1 H2. by rewrite H2, H1, app_assoc. Qed.

(** Whatever the serve operation sends holds the index, the 404 page, or
    the content of the entry of the pages directory that has the base name
    of the request. *)
Lemma serve_page_sends_from_pages sender P s :
  exists l,
    sent s (snd (_serve_page recall sender P s)) l /\
    forall m k v, m ∈ l -> fields m !! k = Some v ->
                  served_from (pages s) (basename P) v.
Proof.
  unfold _serve_page. cbv zeta.
  destruct (is_index_name (basename P)).
  - destruct (send_html_spec sender (_generate_dynamic_index s)
                (Literal "File Index") s) as (_ & _ & Hs1). cbv zeta in Hs1.
    destruct (send_simple_message_spec sender (_generate_text_index s)
                (snd (_send_html recall sender (_generate_dynamic_index s)
                        (Literal "File Index") s))) as (_ & Hs2). cbv zeta in Hs2.
    eexists. split; [exact (sent_trans _ _ _ _ _ Hs1 Hs2)|].
    intros m k v Hm Hv. apply elem_of_app in Hm as [Hm|Hm].
    + destruct (fst (_send_html _ _ _ _ _)); [|by apply elem_of_nil in Hm].
      apply list_elem_of_singleton in Hm as ->. simpl in Hv.
      by apply lookup_singleton_Some in Hv as [_ <-].
    + destruct (fst (_send_simple_message _ _ _ _)); [|by apply elem_of_nil in Hm].
      apply list_elem_of_singleton in Hm as ->. simpl in Hv.
      by rewrite lookup_empty in Hv.
  - destruct (lookup_path (pages s) (basename P)) as [file|] eqn:Hfile.
    + destruct (mem (extension (basename P)) [".html"; ".htm"]).
      * destruct file as [|data [html|]].
        -- exists []. split; [unfold sent; simpl; by rewrite app_nil_r|].
           intros m k v Hm. by apply elem_of_nil in Hm.
        -- destruct (send_html_spec sender (_process_template html s)
                       (Literal ("Serving: " +:+ basename P)) s) as (_ & _ & Hs).
           cbv zeta in Hs. eexists. split; [exact Hs|].
           intros m k v Hm Hv.
           destruct (fst (_send_html _ _ _ _ _)); [|by apply elem_of_nil in Hm].
           apply list_elem_of_singleton in Hm as ->. simpl in Hv.
           apply lookup_singleton_Some in Hv as [_ <-]. simpl. eauto.
        -- exists []. split; [unfold sent; simpl; by rewrite app_nil_r|].
           intros m k v Hm. by apply elem_of_nil in Hm.
      * destruct (send_file_spec sender (basename P) (basename P) s)
          as (_ & _ & Hfound & Hnone). cbv zeta in Hfound, Hnone.
        destruct (fst (_send_file _ _ _ _ _)) eqn:Hf.
        -- destruct file as [|data text].
           ++ destruct (send_file_spec sender (basename P) (basename P) s)
                as (_ & Hok & _). cbv zeta in Hok. rewrite Hf in Hok.
              destruct (proj1 Hok eq_refl) as (_ & ? & ? & ?). congruence.
           ++ eexists. split; [exact (Hfound data text Hfile)|].
              intros m k v Hm Hv. apply list_elem_of_singleton in Hm as ->.
              simpl in Hv. apply lookup_singleton_Some in Hv as [_ <-].
              simpl. eauto.
        -- exists []. split; [exact (Hnone eq_refl)|].
           intros m k v Hm. by apply elem_of_nil in Hm.
    + destruct (send_html_spec sender (ErrorPage (basename P))
                  (Literal ("404: " +:+ basename P)) s) as (_ & _ & Hs).
      cbv zeta in Hs. eexists. split; [exact Hs|].
      intros m k v Hm Hv.
      destruct (fst (_send_html _ _ _ _ _)); [|by apply elem_of_nil in Hm].
      apply list_elem_of_singleton in Hm as ->. simpl in Hv.
      by apply lookup_singleton_Some in Hv as [_ <-].
Qed.

(** C1, as the code has it. Every request is reduced to its base name,
    which holds no separator, before anything is looked up, and whatever
    is sent in answer holds the index, the 404 page, or the content of the
    entry of the pages directory with that name. When the base name is not
    an index name and leads to nothing in the pages directory, the serve
    operation gives the 404 answer and fails, and what it has sent is the
    404 page with the body text "404: " followed by the base name when the
    identity of the requester is recalled, and nothing when it is not. *)
Theorem serve_page_missing_is_404 (sender : list byte) (P : string) (s : server) :
  let name := basename P in
  let r := _serve_page recall sender P s in
  (contains "/" name = false /\ r = _serve_page recall sender name s) /\
  (exists l, sent s (snd r) l /\
             forall m k v, m ∈ l -> fields m !! k = Some v ->
                           served_from (pages s) name v) /\
  (is_index_name name = false ->
   path_exists (pages s) name = false ->
   r = answer_not_found recall sender name s /\
   fst r = false /\
   (reachable recall sender s -> sent s (snd r) [not_found_message sender name]) /\
   (~ reachable recall sender s -> sent s (snd r) [])).
Proof.
  cbv zeta. split; [split; [apply basename_flat | apply serve_page_basename]|].
  split; [apply serve_page_sends_from_pages | apply serve_page_not_found].
Qed.

Lemma html_extension_supported ext :
  mem ext [".html"; ".htm"] = true -> is_supported ext = true.
Proof.
  unfold mem. simpl. rewrite orb_false_r. intros H.
  apply orb_true_iff in H as [H|H]; apply String.eqb_eq in H; by subst.
Qed.

(** C10, as the code has it. For a request whose base name is not an
    index name, the 404 response is what the serve operation has handed
    to the router exactly when the base name leads to nothing in the pages
    directory and the identity of the requester is recalled, at once or
    within the wait for a path. A requester that is not recalled gets
    nothing for a page that is missing: the operation fails and nothing is
    handed over. A file of the directory whose extension is not a key of
    [supported_extensions] is not refused: the operation succeeds and
    counts the request, and the file is what it has handed over when the
    identity of the requester is recalled. *)
Theorem serve_page_404_iff_missing (sender : list byte) (P : string) (s : server) :
  let name := basename P in
  let r := _serve_page recall sender P s in
  is_index_name name = false ->
  (sent s (snd r) [not_found_message sender name] <->
   path_exists (pages s) name = false /\ reachable recall sender s) /\
  (path_exists (pages s) name = false -> ~ reachable recall sender s ->
     fst r = false /\ sent s (snd r) []) /\
  (forall data text,
     lookup_path (pages s) name = Some (RegularFile data text) ->
     is_supported (extension name) = false ->
     fst r = true /\
     requests_served (snd r) = S (requests_served s) /\
     (reachable recall sender s -> sent s (snd r) [file_message sender name data]) /\
     (~ reachable recall sender s -> sent s (snd r) [])).
Proof.
  cbv zeta. intros Hidx. split; [|split].
  - split.
    + intros H404.
      destruct (lookup_path (pages s) (basename P)) as [file|] eqn:Hfile.
      * exfalso. revert H404. unfold _serve_page. cbv zeta. rewrite Hidx, Hfile.
        destruct (mem (extension (basename P)) [".html"; ".htm"]).
        -- destruct file as [|data [html|]]; simpl; intros H404.
           ++ assert (sent s (_log_access sender (basename P) false s) []) as Hs
                by (unfold sent; simpl; by rewrite app_nil_r).
              pose proof (sent_inj _ _ _ _ H404 Hs) as Heq. discriminate Heq.
           ++ destruct (send_html_spec sender (_process_template html s)
                          (Literal ("Serving: " +:+ basename P)) s) as (_ & _ & Hs).
              cbv zeta in Hs. pose proof (sent_inj _ _ _ _ H404 Hs) as Heq.
              destruct (fst (_send_html _ _ _ _ _)); discriminate Heq.
           ++ assert (sent s (_log_access sender (basename P) false s) []) as Hs
                by (unfold sent; simpl; by rewrite app_nil_r).
              pose proof (sent_inj _ _ _ _ H404 Hs) as Heq. discriminate Heq.
        -- simpl. intros H404.
           destruct (send_file_spec sender (basename P) (basename P) s)
             as (_ & _ & Hfound & Hnone). cbv zeta in Hfound, Hnone.
           destruct (fst (_send_file _ _ _ _ _)) eqn:Hf.
           ++ destruct file as [|data text].
              ** destruct (send_file_spec sender (basename P) (basename P) s)
                   as (_ & Hok & _). cbv zeta in Hok. rewrite Hf in Hok.
                 destruct (proj1 Hok eq_refl) as (_ & ? & ? & ?). congruence.
              ** specialize (Hfound data text Hfile).
                 pose proof (sent_inj _ _ _ _ H404 Hfound) as Heq. discriminate Heq.
           ++ pose proof (sent_inj _ _ _ _ H404 (Hnone eq_refl)) as Heq.
              discriminate Heq.
      * assert (path_exists (pages s) (basename P) = false) as Hmiss
          by (by apply path_exists_false).
        split; [done|].
        destruct (serve_page_not_found sender P s Hidx Hmiss) as (_ & _ & _ & Hnone).
        destruct (send_html_spec sender (ErrorPage (basename P))
                    (Literal ("404: " +:+ basename P)) s) as (_ & Hreach & _).
        cbv zeta in Hreach.
        destruct (fst (_send_html recall sender (ErrorPage (basename P))
                         (Literal ("404: " +:+ basename P)) s)) eqn:Hf.
        -- by apply Hreach.
        -- assert (~ reachable recall sender s) as Hn.
           { intros Hr. apply Hreach in Hr. discriminate Hr. }
           pose proof (sent_inj _ _ _ _ H404 (Hnone Hn)) as Heq. discriminate Heq.
    + intros [Hmiss Hr].
      by apply (serve_page_not_found sender P s Hidx Hmiss).
  - intros Hmiss Hn.
    destruct (serve_page_not_found sender P s Hidx Hmiss) as (_ & Hf & _ & Hnone).
    split; [exact Hf|]. by apply Hnone.
  - intros data text Hfile Hext.
    unfold _serve_page. cbv zeta. rewrite Hidx, Hfile.
    destruct (mem (extension (basename P)) [".html"; ".htm"]) eqn:Hm.
    { apply html_extension_supported in Hm. congruence. }
    simpl. split; [reflexivity|].
    destruct (send_file_spec sender (basename P) (basename P) s)
      as ((_ & Hcount & _) & Hok & Hfound & Hnone). cbv zeta in Hcount, Hok, Hfound, Hnone.
    specialize (Hfound data text Hfile). split; [by rewrite Hcount|]. split.
    + intros Hr. rewrite (proj2 Hok) in Hfound; [done|]. eauto.
    + intros Hn. apply Hnone.
      destruct (fst (_send_file _ _ _ _ _)); [|done].
      exfalso. apply Hn. by apply (proj1 Hok).
Qed.

(** C4, as the code has it. Every call of the serve operation appends
    exactly one entry to the access log: for the requester, with the result
    of the call, and for the page "INDEX" when the base name of the request
    is an index name and for the base name otherwise. The line written for
    an entry has the form "[timestamp] <peer> requested '<page>' - " followed
    by SUCCESS or FAILED. The counter of served requests is left as it is by
    a 404, and is incremented by a request that is not for the index and
    succeeds, that is by an HTML page or a file attachment. *)
Theorem serve_page_logs_once (sender : list byte) (P : string) (s : server) :
  let name := basename P in
  let r := _serve_page recall sender P s in
  let e := {| entry_time := clock (snd r); entry_sender := sender;
              entry_page := if is_index_name name then "INDEX" else name;
              entry_success := fst r |} in
  access_log (snd r) = access_log s ++ [e] /\
  (forall strftime,
     log_entry strftime e =
     "[" +:+ strftime (clock (snd r)) +:+ "] " +:+ RNS.prettyhexrep sender +:+
     " requested '" +:+ entry_page e +:+ "' - " +:+
     (if fst r then "SUCCESS" else "FAILED") +:+ String "010"%char EmptyString) /\
  (is_index_name name = false -> path_exists (pages s) name = false ->
     requests_served (snd r) = requests_served s) /\
  (is_index_name name = false -> fst r = true ->
     requests_served (snd r) = S (requests_served s)).
Proof.
  cbv zeta. split; [|split; [done|]].
  - unfold _serve_page. cbv zeta.
    destruct (is_index_name (basename P)) eqn:Hidx.
    + destruct (send_html_spec sender (_generate_dynamic_index s)
                  (Literal "File Index") s) as ((_ & _ & Hl1) & _).
      cbv zeta in Hl1.
      destruct (send_simple_message_spec sender (_generate_text_index s)
                  (snd (_send_html recall sender (_generate_dynamic_index s)
                          (Literal "File Index") s))) as ((_ & _ & Hl2) & _).
      cbv zeta in Hl2. simpl. by rewrite Hl2, Hl1.
    + destruct (lookup_path (pages s) (basename P)) as [file|] eqn:Hfile.
      * destruct (mem (extension (basename P)) [".html"; ".htm"]).
        -- destruct file as [|data [html|]]; simpl; try done.
           destruct (send_html_spec sender (_process_template html s)
                       (Literal ("Serving: " +:+ basename P)) s) as ((_ & _ & Hl) & _).
           cbv zeta in Hl. by rewrite Hl.
        -- simpl.
           destruct (send_file_spec sender (basename P) (basename P) s)
             as ((_ & _ & Hl) & _). cbv zeta in Hl. by rewrite Hl.
      * simpl.
        destruct (send_html_spec sender (ErrorPage (basename P))
                    (Literal ("404: " +:+ basename P)) s) as ((_ & _ & Hl) & _).
        cbv zeta in Hl. by rewrite Hl.
  - unfold _serve_page. cbv zeta. split.
    + intros Hidx Hmiss. apply path_exists_false in Hmiss. rewrite Hidx, Hmiss.
      destruct (send_html_spec sender (ErrorPage (basename P))
                  (Literal ("404: " +:+ basename P)) s) as ((_ & Hn & _) & _).
      cbv zeta in Hn. simpl. by rewrite Hn.
    + intros Hidx. rewrite Hidx.
      destruct (lookup_path (pages s) (basename P)) as [file|] eqn:Hfile; [|done].
      destruct (mem (extension (basename P)) [".html"; ".htm"]).
      * destruct file as [|data [html|]]; simpl; try done. intros _.
        destruct (send_html_spec sender (_process_template html s)
                    (Literal ("Serving: " +:+ basename P)) s) as ((_ & Hn & _) & _).
        cbv zeta in Hn. by rewrite Hn.
      * simpl. intros _.
        destruct (send_file_spec sender (basename P) (basename P) s)
          as ((_ & Hn & _) & _). cbv zeta in Hn. by rewrite Hn.
Qed.

End ServePage.

(** ** The server on sample requests *)

Section ServerSamples.
Import PyStr Posix Server ServerObs Samples.

Lemma always_known_reachable dest s : reachable always_known dest s.
Proof. exists 0. split; [lia | reflexivity]. Defined.

Lemma never_known_unreachable dest s : ~ reachable never_known dest s.
Proof. intros (k & _ & H). discriminate H. Defined.

(** A request that climbs out of the pages directory is answered with the
    404 page for its base name. *)
Lemma serve_page_missing_is_404_witness :
  is_index_name (basename "../missing.html") = false /\
  path_exists (pages small_server) (basename "../missing.html") = false /\
  fst (_serve_page always_known peer "../missing.html" small_server) = false /\
  sent small_server
    (snd (_serve_page always_known peer "../missing.html" small_server))
    [not_found_message peer "missing.html"].
Proof.
  pose proof (serve_page_missing_is_404 always_known peer "../missing.html"
                small_server) as (_ & _ & H).
  specialize (H eq_refl eq_refl). destruct H as (_ & Hf & Hs & _).
  split; [reflexivity|]. split; [reflexivity|]. split; [exact Hf|].
  apply Hs, always_known_reachable.
Defined.

(** The request "index" leads to nothing in an empty pages directory, and
    is answered with the index, not with a 404; the request
    "../secret.txt" is answered with the body text "404: secret.txt". *)
Lemma serve_page_index_name_is_not_404 :
  let r := _serve_page always_known peer "index" bare_server in
  path_exists (pages bare_server) (basename "index") = false /\
  fst r = true /\
  outbound (snd r) =
    [ html_message peer (DynamicIndex []) (Literal "File Index");
      {| destination := peer; content := Literal "No files available";
         title := ""; fields := ∅ |} ] /\
  outbound (snd (_serve_page always_known peer "../secret.txt" bare_server)) =
    [ html_message peer (ErrorPage "secret.txt") (Literal "404: secret.txt") ].
Proof. vm_compute. repeat split. Qed.

(** A file of the directory with an extension outside the table is sent
    as an attachment. *)
Lemma serve_page_404_iff_missing_witness :
  is_index_name (basename "notes.bin") = false /\
  is_supported (extension (basename "notes.bin")) = false /\
  fst (_serve_page always_known peer "notes.bin" small_server) = true /\
  sent small_server (snd (_serve_page always_known peer "notes.bin" small_server))
    [file_message peer "notes.bin" [Byte.x00; Byte.x01; Byte.x02]] /\
  (sent small_server (snd (_serve_page always_known peer "notes.bin" small_server))
     [not_found_message peer "notes.bin"] <->
   path_exists (pages small_server) (basename "notes.bin") = false /\
   reachable always_known peer small_server).
Proof.
  pose proof (serve_page_404_iff_missing always_known peer "notes.bin" small_server
                eq_refl) as (Hiff & _ & Hfile).
  specialize (Hfile [Byte.x00; Byte.x01; Byte.x02] None eq_refl eq_refl).
  destruct Hfile as (Hr & _ & Hs & _).
  split; [reflexivity|]. split; [reflexivity|]. split; [exact Hr|].
  split; [exact (Hs (always_known_reachable peer small_server)) | exact Hiff].
Defined.

(** A page that is missing is not answered with a 404 response when the
    identity of the requester is never recalled: after the wait of fifteen
    seconds nothing has been handed over. *)
Lemma missing_page_unanswered_when_unrecalled :
  let r := _serve_page never_known peer "missing.html" small_server in
  is_index_name (basename "missing.html") = false /\
  path_exists (pages small_server) (basename "missing.html") = false /\
  fst r = false /\
  outbound (snd r) = [] /\
  path_requests (snd r) = [peer] /\
  clock (snd r) = 15000.
Proof. vm_compute. repeat split. Qed.

(** An HTML page that is served is logged once and counted. *)
Lemma serve_page_logs_once_witness :
  let r := _serve_page always_known peer "about.html" small_server in
  is_index_name (basename "about.html") = false /\
  fst r = true /\
  access_log (snd r) =
    [ {| entry_time := 0; entry_sender := peer; entry_page := "about.html";
         entry_success := true |} ] /\
  requests_served (snd r) = 1%nat.
Proof.
  pose proof (serve_page_logs_once always_known peer "about.html" small_server)
    as (Hlog & _ & _ & Hcount).
  cbv zeta. split; [reflexivity|]. split; [reflexivity|].
  split; [exact Hlog | exact (Hcount eq_refl eq_refl)].
Defined.

(** A request for a file that does not exist is answered and logged, and
    the counter stays where it was. *)
Lemma serve_page_404_is_not_counted :
  let r := _serve_page always_known peer "missing.html" small_server in
  outbound (snd r) = [not_found_message peer "missing.html"] /\
  access_log (snd r) =
    [ {| entry_time := 0; entry_sender := peer; entry_page := "missing.html";
         entry_success := false |} ] /\
  requests_served (snd r) = requests_served small_server.
Proof. vm_compute. repeat split. Qed.

End ServerSamples.

(** ** Bookmarks *)

Section Bookmarks.
Import PyStr Client ClientObs Samples.

Lemma save_data_bookmarks s : bookmarks (_save_data s) = bookmarks s.
Proof. unfold _save_data. by destruct (_ <? _)%nat. Qed.

(** C9, as the code has it. Adding a bookmark appends an entry whatever
    the collection holds. The collection holds at most one bookmark for each
    peer hash after an addition exactly when it did before and the hash
    added was not bookmarked; and after the removal of a hash no bookmark
    has it. *)
Theorem add_bookmark_appends (name hash : string) (s : browser) :
  bookmarks (add_bookmark name hash s) =
    bookmarks s ++ [ {| bookmark_name := name; bookmark_hash := hash;
                        bookmark_added := clock s |} ] /\
  (NoDup (bookmarked (add_bookmark name hash s)) <->
   NoDup (bookmarked s) /\ hash ∉ bookmarked s) /\
  hash ∉ bookmarked (remove_bookmark hash s).
Proof.
  assert (bookmarks (add_bookmark name hash s) =
          bookmarks s ++ [ {| bookmark_name := name; bookmark_hash := hash;
                              bookmark_added := clock s |} ]) as Hadd.
  { unfold add_bookmark. by rewrite save_data_bookmarks. }
  split; [exact Hadd|]. split.
  - unfold bookmarked. rewrite Hadd, fmap_app. simpl. rewrite NoDup_app.
    split.
    + intros (Hs & Hnot & _). split; [done|]. intros Hin.
      apply (Hnot _ Hin). by apply list_elem_of_singleton.
    + intros [Hs Hnot]. split; [done|]. split.
      * intros h Hin ->%list_elem_of_singleton. done.
      * apply NoDup_singleton.
  - unfold bookmarked, remove_bookmark. rewrite save_data_bookmarks. simpl.
    rewrite list_elem_of_fmap. intros (b & -> & Hb).
    apply list_elem_of_In, filter_In in Hb as [_ Hb].
    by rewrite String.eqb_refl in Hb.
Qed.

(** The same hash bookmarked twice is in the collection twice. *)
Lemma add_bookmark_twice :
  bookmarked (add_bookmark "Node again" "<aabb>"
                (add_bookmark "Node" "<aabb>" fresh_browser)) =
  ["<aabb>"; "<aabb>"].
Proof. reflexivity. Qed.

End Bookmarks.

(** ** The list parser *)

Section ListParser.
Import PyStr Client ClientObs.

Lemma contains_char_cons x c s :
  contains (String x EmptyString) (String c s) =
  Ascii.eqb x c || contains (String x EmptyString) s.
Proof. simpl. by destruct (Ascii.eqb x c). Qed.

Lemma split_head_char_cons x c s :
  split_head (String x EmptyString) (String c s) =
  if Ascii.eqb x c then EmptyString
  else String c (split_head (String x EmptyString) s).
Proof.
  unfold split_head. simpl. destruct (Ascii.eqb x c); [reflexivity|].
  by destruct (partition (String x EmptyString) s) as [[before after]|].
Qed.

Lemma isspace_neq x c : isspace x = false -> isspace c = true -> Ascii.eqb x c = false.
Proof.
  intros Hx Hc. destruct (Ascii.eqb_spec x c) as [->|]; [congruence | reflexivity].
Qed.

Lemma contains_char_lstrip x s :
  isspace x = false ->
  contains (String x EmptyString) (lstrip s) = contains (String x EmptyString) s.
Proof.
  intros Hx. induction s as [|c s IH]; [reflexivity|].
  cbn [lstrip]. destruct (isspace c) eqn:Hc; [|reflexivity].
  rewrite contains_char_cons, (isspace_neq x c Hx Hc). exact IH.
Qed.

Lemma contains_char_rstrip x s :
  isspace x = false ->
  contains (String x EmptyString) (rstrip s) = contains (String x EmptyString) s.
Proof.
  intros Hx. induction s as [|c s IH]; [reflexivity|].
  rewrite contains_char_cons. cbn [rstrip].
  destruct (rstrip s) as [|a r] eqn:Hr.
  - rewrite <- IH. cbn [contains startswith]. rewrite orb_false_r.
    destruct (isspace c) eqn:Hc.
    + by rewrite (isspace_neq x c Hx Hc).
    + rewrite contains_char_cons. cbn [contains startswith]. by rewrite orb_false_r.
  - rewrite contains_char_cons, <- IH. reflexivity.
Qed.

Lemma contains_char_strip x s :
  isspace x = false ->
  contains (String x EmptyString) (strip s) = contains (String x EmptyString) s.
Proof.
  intros Hx. unfold strip. by rewrite contains_char_rstrip, contains_char_lstrip.
Qed.

Lemma split_head_rstrip x s :
  isspace x = false ->
  contains (String x EmptyString) s = true ->
  split_head (String x EmptyString) (rstrip s) = split_head (String x EmptyString) s.
Proof.
  intros Hx. induction s as [|c s IH]; [reflexivity|].
  rewrite contains_char_cons, split_head_char_cons. cbn [rstrip].
  destruct (Ascii.eqb x c) eqn:Hxc.
  - intros _. apply Ascii.eqb_eq in Hxc as <-.
    destruct (rstrip s); rewrite ?Hx, split_head_char_cons, Ascii.eqb_refl; reflexivity.
  - simpl. intros Hs. pose proof (contains_char_rstrip x s Hx) as Hr.
    rewrite Hs in Hr. destruct (rstrip s) as [|a r] eqn:Hrs; [discriminate Hr|].
    rewrite split_head_char_cons, Hxc, (IH Hs). reflexivity.
Qed.

Lemma lstrip_split_head x s :
  isspace x = false ->
  lstrip (split_head (String x EmptyString) (lstrip s)) =
  lstrip (split_head (String x EmptyString) s).
Proof.
  intros Hx. induction s as [|c s IH]; [reflexivity|].
  cbn [lstrip]. destruct (isspace c) eqn:Hc; [|reflexivity].
  rewrite split_head_char_cons, (isspace_neq x c Hx Hc). cbn [lstrip].
  by rewrite Hc.
Qed.

Lemma strip_split_head_strip x s :
  isspace x = false ->
  contains (String x EmptyString) s = true ->
  strip (split_head (String x EmptyString) (strip s)) =
  strip (split_head (String x EmptyString) s).
Proof.
  intros Hx Hs. unfold strip.
  rewrite split_head_rstrip, lstrip_split_head; try done.
  by rewrite contains_char_lstrip.
Qed.

Lemma parse_line_described line :
  parse_line line = option_list (described_page_name line).
Proof.
  unfold parse_line, described_page_name, split_once. cbv zeta.
  destruct (startswith (strip line) "[" && contains "]" (strip line)); [|reflexivity].
  destruct (partition "]" (strip line)) as [[before descriptor]|]; [|reflexivity].
  rewrite (contains_char_strip "(" descriptor eq_refl).
  destruct (contains "(" descriptor) eqn:Hparen; [|reflexivity].
  rewrite (strip_split_head_strip "(" descriptor eq_refl Hparen).
  by destruct (String.eqb _ _).
Qed.

(** C7. The list parser returns, for every text, the page names that the
    described rule gives for its lines, in the order of the lines: the line
    is trimmed; when it begins with "[" and contains "]" it is split once
    on "]"; when the text after the "]" contains "(", the trimmed text
    before the "(" is the page name, kept when it is not empty; every other
    line gives nothing. *)
Theorem parse_page_list_described (text : string) :
  _parse_page_list text = described_page_list text.
Proof.
  unfold _parse_page_list, described_page_list.
  induction (split_char "010" text) as [|line lines IH]; [reflexivity|].
  simpl. rewrite IH, parse_line_described.
  by destruct (described_page_name line).
Qed.

End ListParser.

(** ** The announce filter *)

Section AnnounceFilter.
Import PyStr Client ClientObs Samples.

Variable display_name_from_app_data : list byte -> option string.

Lemma save_data_registry s :
  discovered_servers (_save_data s) = discovered_servers s /\
  known_peers (_save_data s) = known_peers s /\
  pending_requests (_save_data s) = pending_requests s /\
  emitted (_save_data s) = emitted s /\
  socketio (_save_data s) = socketio s /\
  clock (_save_data s) = clock s.
Proof. unfold _save_data. by destruct (_ <? _)%nat. Qed.

Lemma emit_registry e s :
  discovered_servers (emit e s) = discovered_servers s /\
  known_peers (emit e s) = known_peers s /\
  pending_requests (emit e s) = pending_requests s /\
  emitted (emit e s) = (if socketio s then emitted s ++ [e] else emitted s).
Proof. unfold emit. by destruct (socketio s). Qed.

(** C5, as the code has it. An announce of a destination other than the
    client's own, whose app data decode to a display name, is handled as
    the announce of an HTML server exactly when the display name contains
    "[HTML]" or "HTML". For a peer that was not known, the peer is known
    afterwards exactly in that case, and it is then recorded, and announced
    to the interface, under the display name without "[HTML]", trimmed, or
    under "Unknown Server" when nothing is left of the name. *)
Theorem received_announce_recognition
    (dest app_data : list byte) (display_name : string) (s : browser) :
  lxmf_destination s <> Some dest ->
  app_data <> [] ->
  display_name_from_app_data app_data = Some display_name ->
  let marked := contains "[HTML]" display_name || contains "HTML" display_name in
  let key := RNS.prettyhexrep dest in
  let s' := received_announce display_name_from_app_data dest app_data s in
  s' = (if marked then _handle_discovery key display_name s else s) /\
  (key ∉ known_peers s ->
     (key ∈ known_peers s' <-> marked = true) /\
     (marked = true ->
        discovered_servers s' !! key =
          Some {| name := presentation_name display_name; pages := [];
                  last_seen := clock s |} /\
        emitted s' =
          if socketio s
          then emitted s ++
                 [server_discovered key (presentation_name display_name) (clock s)]
          else emitted s)).
Proof.
  intros Hown Hdata Hname. cbv zeta.
  assert (received_announce display_name_from_app_data dest app_data s =
          if contains "[HTML]" display_name || contains "HTML" display_name
          then _handle_discovery (RNS.prettyhexrep dest) display_name s else s) as Heq.
  { unfold received_announce. rewrite bool_decide_eq_false_2 by done.
    destruct app_data as [|b rest]; [done|]. rewrite Hname.
    destruct (String.eqb_spec display_name "") as [->|_]; reflexivity. }
  split; [exact Heq|]. intros Hnew. rewrite Heq.
  destruct (contains "[HTML]" display_name || contains "HTML" display_name).
  - unfold _handle_discovery. cbv zeta. rewrite bool_decide_eq_false_2 by done.
    fold (presentation_name display_name).
    match goal with |- context [emit ?e (_save_data ?s2)] =>
      destruct (emit_registry e (_save_data s2)) as (Hd & Hk & _ & He);
      destruct (save_data_registry s2) as (Hd' & Hk' & _ & He' & Hs' & Hc')
    end.
    rewrite Hd, Hk, He, Hd', Hk', He', Hs', Hc'. simpl.
    split; [split; [done|]; intros _; by apply elem_of_union_l, elem_of_singleton|].
    intros _. split; [by rewrite lookup_insert_eq | done].
  - split; [|done]. split; [done | discriminate].
Qed.

End AnnounceFilter.

Section AnnounceSamples.
Import PyStr Client ClientObs Samples.

(** The announce of a server named "[HTML] Node" makes it known as "Node". *)
Lemma received_announce_recognition_witness :
  let s' := received_announce bare_name peer
              (list_byte_of_string "[HTML] Node") fresh_browser in
  "<aabb>" ∈ known_peers s' /\
  discovered_servers s' !! "<aabb>" =
    Some {| name := "Node"; pages := []; last_seen := 0 |} /\
  emitted s' = [server_discovered "<aabb>" "Node" 0].
Proof.
  assert (lxmf_destination fresh_browser <> Some peer) as Hown by discriminate.
  assert (list_byte_of_string "[HTML] Node" <> []) as Hdata by discriminate.
  destruct (received_announce_recognition bare_name peer
              (list_byte_of_string "[HTML] Node") "[HTML] Node" fresh_browser
              Hown Hdata eq_refl) as [_ H].
  cbv zeta in H. destruct H as [Hknown Hrec].
  { exact (not_elem_of_empty (C:=gset string) "<aabb>"). }
  cbv zeta. split; [by apply Hknown|]. exact (Hrec eq_refl).
Defined.

(** The client's own announce carries a display name that contains
    "HTML", and is passed over; and a known server that announces a new
    display name keeps the name it was recorded under. *)
Lemma own_announce_is_passed_over :
  let app_data := list_byte_of_string "LXMF HTML Browser" in
  let s1 := received_announce bare_name peer
              (list_byte_of_string "[HTML] Node") fresh_browser in
  let s2 := received_announce bare_name peer
              (list_byte_of_string "[HTML] Other") s1 in
  (lxmf_destination fresh_browser = Some [Byte.x01; Byte.x02] /\
   bare_name app_data = Some "LXMF HTML Browser" /\
   contains "HTML" "LXMF HTML Browser" = true /\
   received_announce bare_name [Byte.x01; Byte.x02] app_data fresh_browser =
     fresh_browser) /\
  (name <$> discovered_servers s2 !! "<aabb>") = Some "Node".
Proof. vm_compute. repeat split. Qed.

End AnnounceSamples.

(** ** The request correlator *)

Section Correlator.
Import PyStr Client ClientObs Samples.

Variable recall : list byte -> Z -> bool.
Variable opens : string -> string -> bool.

Lemma hex_key_is_plain k dest :
  bytes_fromhex (replace ":" "" k) = Some dest -> startswith k "<" = false.
Proof.
  destruct k as [|c k]; [reflexivity|]. intros Hhex. cbn [startswith].
  destruct (Ascii.eqb_spec "<" c) as [<-|_]; [|reflexivity].
  cbn in Hhex. discriminate Hhex.
Qed.

Lemma rendered_hash_is_bracketed source :
  startswith (RNS.prettyhexrep source) "<" = true.
Proof. reflexivity. Qed.

Lemma send_request_pending dest m s :
  pending_requests (snd (send_request recall dest m s)) = pending_requests s.
Proof.
  unfold send_request. cbv zeta.
  destruct (recall dest _); [reflexivity|]. by destruct (recall dest _).
Qed.

(** What a page request leaves in the correlator: the entries there were,
    with the entry of the key replaced by the new request; the key is the
    hash as written, without brackets, scheme and path. *)
Lemma request_page_pending server_hash page_name s :
  pending_requests (snd (request_page recall server_hash page_name s)) =
    pending_requests s \/
  exists key page dest,
    bytes_fromhex (replace ":" "" key) = Some dest /\
    pending_requests (snd (request_page recall server_hash page_name s)) =
      <[key := {| request := PageRequest page; request_time := clock s |}]>
        (pending_requests s).
Proof.
  unfold request_page. cbv zeta.
  destruct (match partition "/" _ with Some _ => _ | None => _ end) as [key page].
  destruct (bytes_fromhex (replace ":" "" key)) as [dest|] eqn:Hhex; [|by left].
  right. exists key, (if String.eqb page "" then "index" else page), dest.
  split; [done|]. by rewrite send_request_pending.
Qed.

Lemma request_page_plain_keys server_hash page_name s :
  plain_keys s -> plain_keys (snd (request_page recall server_hash page_name s)).
Proof.
  intros Hs k. destruct (request_page_pending server_hash page_name s)
    as [->|(key & page & dest & Hhex & ->)]; [apply Hs|].
  destruct (decide (key = k)) as [<-|Hne].
  - intros _. by eapply hex_key_is_plain.
  - rewrite lookup_insert_ne by done. apply Hs.
Qed.

Lemma request_page_list_plain_keys server_hash s :
  plain_keys s -> plain_keys (_request_page_list recall server_hash s).
Proof.
  intros Hs k. unfold _request_page_list. cbv zeta.
  destruct (bytes_fromhex _) as [dest|] eqn:Hhex; [|apply Hs].
  rewrite send_request_pending. simpl.
  destruct (decide (strip_brackets server_hash = k)) as [<-|Hne].
  - intros _. by eapply hex_key_is_plain.
  - rewrite lookup_insert_ne by done. apply Hs.
Qed.

Lemma save_attachment_pending server_hash server_name s a s1 :
  save_attachment opens server_hash server_name s a = Some s1 ->
  pending_requests s1 = pending_requests s.
Proof.
  destruct a as [filename file_data]. unfold save_attachment.
  destruct (opens cache_path filename); [|discriminate]. intros [= <-].
  match goal with |- context [emit ?e (_save_data ?s2)] =>
    destruct (emit_registry e (_save_data s2)) as (_ & _ & -> & _);
    destruct (save_data_registry s2) as (_ & _ & -> & _)
  end.
  reflexivity.
Qed.

Lemma save_attachments_pending server_hash server_name l s :
  pending_requests (snd (save_attachments opens server_hash server_name l s)) =
  pending_requests s.
Proof.
  revert s. induction l as [|a l IH]; intros s; [reflexivity|].
  cbn [save_attachments].
  destruct (save_attachment opens server_hash server_name s a) as [s1|] eqn:Ha;
    [|reflexivity].
  rewrite IH. by eapply save_attachment_pending.
Qed.

Lemma clear_pending_spec key s :
  pending_requests (clear_pending key s) = delete key (pending_requests s).
Proof.
  unfold clear_pending. destruct (pending_requests s !! key) eqn:Hk; [reflexivity|].
  by rewrite delete_id.
Qed.

Lemma record_and_emit_pending e entry s :
  pending_requests (emit e (_save_data (set_history (history s ++ [entry]) s))) =
  pending_requests s.
Proof.
  destruct (emit_registry e (_save_data (set_history (history s ++ [entry]) s)))
    as (_ & _ & -> & _).
  by destruct (save_data_registry (set_history (history s ++ [entry]) s))
    as (_ & _ & -> & _).
Qed.

(** What the HTML branch leaves in the correlator. *)
Lemma handle_html_pending key content html s :
  pending_requests (handle_html opens key content html s) = pending_requests s \/
  pending_requests (handle_html opens key content html s) =
    delete key (pending_requests s).
Proof.
  unfold handle_html. cbv zeta. destruct html as [html_content|l].
  - unfold _save_html_file. destruct (opens html_cache_path _); [|by left]. right.
    by rewrite clear_pending_spec, record_and_emit_pending.
  - left. by destruct (opens html_cache_path _).
Qed.

(** What the attachment branch leaves in the correlator. *)
Lemma handle_files_pending key files s :
  pending_requests (handle_files opens key files s) = pending_requests s \/
  pending_requests (handle_files opens key files s) = delete key (pending_requests s).
Proof.
  unfold handle_files. cbv zeta.
  destruct files as [text|l]; [right; apply clear_pending_spec|].
  pose proof (save_attachments_pending key (server_name_of key s) l s) as Hp.
  destruct (save_attachments opens key (server_name_of key s) l s) as [[] s1];
    cbn in Hp.
  - right. by rewrite clear_pending_spec, Hp.
  - by left.
Qed.

(** A message never touches the pending requests when none of them is
    kept under a key with an angle bracket: the sender is looked up under
    [RNS.prettyhexrep], which begins with one. *)
Lemma handle_message_keeps_plain_keys message s :
  plain_keys s ->
  pending_requests (_handle_message opens message s) = pending_requests s.
Proof.
  intros Hs.
  assert (pending_requests s !! RNS.prettyhexrep (source_hash message) = None) as Hnone.
  { destruct (pending_requests s !! _) eqn:Hk; [|done].
    specialize (Hs _ (mk_is_Some _ _ Hk)).
    by rewrite rendered_hash_is_bracketed in Hs. }
  unfold _handle_message. cbv zeta.
  unfold is_list_response. rewrite Hnone.
  destruct (fields message !! FIELD_HTML_CONTENT) as [html|].
  - destruct (handle_html_pending (RNS.prettyhexrep (source_hash message))
                (content message) html s) as [->| ->]; [done|].
    by apply delete_id.
  - destruct (fields message !! 2) as [files|]; [|reflexivity].
    destruct (handle_files_pending (RNS.prettyhexrep (source_hash message))
                files s) as [->| ->]; [done|].
    by apply delete_id.
Qed.

End Correlator.

Section CorrelatorSamples.
Import PyStr Client ClientObs Samples.

(** C3, on the code. A server is discovered, its page "about.html" is
    requested under the hash the discovery gave, and its answer arrives: the
    request was recorded under the hash without its brackets, the answer is
    looked up under the hash with them, the page is cached and the pending
    request is still there. The same holds for a request of the page list:
    the answer is not taken for a page list, the pages of the server stay
    empty and the pending request stays. *)
Lemma pending_request_outlives_response :
  let s0 := received_announce bare_name peer
              (list_byte_of_string "[HTML] Node") fresh_browser in
  let s1 := snd (request_page always_known "<aabb>" "about.html" s0) in
  let answer :=
    {| source_hash := peer; content := "Serving: about.html";
       fields := {[ FIELD_HTML_CONTENT := TextValue "<p>About</p>" ]} |} in
  let s2 := _handle_message opens_plain answer s1 in
  let t1 := _request_page_list always_known "<aabb>" s0 in
  let listing :=
    {| source_hash := peer;
       content := "Available Pages" +:+ String "010" "[1] about.html (9B)";
       fields := ∅ |} in
  let t2 := _handle_message opens_plain listing t1 in
  (dom (discovered_servers s0) = {[ "<aabb>" ]} /\
   outbound s1 =
     [ {| destination := peer; out_content := "GET:about.html";
          out_fields := {[ FIELD_HTML_REQUEST := TextValue "about.html" ]} |} ] /\
   pending_requests s1 =
     {[ "aabb" := {| request := PageRequest "about.html"; request_time := 0 |} ]} /\
   html_cache s2 !! "0_about.html" =
     Some (injected_html "<p>About</p>" "<aabb>") /\
   pending_requests s2 = pending_requests s1) /\
  (pending_requests t1 =
     {[ "aabb" := {| request := ListRequest; request_time := 0 |} ]} /\
   _parse_page_list (content listing) = ["about.html"] /\
   t2 = t1).
Proof. vm_compute. repeat split. Qed.

End CorrelatorSamples.

(** ** Occurrences of a text in another *)

Section Occurrences.
Import PyStr.

Lemma app_cons c s t : String c s +:+ t = String c (s +:+ t).
Proof. reflexivity. Qed.

Lemma app_empty_l s : EmptyString +:+ s = s.
Proof. reflexivity. Qed.

Lemma app_empty_r s : s +:+ EmptyString = s.
Proof. induction s as [|c s IH]; [reflexivity|]. by rewrite app_cons, IH. Qed.

Lemma app_assoc_str s t u : (s +:+ t) +:+ u = s +:+ (t +:+ u).
Proof. induction s as [|c s IH]; [reflexivity|]. by rewrite !app_cons, IH. Qed.

Lemma startswith_app p z : startswith (p +:+ z) p = true.
Proof.
  induction p as [|c p IH]; [reflexivity|].
  rewrite app_cons. cbn [startswith]. by rewrite Ascii.eqb_refl.
Qed.

Lemma startswith_app_l s z p : startswith s p = true -> startswith (s +:+ z) p = true.
Proof.
  revert s. induction p as [|a p IH]; intros s; [reflexivity|].
  destruct s as [|b s]; [discriminate|]. rewrite app_cons. cbn [startswith].
  destruct (Ascii.eqb a b); [apply IH | discriminate].
Qed.

Lemma startswith_split s p :
  startswith s p = true -> s = p +:+ drop (String.length p) s.
Proof.
  revert s. induction p as [|a p IH]; intros s; [reflexivity|].
  destruct s as [|b s]; [discriminate|]. cbn [startswith].
  destruct (Ascii.eqb_spec a b) as [->|]; [|discriminate].
  intros H. simpl. rewrite app_cons. f_equal. by apply IH.
Qed.

Lemma startswith_empty p : p <> EmptyString -> startswith EmptyString p = false.
Proof. by destruct p. Qed.

Lemma occurrences_cons sub c s :
  occurrences sub (String c s) =
  ((if startswith (String c s) sub then 1 else 0) + occurrences sub s)%nat.
Proof. reflexivity. Qed.

Lemma occurrences_empty sub : sub <> EmptyString -> occurrences sub EmptyString = 0%nat.
Proof. intros H. simpl. by rewrite startswith_empty. Qed.

Lemma occurrences_zero sub s :
  occurrences sub s = 0%nat <-> contains sub s = false.
Proof.
  induction s as [|c s IH].
  - simpl. destruct (startswith EmptyString sub); split; (done || lia).
  - rewrite occurrences_cons. cbn [contains].
    destruct (startswith (String c s) sub); simpl; [split; (done || lia)|].
    exact IH.
Qed.

(** Occurrences in a suffix are occurrences in the whole. *)
Lemma occurrences_suffix sub x s :
  sub <> EmptyString -> (occurrences sub s <= occurrences sub (x +:+ s))%nat.
Proof.
  intros Hsub. induction x as [|c x IH]; [by rewrite app_empty_l|].
  rewrite app_cons, occurrences_cons. lia.
Qed.

(** Occurrences in a prefix are occurrences in the whole. *)
Lemma occurrences_prefix sub s z :
  sub <> EmptyString -> (occurrences sub s <= occurrences sub (s +:+ z))%nat.
Proof.
  intros Hsub. induction s as [|c s IH].
  - rewrite occurrences_empty by done. lia.
  - rewrite app_cons, !occurrences_cons.
    destruct (startswith (String c s) sub) eqn:H.
    + rewrite <- app_cons, (startswith_app_l _ z _ H). lia.
    + lia.
Qed.

(** A text that holds no [c] does not go across a [c]. *)
Lemma startswith_separator c sub u v :
  contains (String c EmptyString) sub = false ->
  startswith (u +:+ String c v) sub = startswith u sub.
Proof.
  revert u. induction sub as [|k sub IH]; intros u Hc; [reflexivity|].
  rewrite contains_char_cons in Hc. apply orb_false_iff in Hc as [Hck Hsub].
  destruct u as [|b u].
  - rewrite app_empty_l. cbn [startswith]. rewrite Ascii.eqb_sym. by rewrite Hck.
  - rewrite app_cons. cbn [startswith]. destruct (Ascii.eqb k b); [by apply IH | done].
Qed.

Lemma occurrences_separator c sub u v :
  sub <> EmptyString ->
  contains (String c EmptyString) sub = false ->
  occurrences sub (u +:+ String c v) =
  (occurrences sub u + occurrences sub v)%nat.
Proof.
  intros Hsub Hc. induction u as [|b u IH].
  - rewrite app_empty_l, occurrences_cons, occurrences_empty by done.
    rewrite <- (app_empty_l (String c v)), (startswith_separator c sub "" v Hc).
    by rewrite startswith_empty.
  - rewrite app_cons, !occurrences_cons, IH.
    rewrite <- app_cons, (startswith_separator c sub (String b u) v Hc). lia.
Qed.

(** Each occurrence of a text holds an occurrence of each of its parts. *)
Lemma occurrences_drop_first a sub s :
  (occurrences (String a sub) s <= occurrences sub s)%nat.
Proof.
  assert (occurrences (String a sub) s <=
          match s with EmptyString => 0 | String _ s' => occurrences sub s' end)%nat
    as Hstrong.
  { induction s as [|x s IH]; [simpl; lia|].
    rewrite occurrences_cons. cbn [startswith].
    destruct s as [|y s].
    - simpl in *. destruct (Ascii.eqb a x); destruct (startswith "" sub); lia.
    - rewrite (occurrences_cons sub y s).
      destruct (Ascii.eqb a x); destruct (startswith (String y s) sub); lia. }
  destruct s as [|x s]; [simpl in *; lia|]. rewrite (occurrences_cons sub x s). lia.
Qed.

Lemma occurrences_drop_prefix a sub s :
  (occurrences (a +:+ sub) s <= occurrences sub s)%nat.
Proof.
  induction a as [|c a IH]; [by rewrite app_empty_l|].
  rewrite app_cons. etrans; [apply occurrences_drop_first | exact IH].
Qed.

Lemma startswith_app_sub s sub b :
  startswith s (sub +:+ b) = true -> startswith s sub = true.
Proof.
  revert s. induction sub as [|k sub IH]; intros s; [reflexivity|].
  rewrite app_cons. destruct s as [|x s]; [discriminate|]. cbn [startswith].
  destruct (Ascii.eqb k x); [apply IH | discriminate].
Qed.

Lemma occurrences_drop_suffix sub b s :
  (occurrences (sub +:+ b) s <= occurrences sub s)%nat.
Proof.
  induction s as [|x s IH].
  - simpl. destruct (startswith "" (sub +:+ b)) eqn:H; [|lia].
    by rewrite (startswith_app_sub _ _ _ H).
  - rewrite !occurrences_cons.
    destruct (startswith (String x s) (sub +:+ b)) eqn:H; [|lia].
    rewrite (startswith_app_sub _ _ _ H). lia.
Qed.

Lemma occurrences_at_least_one sub x z :
  (1 <= occurrences sub (x +:+ sub +:+ z))%nat.
Proof.
  induction x as [|c x IH].
  - rewrite app_empty_l. destruct (sub +:+ z) as [|c s] eqn:Hs.
    + destruct sub; [reflexivity | discriminate].
    + rewrite occurrences_cons, <- Hs, startswith_app. lia.
  - rewrite app_cons, occurrences_cons. lia.
Qed.

End Occurrences.

(** ** The link interceptor *)

Section Interceptor.
Import PyStr Client ClientObs Samples.

Variable opens : string -> string -> bool.

Lemma replace_from_skip old new k s :
  replace_from old new k s = replace_from old new 0 (drop k s).
Proof.
  revert k. induction s as [|c s IH]; intros [|k]; try reflexivity.
  cbn [replace_from drop]. apply IH.
Qed.

Lemma replace_match old new s :
  old <> EmptyString ->
  startswith s old = true ->
  replace old new s = new +:+ replace old new (drop (String.length old) s).
Proof.
  intros Hold Hs. unfold replace. destruct s as [|c s].
  - by rewrite startswith_empty in Hs.
  - cbn [replace_from]. rewrite Hs, replace_from_skip.
    destruct old as [|a old]; [done|]. simpl. by rewrite Nat.sub_0_r.
Qed.

Lemma replace_absent old new s :
  contains old s = false -> replace old new s = s.
Proof.
  unfold replace. induction s as [|c s IH]; [reflexivity|].
  cbn [contains replace_from]. intros H. apply orb_false_iff in H as [-> H].
  by rewrite IH.
Qed.

(** The text before the first occurrence and the text after it. *)
Lemma partition_split sep s x y :
  partition sep s = Some (x, y) -> s = x +:+ sep +:+ y.
Proof.
  revert x. induction s as [|c s IH]; intros x; cbn [partition].
  - destruct (startswith "" sep) eqn:H; [|discriminate].
    intros [= <- <-]. by apply startswith_split in H.
  - destruct (startswith (String c s) sep) eqn:H.
    + intros [= <- <-]. by apply startswith_split in H.
    + destruct (partition sep s) as [[before after]|]; [|discriminate].
      intros [= <- <-]. rewrite app_cons. f_equal. by apply IH.
Qed.

Lemma contains_partition sep s :
  contains sep s = true -> exists x y, partition sep s = Some (x, y).
Proof.
  induction s as [|c s IH]; cbn [contains partition].
  - rewrite orb_false_r. intros ->. eauto.
  - destruct (startswith (String c s) sep); [eauto|]. simpl. intros H.
    destruct (IH H) as (x & y & ->). eauto.
Qed.

Lemma replace_partition old new s x y :
  old <> EmptyString ->
  partition old s = Some (x, y) ->
  replace old new s = x +:+ new +:+ replace old new y.
Proof.
  intros Hold. revert x. induction s as [|c s IH]; intros x; cbn [partition].
  - by rewrite startswith_empty.
  - destruct (startswith (String c s) old) eqn:H.
    + intros [= <- <-]. by rewrite replace_match.
    + destruct (partition old s) as [[before after]|]; [|discriminate].
      intros [= <- <-]. unfold replace in *. cbn [replace_from]. rewrite H.
      rewrite app_cons. f_equal. by apply IH.
Qed.

(** A text that occurs once is replaced once. *)
Lemma replace_single old new s :
  old <> EmptyString ->
  contains old s = true ->
  (occurrences old s <= 1)%nat ->
  exists x y, s = x +:+ old +:+ y /\ replace old new s = x +:+ new +:+ y.
Proof.
  intros Hold Hin Hone. destruct (contains_partition _ _ Hin) as (x & y & Hp).
  exists x, y. pose proof (partition_split _ _ _ _ Hp) as Hs. split; [done|].
  rewrite (replace_partition _ _ _ _ _ Hold Hp). do 2 f_equal.
  apply replace_absent, occurrences_zero.
  assert (1 + occurrences old y <= occurrences old s)%nat; [|lia].
  rewrite Hs. etrans; [|apply occurrences_suffix; done].
  destruct old as [|a old]; [done|].
  rewrite app_cons, occurrences_cons, <- app_cons, startswith_app.
  pose proof (occurrences_suffix (String a old) old y Hold). lia.
Qed.

(** The script is a first line break, a text that holds the banner once,
    the hash between two quotes, a text without the banner, and a last
    line break. *)
Lemma inject_script_parts h :
  inject_script h =
  String "010" (head_text +:+ String "'" (h +:+ String "'" (tail_text +:+ String "010" ""))).
Proof.
  unfold inject_script.
  change script_head with (String "010" (head_text +:+ String "'" "")).
  change script_tail with (String "'" (tail_text +:+ String "010" "")).
  by rewrite app_cons, !app_assoc_str.
Qed.

Lemma banner_in_script h : exists a b, inject_script h = a +:+ banner +:+ b.
Proof.
  unfold inject_script.
  exists (take 10 script_head), (drop 44 script_head +:+ h +:+ script_tail).
  change script_head with (take 10 script_head +:+ banner +:+ drop 44 script_head) at 1.
  by rewrite !app_assoc_str.
Qed.

(** The script is met once in a text built around one copy of it, when
    the banner is met nowhere else. *)
Lemma script_once h x z :
  contains banner h = false ->
  contains banner x = false ->
  contains banner z = false ->
  occurrences (inject_script h) (x +:+ inject_script h +:+ z) = 1%nat.
Proof.
  intros Hh Hx Hz. apply occurrences_zero in Hh, Hx, Hz.
  apply Nat.le_antisymm; [|apply occurrences_at_least_one].
  destruct (banner_in_script h) as (a & b & Hparts).
  etrans.
  { rewrite Hparts at 1. etrans; [apply occurrences_drop_prefix|].
    apply occurrences_drop_suffix. }
  rewrite inject_script_parts, app_cons, !app_assoc_str, app_cons, !app_assoc_str,
    app_cons, !app_assoc_str, app_cons.
  assert (banner <> EmptyString) as Hb by discriminate.
  rewrite (occurrences_separator "010" banner) by done.
  rewrite (occurrences_separator "'" banner) by done.
  rewrite (occurrences_separator "'" banner) by done.
  rewrite (occurrences_separator "010" banner) by done.
  rewrite app_empty_l, Hx, Hh, Hz. reflexivity.
Qed.

Lemma contains_false_prefix sub x z :
  sub <> EmptyString -> contains sub (x +:+ z) = false -> contains sub x = false.
Proof.
  intros Hsub H. apply occurrences_zero in H. apply occurrences_zero.
  pose proof (occurrences_prefix sub x z Hsub). lia.
Qed.

Lemma contains_false_suffix sub x z :
  sub <> EmptyString -> contains sub (x +:+ z) = false -> contains sub z = false.
Proof.
  intros Hsub H. apply occurrences_zero in H. apply occurrences_zero.
  pose proof (occurrences_suffix sub x z Hsub). lia.
Qed.

(** One copy of the script before the one closing tag. *)
Lemma inject_before_tag tag html h :
  tag <> EmptyString ->
  contains banner html = false ->
  contains banner h = false ->
  contains tag html = true ->
  (occurrences tag html <= 1)%nat ->
  exists x y,
    html = x +:+ tag +:+ y /\
    replace tag (inject_script h +:+ tag) html = x +:+ inject_script h +:+ tag +:+ y /\
    occurrences (inject_script h) (replace tag (inject_script h +:+ tag) html) = 1%nat.
Proof.
  intros Htag Hhtml Hh Hin Hone.
  destruct (replace_single tag (inject_script h +:+ tag) html Htag Hin Hone)
    as (x & y & Hsplit & Hrep).
  exists x, y. rewrite Hrep, app_assoc_str. split; [done|]. split; [done|].
  assert (banner <> EmptyString) as Hb by discriminate.
  rewrite Hsplit in Hhtml. apply script_once; [done|..].
  - by eapply contains_false_prefix.
  - by eapply contains_false_suffix.
Qed.

(** C2, as the code has it. When a document is stored that does not
    hold the banner line of the script (nor does the hash of the server),
    and in which the closing tag that the script goes before occurs once,
    the stored text holds the script once: before "</head>" when that tag
    is there, else before "</body>" when that tag is there, else at the
    end. *)
Theorem save_html_file_one_script
    (html filename h saved : string) (s s' : browser) :
  _save_html_file opens html filename h s = Some (saved, s') ->
  contains banner html = false ->
  contains banner h = false ->
  (occurrences "</head>" html <= 1)%nat ->
  (contains "</head>" html = false -> (occurrences "</body>" html <= 1)%nat) ->
  exists stored,
    html_cache s' !! filename = Some stored /\
    occurrences (inject_script h) stored = 1%nat /\
    (contains "</head>" html = true ->
       exists x y, html = x +:+ "</head>" +:+ y /\
                   stored = x +:+ inject_script h +:+ "</head>" +:+ y) /\
    (contains "</head>" html = false -> contains "</body>" html = true ->
       exists x y, html = x +:+ "</body>" +:+ y /\
                   stored = x +:+ inject_script h +:+ "</body>" +:+ y) /\
    (contains "</head>" html = false -> contains "</body>" html = false ->
       stored = html +:+ inject_script h).
Proof.
  unfold _save_html_file. destruct (opens html_cache_path filename); [|discriminate].
  intros [= <- <-] Hhtml Hh Hhead Hbody.
  exists (injected_html html h). simpl. rewrite lookup_insert_eq.
  split; [done|]. unfold injected_html. cbv zeta.
  destruct (contains "</head>" html) eqn:Hinhead.
  - destruct (inject_before_tag "</head>" html h ltac:(discriminate)
                Hhtml Hh Hinhead Hhead) as (x & y & Hsplit & Hrep & Hocc).
    split; [done|]. split; [|split; intros; discriminate].
    intros _. exists x, y. done.
  - specialize (Hbody eq_refl). destruct (contains "</body>" html) eqn:Hinbody.
    + destruct (inject_before_tag "</body>" html h ltac:(discriminate)
                  Hhtml Hh Hinbody Hbody) as (x & y & Hsplit & Hrep & Hocc).
      split; [done|]. split; [intros; discriminate|]. split; [|intros; discriminate].
      intros _ _. exists x, y. done.
    + split.
      * rewrite <- (app_empty_r (inject_script h)) at 2. by apply script_once.
      * split; [intros; discriminate|]. split; [intros; discriminate | done].
Qed.

End Interceptor.

Section InterceptorSamples.
Import PyStr Client ClientObs Samples.

(** A page with one head is stored with one copy of the script. *)
Lemma save_html_file_one_script_witness :
  let page := "<html><head></head><body><a href='x.html'>x</a></body></html>" in
  exists s' stored,
    _save_html_file opens_plain page "0_index.html" "<aabb>" fresh_browser =
      Some ("0_index.html", s') /\
    html_cache s' !! "0_index.html" = Some stored /\
    occurrences (inject_script "<aabb>") stored = 1%nat.
Proof.
  cbv zeta.
  pose (page := "<html><head></head><body><a href='x.html'>x</a></body></html>").
  pose (s' := set_html_cache
                (<["0_index.html" := injected_html page "<aabb>"]>
                   (html_cache fresh_browser)) fresh_browser).
  assert (occurrences "</head>" page <= 1)%nat as Hhead by (vm_compute; lia).
  assert (contains "</head>" page = false -> (occurrences "</body>" page <= 1)%nat)
    as Hbody by discriminate.
  destruct (save_html_file_one_script opens_plain page "0_index.html" "<aabb>"
              "0_index.html" fresh_browser s' eq_refl eq_refl eq_refl Hhead Hbody)
    as (stored & Hstored & Hone & _).
  exists s', stored. split; [reflexivity|]. split; [exact Hstored | exact Hone].
Defined.

(** A page in which "</head>" is written twice is stored with two copies
    of the script, and so is a page that is stored again. *)
Lemma two_closing_tags_two_scripts :
  let page := "<head></head><!-- </head> -->" in
  let once := injected_html "<head></head>" "<aabb>" in
  (exists s',
     _save_html_file opens_plain page "0_page.html" "<aabb>" fresh_browser =
       Some ("0_page.html", s') /\
     html_cache s' !! "0_page.html" = Some (injected_html page "<aabb>")) /\
  occurrences (inject_script "<aabb>") (injected_html page "<aabb>") = 2%nat /\
  occurrences (inject_script "<aabb>") (injected_html once "<aabb>") = 2%nat.
Proof.
  cbv zeta. split; [|split; vm_compute; reflexivity].
  eexists. split; [reflexivity|]. vm_compute. reflexivity.
Qed.

End InterceptorSamples.

(** ** The dispatcher of the server *)

Section ServerEffects.
Import PyStr Posix Server ServerObs Dispatcher DispatcherObs.

Variable recall : list byte -> Z -> bool.

Lemma effect_refl sender s : effect sender 0 0 0 s s.
Proof.
  repeat split; try lia.
  - exists []. by rewrite app_nil_r.
  - exists []. by rewrite app_nil_r.
Qed.

Lemma effect_trans sender dt1 dt2 k1 k2 n1 n2 s1 s2 s3 :
  effect sender dt1 k1 n1 s1 s2 -> effect sender dt2 k2 n2 s2 s3 ->
  effect sender (dt1 + dt2) (k1 + k2) (n1 + n2) s1 s3.
Proof.
  intros (Hp1 & Hc1 & (q1 & Hq1 & Hk1 & Hf1) & (l1 & Hl1 & Hn1 & Hd1))
         (Hp2 & Hc2 & (q2 & Hq2 & Hk2 & Hf2) & (l2 & Hl2 & Hn2 & Hd2)).
  split; [congruence|]. split; [lia|]. split.
  - exists (q1 ++ q2). rewrite Hq2, Hq1, app_assoc, length_app.
    split; [done|]. split; [lia|]. by apply Forall_app.
  - exists (l1 ++ l2). rewrite Hl2, Hl1, app_assoc, length_app.
    split; [done|]. split; [lia|]. by apply Forall_app.
Qed.

Lemma effect_weaken sender dt dt' k k' n n' s s' :
  dt <= dt' -> (k <= k')%nat -> (n <= n')%nat ->
  effect sender dt k n s s' -> effect sender dt' k' n' s s'.
Proof.
  intros Hdt Hk Hn (Hp & Hc & (q & Hq & Hkq & Hf) & (l & Hl & Hnl & Hd)).
  split; [done|]. split; [lia|]. split.
  - exists q. repeat split; [done|lia|done].
  - exists l. repeat split; [done|lia|done].
Qed.

Lemma effect_log sender dt k n who page success s s' :
  effect sender dt k n s s' ->
  effect sender dt k n s (_log_access who page success s').
Proof. done. Qed.

Lemma effect_count sender dt k n s s' :
  effect sender dt k n s s' -> effect sender dt k n s (count_request s').
Proof. done. Qed.

Lemma effect_handle_outbound sender m s :
  destination m = sender -> effect sender 0 0 1 s (handle_outbound m s).
Proof.
  intros Hm. split; [done|]. split; [cbn; lia|]. split.
  - exists []. cbn. by rewrite app_nil_r.
  - exists [m]. cbn. repeat split; [lia|]. by apply Forall_singleton.
Qed.

Lemma resolve_identity_effect dest s :
  effect dest 15000 1 0 s (snd (resolve_identity recall dest s)).
Proof.
  pose proof (resolve_identity_spec recall dest s) as Hspec. cbv zeta in Hspec.
  destruct Hspec as ((Hp & _ & _ & Ho) & _ & Hnow & Hlater).
  destruct (recall dest (Server.clock s)) eqn:Hr.
  - rewrite (Hnow eq_refl). cbn.
    eapply effect_weaken; [| | |apply effect_refl]; lia.
  - destruct (Hlater eq_refl) as (Hq & Hc & _). unfold max_wait in Hc.
    split; [done|]. split; [lia|]. split.
    + exists [dest]. repeat split; [done|cbn; lia|]. by apply Forall_singleton.
    + exists []. rewrite app_nil_r. by repeat split.
Qed.

Lemma send_html_effect dest html text s :
  effect dest 15000 1 1 s (snd (_send_html recall dest html text s)).
Proof.
  unfold _send_html.
  pose proof (resolve_identity_effect dest s) as He.
  destruct (resolve_identity recall dest s) as [[] s1]; cbn in *.
  - change 15000 with (15000 + 0). change 1%nat with (1 + 0)%nat at 1.
    change 1%nat with (0 + 1)%nat at 2.
    eapply effect_trans; [exact He|]. by apply effect_handle_outbound.
  - eapply effect_weaken; [| | |exact He]; lia.
Qed.

Lemma send_file_effect dest file_path filename s :
  effect dest 15000 1 1 s (snd (_send_file recall dest file_path filename s)).
Proof.
  unfold _send_file.
  pose proof (resolve_identity_effect dest s) as He.
  destruct (resolve_identity recall dest s) as [[] s1]; cbn in *.
  - destruct (lookup_path (pages s1) file_path) as [[|data text]|]; cbn.
    + eapply effect_weaken; [| | |exact He]; lia.
    + change 15000 with (15000 + 0). change 1%nat with (1 + 0)%nat at 1.
      change 1%nat with (0 + 1)%nat at 2.
      eapply effect_trans; [exact He|]. by apply effect_handle_outbound.
    + eapply effect_weaken; [| | |exact He]; lia.
  - eapply effect_weaken; [| | |exact He]; lia.
Qed.

Lemma send_simple_message_effect dest text s :
  effect dest 2000 1 1 s (snd (_send_simple_message recall dest text s)).
Proof.
  unfold _send_simple_message.
  destruct (recall dest (Server.clock s)).
  - cbn. eapply effect_weaken; [| | |by apply (effect_handle_outbound dest)]; lia.
  - assert (effect dest 2000 1 0 s (sleep 2000 (request_path dest s))) as He.
    { split; [done|]. split; [cbn; lia|]. split.
      - exists [dest]. repeat split; [cbn; lia|]. by apply Forall_singleton.
      - exists []. cbn. rewrite app_nil_r. by repeat split. }
    destruct (recall dest _); cbn.
    + change 2000 with (2000 + 0). change 1%nat with (1 + 0)%nat at 1.
      change 1%nat with (0 + 1)%nat at 2.
      eapply effect_trans; [exact He|]. by apply effect_handle_outbound.
    + eapply effect_weaken; [| | |exact He]; lia.
Qed.

Lemma serve_page_effect sender P s :
  effect sender 17000 2 2 s (snd (_serve_page recall sender P s)).
Proof.
  unfold _serve_page.
  destruct (is_index_name (basename P)).
  - cbn. apply effect_log.
    change 17000 with (15000 + 2000). change 2%nat with (1 + 1)%nat.
    eapply effect_trans; [apply send_html_effect|apply send_simple_message_effect].
  - destruct (lookup_path (pages s) (basename P)) as [file|].
    + destruct (mem (extension (basename P)) [".html"; ".htm"]).
      * destruct file as [|data [html|]]; cbn.
        -- apply effect_log. eapply effect_weaken; [| | |apply effect_refl]; lia.
        -- apply effect_count, effect_log.
           eapply effect_weaken; [| | |apply send_html_effect]; lia.
        -- apply effect_log. eapply effect_weaken; [| | |apply effect_refl]; lia.
      * cbn. apply effect_count, effect_log.
        eapply effect_weaken; [| | |apply send_file_effect]; lia.
    + cbn. apply effect_log.
      eapply effect_weaken; [| | |apply send_html_effect]; lia.
Qed.


Variable help_text : nat -> string.

(** X1. Whatever message arrives, the dispatcher leaves the pages
    directory as it is, keeps the handler busy for at most seventeen
    seconds, asks for at most two paths and hands at most two messages to
    the router; every path request and every message is for the sender of
    the message. *)
Theorem handle_message_confined (message : inbound_message) (s : server) :
  let s' := _handle_message recall help_text message s in
  let sender := source_hash message in
  pages s' = pages s /\
  Server.clock s <= Server.clock s' <= Server.clock s + 17000 /\
  (exists q, path_requests s' = path_requests s ++ q /\ (length q <= 2)%nat /\
             Forall (eq sender) q) /\
  (exists l, sent s s' l /\ (length l <= 2)%nat /\
             Forall (fun m => destination m = sender) l).
Proof.
  cbv zeta.
  change (effect (source_hash message) 17000 2 2 s
            (_handle_message recall help_text message s)).
  unfold _handle_message.
  destruct (fields message !! FIELD_HTML_REQUEST); [apply serve_page_effect|].
  repeat match goal with
         | |- context [if ?b then _ else _] => destruct b
         end;
    try apply serve_page_effect;
    (eapply effect_weaken; [| | |apply send_simple_message_effect]; lia).
Qed.



Lemma never_recalled_unreachable dest s :
  never_recalled recall dest -> ~ reachable recall dest s.
Proof. intros Hn (k & _ & Hk). by rewrite Hn in Hk. Qed.

Lemma resolve_identity_unrecalled dest s :
  never_recalled recall dest ->
  exists s1, resolve_identity recall dest s = (false, s1) /\
             same_store s s1 /\ Server.clock s1 = Server.clock s + 15000.
Proof.
  intros Hn.
  pose proof (resolve_identity_spec recall dest s) as Hspec. cbv zeta in Hspec.
  destruct Hspec as (Hstore & Hreach & _ & Hlater).
  destruct (resolve_identity recall dest s) as [b s1]; cbn in *.
  destruct b.
  - exfalso. apply (never_recalled_unreachable dest s Hn). by apply Hreach.
  - exists s1. repeat split; try apply Hstore.
    by destruct (Hlater (Hn _)) as (_ & _ & ->).
Qed.

(** X3. When the identity of the requester is never recalled, a
    request for a file that is there and can be read is not answered:
    nothing is handed to the router. The request is still logged as a
    success, fifteen seconds later, counted, and the result is [True]. *)
Theorem serve_page_unanswered_success
    (sender : list byte) (P : string) (s : server)
    (data : list byte) (text : option string) :
  never_recalled recall sender ->
  is_index_name (basename P) = false ->
  lookup_path (pages s) (basename P) = Some (RegularFile data text) ->
  (mem (extension (basename P)) [".html"; ".htm"] = true -> is_Some text) ->
  let r := _serve_page recall sender P s in
  fst r = true /\
  outbound (snd r) = outbound s /\
  requests_served (snd r) = S (requests_served s) /\
  access_log (snd r) =
    access_log s ++
      [ {| entry_time := Server.clock s + 15000; entry_sender := sender;
           entry_page := basename P; entry_success := true |} ].
Proof.
  intros Hn Hindex Hfile Htext. cbv zeta. unfold _serve_page.
  rewrite Hindex, Hfile.
  destruct (resolve_identity_unrecalled sender s Hn)
    as (s1 & Hres & (Hp & Hc & Hl & Ho) & Hclock).
  destruct (mem (extension (basename P)) [".html"; ".htm"]).
  - destruct (Htext eq_refl) as [html ->].
    unfold _send_html. rewrite Hres. cbn. by rewrite Ho, Hc, Hl, Hclock.
  - unfold _send_file. rewrite Hres. cbn. by rewrite Ho, Hc, Hl, Hclock.
Qed.

(** X4. A request for a name that leads to a directory (the two dot
    entries, or a directory among the pages) is never answered, not even
    with the 404 page, whatever the network does. When the name has no
    HTML extension, the request is logged as a success and counted, and the
    result is [True]; with an HTML extension it is logged as a failure. *)
Theorem serve_page_directory (sender : list byte) (P : string) (s : server) :
  is_index_name (basename P) = false ->
  lookup_path (pages s) (basename P) = Some Directory ->
  let r := _serve_page recall sender P s in
  let html := mem (extension (basename P)) [".html"; ".htm"] in
  fst r = negb html /\
  outbound (snd r) = outbound s /\
  requests_served (snd r) =
    (if html then requests_served s else S (requests_served s)) /\
  exists e, access_log (snd r) = access_log s ++ [e] /\
            entry_page e = basename P /\ entry_success e = negb html.
Proof.
  intros Hindex Hdir. cbv zeta. unfold _serve_page. rewrite Hindex, Hdir.
  destruct (mem (extension (basename P)) [".html"; ".htm"]); cbn.
  - repeat split. by eexists.
  - pose proof (send_file_spec recall sender (basename P) (basename P) s) as Hf.
    cbv zeta in Hf. destruct Hf as ((_ & Hc & Hl) & Htrue & _ & Hfalse).
    assert (fst (_send_file recall sender (basename P) (basename P) s) = false) as Hfst.
    { destruct (fst _) eqn:Hb; [|done].
      destruct Htrue as [Htrue _]. destruct (Htrue eq_refl) as (_ & d & t & Hreg).
      congruence. }
    specialize (Hfalse Hfst). unfold sent in Hfalse. rewrite app_nil_r in Hfalse.
    repeat split; [done|by rewrite Hc|]. eexists. by rewrite Hl.
Qed.

(** X5. A request for the index is never refused and never counted:
    the result is [True], one line of success for INDEX is logged, and
    the answer is the HTML index followed by the text index, both built
    from the sorted list of the supported files. The HTML index is handed
    to the router exactly when the requester is reachable; a requester
    whose identity is recalled at once gets both. *)
Theorem serve_page_index_answer (sender : list byte) (P : string) (s : server) :
  is_index_name (basename P) = true ->
  let r := _serve_page recall sender P s in
  let files := _get_page_list (pages s) in
  let html := html_message sender (DynamicIndex files) (Literal "File Index") in
  let text :=
    text_message sender
      (match files with [] => Literal "No files available" | _ => TextIndex files end) in
  fst r = true /\
  requests_served (snd r) = requests_served s /\
  (exists e, access_log (snd r) = access_log s ++ [e] /\
             entry_page e = "INDEX" /\ entry_success e = true) /\
  exists with_html with_text : bool,
    sent s (snd r)
      ((if with_html then [html] else []) ++ (if with_text then [text] else [])) /\
    (with_html = true <-> reachable recall sender s) /\
    (recall sender (Server.clock s) = true -> with_html = true /\ with_text = true).
Proof.
  intros Hindex. cbv zeta. unfold _serve_page. rewrite Hindex. cbn [fst snd].
  pose proof (send_html_spec recall sender (_generate_dynamic_index s)
                (Literal "File Index") s) as Hh. cbv zeta in Hh.
  destruct Hh as ((Hp1 & Hc1 & Hl1) & Hreach & Hsent1).
  pose proof (resolve_identity_spec recall sender s) as Hres. cbv zeta in Hres.
  destruct Hres as (_ & _ & Hnow & _).
  assert (recall sender (Server.clock s) = true ->
          snd (_send_html recall sender (_generate_dynamic_index s)
                 (Literal "File Index") s) =
          handle_outbound (html_message sender (_generate_dynamic_index s)
                             (Literal "File Index")) s) as Hsame.
  { intros Hr. unfold _send_html. by rewrite (Hnow Hr). }
  set (s1 := snd (_send_html recall sender _ _ s)) in *.
  pose proof (send_simple_message_spec recall sender (_generate_text_index s) s1) as Ht.
  cbv zeta in Ht. destruct Ht as ((Hp2 & Hc2 & Hl2) & Hsent2).
  assert (recall sender (Server.clock s) = true ->
          fst (_send_simple_message recall sender (_generate_text_index s) s1) = true)
    as Hboth.
  { intros Hr. unfold _send_simple_message. rewrite (Hsame Hr). cbn. by rewrite Hr. }
  set (r2 := _send_simple_message recall sender _ s1) in *.
  split; [done|]. split; [cbn; congruence|]. split.
  { eexists. cbn. by rewrite Hl2, Hl1. }
  exists (fst (_send_html recall sender (_generate_dynamic_index s)
                 (Literal "File Index") s)), (fst r2).
  split; [|split].
  - unfold sent in *. cbn [outbound _log_access]. rewrite Hsent2, Hsent1, <- app_assoc.
    assert (_generate_text_index s =
            match _get_page_list (pages s) with
            | [] => Literal "No files available"
            | _ => TextIndex (_get_page_list (pages s))
            end) as ->; [|reflexivity].
    unfold _generate_text_index. by destruct (_get_page_list (pages s)).
  - exact Hreach.
  - intros Hr. split; [|by apply Hboth].
    apply Hreach. exists 0. split; [lia|]. by rewrite Z.mul_0_r, Z.add_0_r.
Qed.

End ServerEffects.

Section ServerEffectsSamples.
Import PyStr Posix Server ServerObs Dispatcher DispatcherObs Samples MoreSamples.

Lemma serve_page_unanswered_success_witness :
  let r := _serve_page never_known peer "about.html" small_server in
  never_recalled never_known peer /\
  fst r = true /\ outbound (snd r) = [] /\ requests_served (snd r) = 1%nat /\
  access_log (snd r) =
    [ {| entry_time := 15000; entry_sender := peer; entry_page := "about.html";
         entry_success := true |} ].
Proof.
  cbv zeta. split; [done|].
  apply (serve_page_unanswered_success never_known peer "about.html" small_server
           [Byte.x3c; Byte.x70; Byte.x3e] (Some "<p>")).
  - done.
  - vm_compute. reflexivity.
  - vm_compute. reflexivity.
  - intros _. by eexists.
Defined.

Lemma serve_page_directory_witness :
  let r := _serve_page always_known peer "pages/.." small_server in
  is_index_name (basename "pages/..") = false /\
  lookup_path (pages small_server) (basename "pages/..") = Some Directory /\
  fst r = true /\ outbound (snd r) = [] /\ requests_served (snd r) = 1%nat.
Proof.
  cbv zeta. split; [vm_compute; reflexivity|]. split; [vm_compute; reflexivity|].
  pose proof (serve_page_directory always_known peer "pages/.." small_server) as H.
  cbv zeta in H. destruct H as (Hf & Ho & Hc & _).
  - vm_compute. reflexivity.
  - vm_compute. reflexivity.
  - split; [exact Hf|]. split; [exact Ho|]. exact Hc.
Defined.

Lemma serve_page_index_answer_witness :
  let r := _serve_page always_known peer "LIST" small_server in
  is_index_name (basename "LIST") = true /\
  fst r = true /\ requests_served (snd r) = 0%nat.
Proof.
  cbv zeta. split; [vm_compute; reflexivity|].
  pose proof (serve_page_index_answer always_known peer "LIST" small_server) as H.
  cbv zeta in H. destruct H as (Hf & Hc & _).
  - vm_compute. reflexivity.
  - split; [exact Hf|exact Hc].
Defined.

End ServerEffectsSamples.

(** ** The announce loop of the server *)

Section AnnounceLoop.
Import Announcer AnnouncerObs.

Lemma announce_if_due_settings a :
  running (announce_if_due a) = running a /\
  auto_announce_enabled (announce_if_due a) = auto_announce_enabled a /\
  auto_announce_interval (announce_if_due a) = auto_announce_interval a /\
  clock (announce_if_due a) = clock a + 10000.
Proof.
  unfold announce_if_due.
  destruct (auto_announce_enabled a) eqn:He; [destruct (_ <=? _)|];
    cbn; rewrite ?He; done.
Qed.

Lemma announce_if_due_cases a :
  (announced (announce_if_due a) = announced a /\
   last_announce (announce_if_due a) = last_announce a) \/
  (auto_announce_enabled a = true /\
   last_announce a + 1000 * auto_announce_interval a <= clock a /\
   announced (announce_if_due a) = announced a ++ [clock a] /\
   last_announce (announce_if_due a) = clock a).
Proof.
  unfold announce_if_due.
  destruct (auto_announce_enabled a) eqn:He; [|by left].
  destruct (1000 * auto_announce_interval a <=? clock a - last_announce a) eqn:Hdue;
    [|by left].
  apply Z.leb_le in Hdue. right. cbn. repeat split; try done; lia.
Qed.

Lemma last_cons_default {A} (x : A) (l : list A) (d : A) :
  List.last (x :: l) d = List.last l x.
Proof.
  revert x d. induction l as [|y l IH]; intros x d; [done|].
  change (List.last (x :: y :: l) d) with (List.last (y :: l) d).
  by rewrite (IH y d), (IH y x).
Qed.

(** X6. However long the announce loop runs, it announces at clock
    readings that lie at least the announce interval apart, the first of
    them at least one interval after the last announce before the loop; the
    time of the last announce is kept in [last_announce]. With the
    automatic announces switched off the loop announces nothing. *)
Theorem auto_announce_spacing (n : nat) (a : announcer) :
  let a' := _auto_announce_loop n a in
  exists times,
    announced a' = announced a ++ times /\
    spaced (1000 * auto_announce_interval a) (last_announce a) times /\
    last_announce a' = List.last times (last_announce a) /\
    Forall (fun t => clock a <= t < clock a + 10000 * Z.of_nat n) times /\
    (auto_announce_enabled a = false -> times = []).
Proof.
  cbv zeta. revert a. induction n as [|n IH]; intros a.
  - exists []. cbn. rewrite app_nil_r. repeat split. constructor.
  - cbn [_auto_announce_loop]. destruct (running a).
    2:{ exists []. cbn. rewrite app_nil_r. repeat split. constructor. }
    destruct (IH (announce_if_due a)) as (times & Hann & Hsp & Hlast & Hin & Hoff).
    destruct (announce_if_due_settings a) as (_ & He & Hi & Hc).
    rewrite Hi, He, Hc in *.
    assert (Forall (fun t => clock a <= t < clock a + 10000 * Z.of_nat (S n)) times)
      as Hin'.
    { eapply Forall_impl; [exact Hin|]. cbn. intros t Ht. lia. }
    destruct (announce_if_due_cases a) as [[Ha Hl]|(Hen & Hdue & Ha & Hl)].
    + rewrite Ha, Hl in *. exists times. by repeat split.
    + rewrite Ha, Hl in *. exists (clock a :: times). rewrite Hann, <- app_assoc.
      split; [done|]. split; [split; [lia|done]|]. split.
      { by rewrite Hlast, last_cons_default. }
      split; [|intros Hf; congruence]. constructor; [lia|done].
Qed.

Lemma announce_if_due_fresh a :
  auto_announce_enabled a = true ->
  0 < auto_announce_interval a ->
  clock (announce_if_due a) - last_announce (announce_if_due a) <
    1000 * auto_announce_interval a + 10000.
Proof.
  intros He Hi. unfold announce_if_due. rewrite He.
  destruct (1000 * auto_announce_interval a <=? clock a - last_announce a) eqn:Hdue; cbn.
  - lia.
  - apply Z.leb_gt in Hdue. lia.
Qed.

(** X7. While the loop runs with the automatic announces switched on
    and a positive interval, the server is never silent for longer than
    the interval and ten seconds: after every turn of the loop, the time
    since the last announce is below that bound. Each turn takes ten
    seconds. *)
Theorem auto_announce_never_late (n : nat) (a : announcer) :
  running a = true ->
  auto_announce_enabled a = true ->
  0 < auto_announce_interval a ->
  let a' := _auto_announce_loop (S n) a in
  clock a' = clock a + 10000 * Z.of_nat (S n) /\
  clock a' - last_announce a' < 1000 * auto_announce_interval a + 10000.
Proof.
  intros Hr He Hi. cbv zeta. cbn [_auto_announce_loop]. rewrite Hr.
  pose proof (announce_if_due_fresh a He Hi) as Hfresh.
  destruct (announce_if_due_settings a) as (Hr1 & He1 & Hi1 & Hc1).
  rewrite <- Hi1 in Hfresh. rewrite <- Hr1 in Hr. rewrite <- He1 in He.
  rewrite <- Hi1 in Hi. rewrite <- Hi1.
  replace (clock a + 10000 * Z.of_nat (S n))
    with (clock (announce_if_due a) + 10000 * Z.of_nat n) by lia.
  clear Hr1 He1 Hi1 Hc1. generalize dependent (announce_if_due a). clear a.
  induction n as [|n IH]; intros a Hr He Hi Hfresh.
  - cbn [_auto_announce_loop]. split; [lia|done].
  - cbn [_auto_announce_loop]. rewrite Hr.
    pose proof (announce_if_due_fresh a He Hi) as Hnext.
    destruct (announce_if_due_settings a) as (Hr1 & He1 & Hi1 & Hc1).
    destruct (IH (announce_if_due a)) as [Hclock Hbound]; [congruence..| |].
    { by rewrite Hi1. }
    rewrite Hi1 in Hbound. split; [lia|done].
Qed.

End AnnounceLoop.

Section AnnounceLoopSamples.
Import Announcer AnnouncerObs MoreSamples.

Lemma auto_announce_never_late_witness :
  let a' := _auto_announce_loop 400 started in
  running started = true /\ auto_announce_enabled started = true /\
  0 < auto_announce_interval started /\
  clock a' = 4000000 /\
  clock a' - last_announce a' < 1810000.
Proof.
  cbv zeta. split; [done|]. split; [done|]. split; [done|].
  apply (auto_announce_never_late 399 started); done.
Defined.

End AnnounceLoopSamples.

(** ** The registry of the client *)

Section Registry.
Import PyStr Client ClientObs WebApi WebApiObs.

Variable recall : list byte -> Z -> bool.
Variable display_name_from_app_data : list byte -> option string.
Variable opens : string -> string -> bool.

Lemma clear_pending_registry key s :
  discovered_servers (clear_pending key s) = discovered_servers s /\
  known_peers (clear_pending key s) = known_peers s.
Proof. unfold clear_pending. by destruct (pending_requests s !! key). Qed.

Lemma record_registry e entry s :
  discovered_servers (emit e (_save_data (set_history (history s ++ [entry]) s))) =
    discovered_servers s /\
  known_peers (emit e (_save_data (set_history (history s ++ [entry]) s))) =
    known_peers s.
Proof.
  destruct (emit_registry e (_save_data (set_history (history s ++ [entry]) s)))
    as (-> & -> & _).
  destruct (save_data_registry (set_history (history s ++ [entry]) s))
    as (-> & -> & _).
  done.
Qed.

Lemma handle_html_registry key content html s :
  discovered_servers (handle_html opens key content html s) = discovered_servers s /\
  known_peers (handle_html opens key content html s) = known_peers s.
Proof.
  unfold handle_html, _save_html_file. cbv zeta. destruct html as [text|l].
  - destruct (opens html_cache_path _); [|done]. cbv beta iota.
    match goal with
    | |- context [clear_pending key ?t] =>
        destruct (clear_pending_registry key t) as (-> & ->)
    end.
    match goal with
    | |- context [emit ?e (_save_data (set_history (history ?t ++ [?entry]) ?t))] =>
        destruct (record_registry e entry t) as (-> & ->)
    end.
    done.
  - by destruct (opens html_cache_path _).
Qed.

Lemma save_attachment_registry key server_name s a s1 :
  save_attachment opens key server_name s a = Some s1 ->
  discovered_servers s1 = discovered_servers s /\ known_peers s1 = known_peers s.
Proof.
  destruct a as [filename file_data]. unfold save_attachment. cbv zeta.
  destruct (opens cache_path filename); [|discriminate]. intros [= <-].
  match goal with
  | |- context [emit ?e (_save_data ?t)] =>
      destruct (emit_registry e (_save_data t)) as (-> & -> & _);
      destruct (save_data_registry t) as (-> & -> & _)
  end.
  done.
Qed.

Lemma save_attachments_registry key server_name l s :
  discovered_servers (snd (save_attachments opens key server_name l s)) =
    discovered_servers s /\
  known_peers (snd (save_attachments opens key server_name l s)) = known_peers s.
Proof.
  revert s. induction l as [|a l IH]; intros s; [done|].
  cbn [save_attachments].
  destruct (save_attachment opens key server_name s a) as [s1|] eqn:Ha; [|done].
  destruct (IH s1) as (-> & ->). by eapply save_attachment_registry.
Qed.

Lemma handle_files_registry key files s :
  discovered_servers (handle_files opens key files s) = discovered_servers s /\
  known_peers (handle_files opens key files s) = known_peers s.
Proof.
  unfold handle_files. destruct files as [text|l]; [apply clear_pending_registry|].
  pose proof (save_attachments_registry key (server_name_of key s) l s) as Hr.
  destruct (save_attachments opens key (server_name_of key s) l s) as [[] s1];
    cbn in Hr; [|done].
  by destruct (clear_pending_registry key s1) as (-> & ->).
Qed.

Lemma send_request_registry dest m s :
  discovered_servers (snd (send_request recall dest m s)) = discovered_servers s /\
  known_peers (snd (send_request recall dest m s)) = known_peers s.
Proof.
  unfold send_request. destruct (recall dest _); [done|]. by destruct (recall dest _).
Qed.

Lemma request_page_registry server_hash page_name s :
  discovered_servers (snd (request_page recall server_hash page_name s)) =
    discovered_servers s /\
  known_peers (snd (request_page recall server_hash page_name s)) = known_peers s.
Proof.
  unfold request_page.
  destruct (partition "/" _) as [[before after]|];
    (destruct (bytes_fromhex _); [|done]);
    match goal with
    | |- context [send_request recall ?d ?m ?t] =>
        by destruct (send_request_registry d m t) as (-> & ->)
    end.
Qed.

Lemma request_page_list_registry server_hash s :
  discovered_servers (_request_page_list recall server_hash s) = discovered_servers s /\
  known_peers (_request_page_list recall server_hash s) = known_peers s.
Proof.
  unfold _request_page_list. destruct (bytes_fromhex _); [|done].
  match goal with
  | |- context [send_request recall ?d ?m ?t] =>
      by destruct (send_request_registry d m t) as (-> & ->)
  end.
Qed.

Lemma handle_discovery_coherent key display_name s :
  coherent s -> coherent (_handle_discovery key display_name s).
Proof.
  unfold coherent, _handle_discovery. intros Hc.
  destruct (bool_decide (key ∈ known_peers s)).
  - destruct (discovered_servers s !! key) as [info|] eqn:Hk; [|done].
    match goal with
    | |- context [_save_data ?t] => destruct (save_data_registry t) as (-> & -> & _)
    end.
    cbn. rewrite dom_insert_lookup_L; [done|by eexists].
  - match goal with
    | |- context [emit ?e ?t] => destruct (emit_registry e t) as (-> & -> & _)
    end.
    match goal with
    | |- context [_save_data ?t] => destruct (save_data_registry t) as (-> & -> & _)
    end.
    cbn. by rewrite dom_insert_L, Hc.
Qed.

Lemma received_announce_coherent dest app_data s :
  coherent s -> coherent (received_announce display_name_from_app_data dest app_data s).
Proof.
  intros Hc. unfold received_announce.
  destruct (bool_decide _); [done|]. destruct app_data; [done|].
  destruct (display_name_from_app_data _); [|done].
  destruct (String.eqb _ ""); [done|].
  destruct (_ || _); [|done]. by apply handle_discovery_coherent.
Qed.

Lemma handle_message_coherent message s :
  coherent s -> coherent (_handle_message opens message s).
Proof.
  unfold coherent. intros Hc. unfold _handle_message.
  destruct (is_list_response _ _ s).
  - unfold handle_list_response. cbn.
    destruct (discovered_servers s !! _) as [info|] eqn:Hk; [|done].
    match goal with
    | |- context [emit ?e ?t] => destruct (emit_registry e t) as (-> & -> & _)
    end.
    match goal with
    | |- context [_save_data ?t] => destruct (save_data_registry t) as (-> & -> & _)
    end.
    cbn. rewrite dom_insert_lookup_L; [done|by eexists].
  - destruct (fields message !! FIELD_HTML_CONTENT) as [html|].
    + by destruct (handle_html_registry (RNS.prettyhexrep (source_hash message))
                     (content message) html s) as (-> & ->).
    + destruct (fields message !! 2) as [files|]; [|done].
      by destruct (handle_files_registry (RNS.prettyhexrep (source_hash message))
                     files s) as (-> & ->).
Qed.

Lemma remove_server_registry key s :
  discovered_servers (remove_server key s) = delete key (discovered_servers s) /\
  known_peers (remove_server key s) = known_peers s ∖ {[key]}.
Proof.
  unfold remove_server.
  match goal with
  | |- context [_save_data ?t] => destruct (save_data_registry t) as (-> & -> & _)
  end.
  split.
  - destruct (discovered_servers s !! key) eqn:Hk.
    + by destruct (bool_decide _).
    + rewrite delete_id by done. by destruct (bool_decide _).
  - assert (forall t : browser,
              known_peers (if bool_decide (key ∈ known_peers t)
                           then set_known_peers (known_peers t ∖ {[key]}) t else t) =
              known_peers t ∖ {[key]}) as Hk.
    { intros t. destruct (bool_decide (key ∈ known_peers t)) eqn:Hin; [done|].
      apply bool_decide_eq_false in Hin. symmetry. apply difference_disjoint_L.
      by apply disjoint_singleton_r. }
    rewrite Hk. by destruct (discovered_servers s !! key).
Qed.

(** X8. The peers of the registry and the known peers stay the same
    set: when they agree, they agree after an announce, after an inbound
    message, after a request for a page or for the list, after the removal
    of a server, after a change of the bookmarks and after the history is
    cleared; and they agree after the stored data is loaded into a browser
    that knows no peer. *)
Theorem registry_stays_coherent (s : browser) :
  coherent s ->
  (forall dest app_data,
     coherent (received_announce display_name_from_app_data dest app_data s)) /\
  (forall message, coherent (_handle_message opens message s)) /\
  (forall server_hash page_name,
     coherent (snd (request_page recall server_hash page_name s))) /\
  (forall server_hash, coherent (_request_page_list recall server_hash s)) /\
  (forall server_hash, coherent (remove_server server_hash s)) /\
  (forall name hash, coherent (add_bookmark name hash s)) /\
  (forall hash, coherent (remove_bookmark hash s)) /\
  coherent (clear_history s) /\
  (forall files, known_peers s = ∅ -> coherent (_load_data files s)).
Proof.
  intros Hc. repeat split.
  - intros. by apply received_announce_coherent.
  - intros. by apply handle_message_coherent.
  - intros h p. unfold coherent.
    by destruct (request_page_registry h p s) as (-> & ->).
  - intros h. unfold coherent.
    by destruct (request_page_list_registry h s) as (-> & ->).
  - intros h. unfold coherent.
    destruct (remove_server_registry h s) as (-> & ->).
    by rewrite dom_delete_L, Hc.
  - intros n h. unfold coherent, add_bookmark.
    match goal with
    | |- context [_save_data ?t] => by destruct (save_data_registry t) as (-> & -> & _)
    end.
  - intros h. unfold coherent, remove_bookmark.
    match goal with
    | |- context [_save_data ?t] => by destruct (save_data_registry t) as (-> & -> & _)
    end.
  - unfold coherent, clear_history.
    match goal with
    | |- context [_save_data ?t] => by destruct (save_data_registry t) as (-> & -> & _)
    end.
  - intros files Hk. unfold coherent in *. unfold _load_data.
    destruct (bookmarks_file files), (history_file files), (discovered_file files);
      cbn; rewrite ?Hc, ?Hk, ?dom_empty_L, ?union_empty_r_L; done.
Qed.

(** X9. An announce of a peer that is known already is silent: no
    event is emitted, the known peers stay as they are, and every server
    of the registry keeps its name and its pages, whatever display name the
    announce carries. *)
Theorem known_peer_announce_is_silent
    (dest app_data : list byte) (s : browser) :
  RNS.prettyhexrep dest ∈ known_peers s ->
  let s' := received_announce display_name_from_app_data dest app_data s in
  emitted s' = emitted s /\
  known_peers s' = known_peers s /\
  shown <$> discovered_servers s' = shown <$> discovered_servers s /\
  bookmarks s' = bookmarks s /\
  pending_requests s' = pending_requests s.
Proof.
  intros Hknown. cbv zeta. unfold received_announce.
  destruct (bool_decide (lxmf_destination s = Some dest)); [done|].
  destruct app_data; [done|].
  destruct (display_name_from_app_data _); [|done].
  destruct (String.eqb _ ""); [done|].
  destruct (_ || _); [|done].
  unfold _handle_discovery. rewrite bool_decide_eq_true_2 by done.
  destruct (discovered_servers s !! RNS.prettyhexrep dest) as [info|] eqn:Hk; [|done].
  match goal with
  | |- context [_save_data ?t] =>
      destruct (save_data_registry t) as (-> & -> & -> & -> & _);
      rewrite (save_data_bookmarks t)
  end.
  cbn. repeat split.
  rewrite fmap_insert. apply insert_id. by rewrite lookup_fmap, Hk.
Qed.

(** X10. A server that was removed is discovered anew by its next
    announce: the removal takes it out of the registry and out of the known
    peers, and the announce enters it with an empty page list and emits
    the event of a discovery. *)
Theorem removed_server_is_rediscovered
    (dest app_data : list byte) (display_name : string) (s : browser) :
  lxmf_destination s <> Some dest ->
  app_data <> [] ->
  display_name_from_app_data app_data = Some display_name ->
  contains "HTML" display_name = true ->
  let key := RNS.prettyhexrep dest in
  let s1 := remove_server key s in
  let s2 := received_announce display_name_from_app_data dest app_data s1 in
  (key ∉ known_peers s1) /\
  discovered_servers s1 !! key = None /\
  key ∈ known_peers s2 /\
  discovered_servers s2 !! key =
    Some {| name := presentation_name display_name; pages := [];
            last_seen := clock s |} /\
  emitted s2 =
    if socketio s
    then emitted s ++ [server_discovered key (presentation_name display_name) (clock s)]
    else emitted s.
Proof.
  intros Hown Happ Hname Hmark. cbv zeta.
  set (key := RNS.prettyhexrep dest).
  destruct (remove_server_registry key s) as (Hd & Hk).
  assert (key ∉ known_peers (remove_server key s)) as Hout.
  { rewrite Hk. apply not_elem_of_difference. right. by apply elem_of_singleton. }
  assert (discovered_servers (remove_server key s) !! key = None) as Hnone.
  { rewrite Hd. apply lookup_delete_eq. }
  split; [done|]. split; [done|].
  assert (lxmf_destination (remove_server key s) = lxmf_destination s /\
          socketio (remove_server key s) = socketio s /\
          emitted (remove_server key s) = emitted s /\
          clock (remove_server key s) = clock s) as (Hl & Hs & He & Hc).
  { unfold remove_server, _save_data.
    repeat match goal with
           | |- context [if ?b then _ else _] => destruct b
           | |- context [match ?x with _ => _ end] => destruct x
           end; done. }
  unfold received_announce. rewrite Hl, bool_decide_eq_false_2 by done.
  destruct app_data; [done|]. rewrite Hname.
  assert (String.eqb display_name "" = false) as ->.
  { destruct display_name; [discriminate Hmark|done]. }
  rewrite Hmark, orb_true_r.
  unfold _handle_discovery. fold key. rewrite bool_decide_eq_false_2 by done.
  match goal with
  | |- context [emit ?e ?t] => destruct (emit_registry e t) as (-> & -> & _ & ->)
  end.
  match goal with
  | |- context [_save_data ?t] =>
      destruct (save_data_registry t) as (-> & -> & _ & -> & -> & ->)
  end.
  cbn. rewrite Hs, He, Hc. split; [by apply elem_of_union_l, elem_of_singleton|].
  split; [|done].
  by rewrite lookup_insert_eq.
Qed.

End Registry.

(** ** The history and the downloads of the client *)

Section History.
Import PyStr Client ClientObs WebApi WebApiObs.

Variable opens : string -> string -> bool.

Lemma last_100_length l : (length (last_100 l) <= 100)%nat.
Proof. unfold last_100. rewrite length_skipn. lia. Qed.

Lemma last_100_short l : (length l <= 100)%nat -> last_100 l = l.
Proof.
  intros Hl. unfold last_100. by replace (length l - 100)%nat with 0%nat by lia.
Qed.


Lemma save_data_history s : history (_save_data s) = last_100 (history s).
Proof.
  unfold _save_data. destruct (100 <? length (history s))%nat eqn:Hlen; [done|].
  apply Nat.ltb_ge in Hlen. by rewrite last_100_short.
Qed.

Lemma emit_history e s : history (emit e s) = history s.
Proof. unfold emit. by destruct (socketio s). Qed.

Lemma clear_pending_history key s : history (clear_pending key s) = history s.
Proof. unfold clear_pending. by destruct (pending_requests s !! key). Qed.

Lemma record_history e entry s :
  history (emit e (_save_data (set_history (history s ++ [entry]) s))) =
  last_100 (history s ++ [entry]).
Proof. by rewrite emit_history, save_data_history. Qed.

Lemma save_attachment_spec key server_name s a s1 :
  save_attachment opens key server_name s a = Some s1 ->
  cache s1 = <[fst a := snd a]> (cache s) /\
  history s1 = last_100 (history s ++ [file_entry key server_name (clock s) a]) /\
  emitted s1 =
    (if socketio s then emitted s ++ [file_event key server_name (clock s) a]
     else emitted s) /\
  socketio s1 = socketio s /\ clock s1 = clock s /\
  html_cache s1 = html_cache s.
Proof.
  destruct a as [filename file_data]. unfold save_attachment. cbv zeta.
  destruct (opens cache_path filename); [|discriminate]. intros [= <-].
  match goal with
  | |- context [emit _ (_save_data ?t)] =>
      destruct (save_data_registry t) as (_ & _ & _ & He & Hs & Hc); rewrite Hc
  end.
  match goal with
  | |- context [emit ?e (_save_data ?t)] =>
      destruct (emit_registry e (_save_data t)) as (_ & _ & _ & He')
  end.
  rewrite He', He, Hs, emit_history, save_data_history.
  unfold emit, _save_data.
  by destruct (socketio _), (100 <? _)%nat.
Qed.

Lemma save_attachments_history_bound key server_name l s :
  (length (history (snd (save_attachments opens key server_name l s))) <=
   Nat.max 100 (length (history s)))%nat.
Proof.
  revert s. induction l as [|a l IH]; intros s; [cbn; lia|].
  cbn [save_attachments].
  destruct (save_attachment opens key server_name s a) as [s1|] eqn:Ha; [|cbn; lia].
  etrans; [apply IH|].
  destruct (save_attachment_spec key server_name s a s1 Ha) as (_ & -> & _).
  pose proof (last_100_length (history s ++ [file_entry key server_name (clock s) a])).
  lia.
Qed.

(** X11. Inbound messages never let the history grow beyond a hundred
    entries: after a message the history is no longer than a hundred
    entries, or than it was before when that was more. The history the
    interface asks for holds the newest entries of it, fifty at most, in
    their order. *)
Theorem history_stays_bounded (message : inbound_message) (s : browser) :
  let s' := _handle_message opens message s in
  (length (history s') <= Nat.max 100 (length (history s)))%nat /\
  (length (get_history s') <= 50)%nat /\
  exists older, history s' = older ++ get_history s'.
Proof.
  cbv zeta. split.
  - unfold _handle_message. destruct (is_list_response _ _ s).
    + unfold handle_list_response. cbn.
      destruct (discovered_servers s !! _) as [info|]; [|lia].
      rewrite emit_history, save_data_history.
      pose proof (last_100_length
                    (history (set_discovered_servers
                                (<[RNS.prettyhexrep (source_hash message) :=
                                     {| name := name info;
                                        pages := _parse_page_list (content message);
                                        last_seen := last_seen info |}]>
                                   (discovered_servers s)) s))).
      lia.
    + destruct (fields message !! FIELD_HTML_CONTENT) as [html|].
      * unfold handle_html, _save_html_file. cbv zeta. destruct html as [text|l].
        -- destruct (opens html_cache_path _); [|lia]. cbv beta iota.
           rewrite clear_pending_history.
           match goal with
           | |- context [emit ?e (_save_data (set_history (history ?t ++ [?entry]) ?t))] =>
               rewrite (record_history e entry t);
               pose proof (last_100_length (history t ++ [entry]))
           end.
           lia.
        -- destruct (opens html_cache_path _); cbn; lia.
      * destruct (fields message !! 2) as [files|]; [|lia].
        unfold handle_files. destruct files as [text|l].
        -- rewrite clear_pending_history. lia.
        -- pose proof (save_attachments_history_bound
                         (RNS.prettyhexrep (source_hash message))
                         (server_name_of (RNS.prettyhexrep (source_hash message)) s)
                         l s) as Hb.
           destruct (save_attachments opens _ _ l s) as [[] s1]; cbn in Hb;
             rewrite ?clear_pending_history; exact Hb.
  - unfold get_history. rewrite length_skipn. split; [lia|].
    exists (firstn (length (history (_handle_message opens message s)) - 50)
              (history (_handle_message opens message s))).
    by rewrite firstn_skipn.
Qed.




End History.

(** ** The interceptor in every cached page *)

Section InterceptorPresence.
Import PyStr Client ClientObs.




End InterceptorPresence.

(** ** The bookmarks and the list parser *)

Section BookmarksAndLists.
Import PyStr Client ClientObs.

Lemma filter_other_hashes hash (l : list bookmark) :
  hash ∉ (bookmark_hash <$> l) ->
  List.filter (fun b => negb (String.eqb (bookmark_hash b) hash)) l = l.
Proof.
  induction l as [|b l IH]; intros Hnot; [done|].
  cbn in *. apply not_elem_of_cons in Hnot as [Hb Hl].
  destruct (String.eqb_spec (bookmark_hash b) hash) as [Heq|_]; [by subst|].
  cbn. by rewrite IH.
Qed.

(** X14. Removing the bookmark of a peer that was not bookmarked
    before its bookmark was added gives back the bookmarks as they were,
    in their order. *)
Theorem remove_bookmark_undoes_add (name hash : string) (s : browser) :
  hash ∉ bookmarked s ->
  bookmarks (remove_bookmark hash (add_bookmark name hash s)) = bookmarks s.
Proof.
  intros Hnot. unfold remove_bookmark. rewrite save_data_bookmarks. cbn.
  unfold add_bookmark. rewrite save_data_bookmarks. cbn.
  rewrite List.filter_app. cbn. rewrite String.eqb_refl. cbn.
  rewrite app_nil_r. by apply filter_other_hashes.
Qed.

Lemma split_char_nonempty c s : split_char c s <> [].
Proof.
  destruct s as [|a s]; [done|]. cbn.
  destruct (Ascii.eqb a c); [done|]. by destruct (split_char c s).
Qed.

Lemma split_char_app c a b :
  split_char c (a +:+ String c b) = split_char c a ++ split_char c b.
Proof.
  induction a as [|x a IH].
  - rewrite app_empty_l. cbn. by rewrite Ascii.eqb_refl.
  - rewrite app_cons. cbn [split_char]. rewrite IH.
    destruct (Ascii.eqb x c); [done|].
    pose proof (split_char_nonempty c a) as Hne.
    by destruct (split_char c a).
Qed.

(** X15. The list parser reads a text line by line: the pages of two
    texts joined by a line break are the pages of the first followed by
    the pages of the second. The empty text gives no page. *)
Theorem parse_page_list_by_lines (a b : string) :
  _parse_page_list (a +:+ String "010" b) = _parse_page_list a ++ _parse_page_list b /\
  _parse_page_list "" = [].
Proof.
  split; [|done]. unfold _parse_page_list.
  by rewrite split_char_app, flat_map_app.
Qed.

Lemma rstrip_idempotent s : rstrip (rstrip s) = rstrip s.
Proof.
  induction s as [|c s IH]; [done|]. cbn [rstrip].
  destruct (rstrip s) as [|d r] eqn:Hr.
  - destruct (isspace c) eqn:Hc; [done|]. cbn. by rewrite Hc.
  - cbn [rstrip] in *. by rewrite IH.
Qed.

Lemma rstrip_cons c s : isspace c = false -> rstrip (String c s) = String c (rstrip s).
Proof. intros Hc. cbn. rewrite Hc. by destruct (rstrip s). Qed.

Lemma lstrip_head s :
  lstrip s = EmptyString \/ exists c r, lstrip s = String c r /\ isspace c = false.
Proof.
  induction s as [|c s IH]; [by left|]. cbn.
  destruct (isspace c) eqn:Hc; [done|]. right. by exists c, s.
Qed.

Lemma strip_idempotent s : strip (strip s) = strip s.
Proof.
  unfold strip. destruct (lstrip_head s) as [->|(c & r & -> & Hc)]; [done|].
  rewrite (rstrip_cons c r Hc). cbn [lstrip]. rewrite Hc.
  rewrite (rstrip_cons c _ Hc). by rewrite rstrip_idempotent.
Qed.

Lemma split_head_char_absent x s :
  contains (String x EmptyString) (split_head (String x EmptyString) s) = false.
Proof.
  induction s as [|c s IH]; [done|].
  rewrite split_head_char_cons. destruct (Ascii.eqb x c) eqn:Hx; [done|].
  by rewrite contains_char_cons, Hx, IH.
Qed.

(** X16. What the list parser returns are proper page names: no name
    is empty, none begins or ends with white space, and none holds an
    opening parenthesis. *)
Theorem parsed_page_names_are_clean (text name : string) :
  name ∈ _parse_page_list text ->
  name <> "" /\ strip name = name /\ contains "(" name = false.
Proof.
  unfold _parse_page_list. rewrite list_elem_of_In, in_flat_map.
  intros (line & _ & Hin). unfold parse_line in Hin. cbv zeta in Hin.
  destruct (_ && _); [|done].
  destruct (split_once "]" (strip line)) as [|first [|part rest]]; try done.
  destruct (contains "(" (strip part)); [|done].
  destruct (String.eqb_spec (strip (split_head "(" (strip part))) "") as [|Hne]; [done|].
  destruct Hin as [<-|[]].
  split; [done|]. split; [apply strip_idempotent|].
  rewrite contains_char_strip by done. apply split_head_char_absent.
Qed.

End BookmarksAndLists.

(** ** The forms of a request *)

Section RequestForms.
Import PyStr Client ClientObs.

Variable recall : list byte -> Z -> bool.

Lemma hex_byte_digits b :
  exists c1 c2,
    RNS.hex_byte b = String c1 (String c2 EmptyString) /\
    is_Some (hex_value c1) /\ is_Some (hex_value c2).
Proof. destruct b; do 2 eexists; (split; [reflexivity|]); split; by eexists. Qed.

Lemma bytes_fromhex_hex_byte b rest :
  bytes_fromhex (RNS.hex_byte b +:+ rest) =
  match bytes_fromhex rest with Some l => Some (b :: l) | None => None end.
Proof. destruct b; reflexivity. Qed.

(** [bytes.fromhex] reads back what the digits of a hash stand for. *)
Lemma bytes_fromhex_hexrep data : bytes_fromhex (RNS.hexrep data) = Some data.
Proof.
  induction data as [|b data IH]; [done|].
  cbn [RNS.hexrep]. by rewrite bytes_fromhex_hex_byte, IH.
Qed.

Lemma contains_char_app x s t :
  contains (String x EmptyString) (s +:+ t) =
  contains (String x EmptyString) s || contains (String x EmptyString) t.
Proof.
  induction s as [|c s IH].
  - by rewrite app_empty_l.
  - by rewrite app_cons, !contains_char_cons, IH, orb_assoc.
Qed.

Lemma hexrep_avoids x data :
  hex_value x = None -> contains (String x EmptyString) (RNS.hexrep data) = false.
Proof.
  intros Hx. induction data as [|b data IH]; [done|].
  cbn [RNS.hexrep]. rewrite contains_char_app, IH, orb_false_r.
  destruct (hex_byte_digits b) as (c1 & c2 & -> & [v1 H1] & [v2 H2]).
  rewrite !contains_char_cons.
  destruct (Ascii.eqb_spec x c1) as [->|_]; [congruence|].
  destruct (Ascii.eqb_spec x c2) as [->|_]; [congruence|]. done.
Qed.

Lemma startswith_contains_head x p s :
  startswith s (String x p) = true -> contains (String x EmptyString) s = true.
Proof.
  destruct s as [|c s]; [done|]. cbn [startswith].
  destruct (Ascii.eqb_spec x c) as [->|_]; [|done].
  intros _. by rewrite contains_char_cons, Ascii.eqb_refl.
Qed.

Lemma hexrep_head x p data :
  hex_value x = None -> startswith (RNS.hexrep data) (String x p) = false.
Proof.
  intros Hx. destruct (startswith _ _) eqn:Hs; [|done].
  apply startswith_contains_head in Hs. by rewrite hexrep_avoids in Hs.
Qed.

Lemma rev_app_app_char s c acc :
  String.rev_app (s +:+ String c EmptyString) acc = String c (String.rev_app s acc).
Proof.
  revert acc. induction s as [|a s IH]; intros acc; [by rewrite app_empty_l|].
  rewrite app_cons. cbn [String.rev_app]. by rewrite IH.
Qed.

Lemma rev_app_char s c :
  String.rev (s +:+ String c EmptyString) = String c (String.rev s).
Proof. apply rev_app_app_char. Qed.

Lemma take_app_prefix s t : take (String.length s) (s +:+ t) = s.
Proof.
  induction s as [|a s IH]; [by destruct t|].
  rewrite app_cons. cbn. by rewrite IH.
Qed.

Lemma length_app_char s c :
  String.length (s +:+ String c EmptyString) = S (String.length s).
Proof. induction s as [|a s IH]; [done|]. rewrite app_cons. cbn. by rewrite IH. Qed.

Lemma strip_brackets_prettyhexrep data :
  strip_brackets (RNS.prettyhexrep data) = RNS.hexrep data.
Proof.
  unfold strip_brackets, RNS.prettyhexrep.
  change ("<" +:+ RNS.hexrep data +:+ ">")
    with (String "<" (RNS.hexrep data +:+ String ">" EmptyString)).
  assert (endswith (String "<" (RNS.hexrep data +:+ String ">" EmptyString)) ">" = true)
    as ->.
  { unfold endswith.
    change (String "<" (RNS.hexrep data +:+ String ">" EmptyString))
      with (String "<" (RNS.hexrep data) +:+ String ">" EmptyString).
    rewrite rev_app_char. done. }
  cbn [startswith andb drop String.length]. rewrite Ascii.eqb_refl.
  rewrite length_app_char.
  replace (S (S (String.length (RNS.hexrep data))) - 2)%nat
    with (String.length (RNS.hexrep data)) by lia.
  apply take_app_prefix.
Qed.

Lemma partition_absent sep s : contains sep s = false -> partition sep s = None.
Proof.
  induction s as [|c s IH]; cbn [contains partition]; intros Hc.
  - apply orb_false_iff in Hc as [-> _]. done.
  - apply orb_false_iff in Hc as [-> Hc]. by rewrite (IH Hc).
Qed.

Lemma partition_char_first x h p :
  contains (String x EmptyString) h = false ->
  partition (String x EmptyString) (h +:+ String x p) = Some (h, p).
Proof.
  induction h as [|c h IH]; intros Hc.
  - rewrite app_empty_l. cbn. by rewrite Ascii.eqb_refl.
  - rewrite contains_char_cons in Hc. apply orb_false_iff in Hc as [Hx Hc].
    rewrite app_cons. cbn [partition startswith]. rewrite Hx. by rewrite (IH Hc).
Qed.

Lemma send_request_outcome dest m s :
  let r := send_request recall dest m s in
  pending_requests (snd r) = pending_requests s /\
  (fst r = true -> outbound (snd r) = outbound s ++ [m]) /\
  (fst r = false -> outbound (snd r) = outbound s) /\
  (fst r = true <->
   recall dest (clock s + 300) = true \/ recall dest (clock s + 2300) = true).
Proof.
  cbv zeta. unfold send_request. cbn [clock sleep set_announces set_clock].
  destruct (recall dest (clock s + 300)) eqn:H1; cbn.
  - repeat split; try done. by left.
  - replace (clock s + 300 + 2000) with (clock s + 2300) by lia.
    destruct (recall dest (clock s + 2300)) eqn:H2; cbn.
    + repeat split; try done. by right.
    + repeat split; try done. by intros [|].
Qed.

(** The request for a page addressed by the hash of a destination, bare
    or as it is rendered. *)
Lemma request_page_by_hash dest server_hash page_name s :
  server_hash = RNS.prettyhexrep dest \/ server_hash = RNS.hexrep dest ->
  request_page recall server_hash page_name s =
  send_request recall dest
    {| destination := dest;
       out_content := "GET:" +:+ (if String.eqb page_name "" then "index" else page_name);
       out_fields :=
         {[ FIELD_HTML_REQUEST :=
              TextValue (if String.eqb page_name "" then "index" else page_name) ]} |}
    (set_pending_requests
       (<[RNS.hexrep dest :=
            {| request := PageRequest
                            (if String.eqb page_name "" then "index" else page_name);
               request_time := clock s |}]> (pending_requests s)) s).
Proof.
  intros Hform. unfold request_page.
  assert (strip_brackets server_hash = RNS.hexrep dest) as ->.
  { destruct Hform as [-> | ->]; [apply strip_brackets_prettyhexrep|].
    unfold strip_brackets. by rewrite (hexrep_head "<" "" dest). }
  rewrite (hexrep_head "l" "xmf://" dest) by done.
  rewrite (partition_absent "/" (RNS.hexrep dest)) by (by apply hexrep_avoids).
  rewrite (replace_absent ":" "" (RNS.hexrep dest)) by (by apply hexrep_avoids).
  by rewrite bytes_fromhex_hexrep.
Qed.

(** X17. A request addressed by the hash of a server as it is
    rendered, between angle brackets, goes to that server: the digits
    are read back to the bytes of the hash. A request for a page carries
    the text GET: with the page name and the page name in the request
    field, an empty page name standing for the index; a request for the
    list carries the text list and no field. Either is recorded as pending
    under the digits without the brackets, and is sent when the identity
    of the server is recalled after three tenths of a second, or two
    seconds later. *)
Theorem request_reaches_rendered_hash
    (dest : list byte) (page_name : string) (s : browser) :
  let page := if String.eqb page_name "" then "index" else page_name in
  let m := {| destination := dest; out_content := "GET:" +:+ page;
              out_fields := {[ FIELD_HTML_REQUEST := TextValue page ]} |} in
  let r := request_page recall (RNS.prettyhexrep dest) page_name s in
  let m' := {| destination := dest; out_content := "list"; out_fields := ∅ |} in
  let s' := _request_page_list recall (RNS.prettyhexrep dest) s in
  let recalled :=
    recall dest (clock s + 300) = true \/ recall dest (clock s + 2300) = true in
  (pending_requests (snd r) =
     <[RNS.hexrep dest := {| request := PageRequest page; request_time := clock s |}]>
       (pending_requests s) /\
   (fst r = true <-> recalled) /\
   outbound (snd r) = (if fst r then outbound s ++ [m] else outbound s)) /\
  (pending_requests s' =
     <[RNS.hexrep dest := {| request := ListRequest; request_time := clock s |}]>
       (pending_requests s) /\
   (recalled -> outbound s' = outbound s ++ [m']) /\
   (~ recalled -> outbound s' = outbound s)).
Proof.
  cbv zeta. split.
  - unfold request_page. rewrite strip_brackets_prettyhexrep.
    rewrite (hexrep_head "l" "xmf://" dest) by done.
    rewrite (partition_absent "/" (RNS.hexrep dest)) by (by apply hexrep_avoids).
    rewrite (replace_absent ":" "" (RNS.hexrep dest)) by (by apply hexrep_avoids).
    rewrite bytes_fromhex_hexrep.
    match goal with
    | |- context [send_request recall dest ?m ?t] =>
        pose proof (send_request_outcome dest m t) as Hs
    end.
    cbv zeta in Hs. destruct Hs as (Hp & Ht & Hf & Hiff).
    split; [exact Hp|]. split; [exact Hiff|].
    destruct (fst _); [by apply Ht|by apply Hf].
  - unfold _request_page_list. rewrite strip_brackets_prettyhexrep.
    rewrite (replace_absent ":" "" (RNS.hexrep dest)) by (by apply hexrep_avoids).
    rewrite bytes_fromhex_hexrep.
    match goal with
    | |- context [send_request recall dest ?m ?t] =>
        pose proof (send_request_outcome dest m t) as Hs
    end.
    cbv zeta in Hs. destruct Hs as (Hp & Ht & Hf & Hiff).
    split; [exact Hp|]. split.
    + intros Hr. by apply Ht, Hiff.
    + intros Hr. apply Hf. destruct (fst _); [|done]. exfalso. by apply Hr, Hiff.
Qed.

Lemma plain_hash_is_no_address h :
  contains "/" h = false -> startswith h "lxmf://" = false.
Proof.
  intros Hslash. destruct (startswith h "lxmf://") eqn:Hs; [|done].
  apply startswith_split in Hs. rewrite Hs in Hslash.
  change ("lxmf://" +:+ drop (String.length "lxmf://") h)
    with (String "l" (String "x" (String "m" (String "f" (String ":"
            (String "/" (String "/" (drop 7 h)))))))) in Hslash.
  rewrite !contains_char_cons in Hslash. cbn in Hslash. done.
Qed.

(** X18. A request by an address of the form lxmf://, the hash, a
    slash and a page is the request for that page of that server; a page
    name given beside the address takes the place of the page of the
    address. *)
Theorem request_page_url_form (h p q : string) (s : browser) :
  contains "/" h = false ->
  startswith h "<" = false ->
  request_page recall ("lxmf://" +:+ h +:+ "/" +:+ p) q s =
  request_page recall h (if String.eqb q "" then p else q) s.
Proof.
  intros Hslash Hbracket. unfold request_page, strip_brackets.
  rewrite Hbracket. cbn [andb].
  rewrite (plain_hash_is_no_address h Hslash).
  rewrite (partition_absent "/" h Hslash).
  change ("lxmf://" +:+ h +:+ "/" +:+ p)
    with (String "l" (String "x" (String "m" (String "f" (String ":"
            (String "/" (String "/" (h +:+ String "/" p)))))))).
  cbn [startswith andb drop Ascii.eqb Bool.eqb].
  rewrite (partition_char_first "/" h p Hslash).
  by destruct (String.eqb q "").
Qed.

Lemma bytes_fromhex_bad_char c h :
  is_ascii_space c = false ->
  hex_value c = None ->
  contains (String c EmptyString) h = true ->
  bytes_fromhex h = None.
Proof.
  intros Hspace Hvalue.
  assert (forall n h, (String.length h <= n)%nat ->
                      contains (String c EmptyString) h = true ->
                      bytes_fromhex h = None) as Hall.
  { clear h. induction n as [|n IH]; intros h Hlen Hc.
    - destruct h; [discriminate Hc|cbn in Hlen; lia].
    - destruct h as [|a h]; [discriminate Hc|].
      rewrite contains_char_cons in Hc. cbn in Hlen. cbn [bytes_fromhex].
      destruct (is_ascii_space a) eqn:Ha.
      + destruct (Ascii.eqb_spec c a) as [->|_]; [congruence|].
        apply IH; [lia|done].
      + destruct (hex_value a) eqn:Hva; [|done].
        destruct (Ascii.eqb_spec c a) as [->|_]; [congruence|].
        destruct h as [|d h]; [done|].
        rewrite contains_char_cons in Hc. cbn in Hlen.
        destruct (hex_value d) eqn:Hvd; [|done].
        destruct (Ascii.eqb_spec c d) as [->|_]; [congruence|].
        rewrite (IH h) by (done || lia). by destruct (Byte.of_N _). }
  intros Hc. by apply (Hall (String.length h)).
Qed.

Lemma contains_char_without_colons c h :
  Ascii.eqb c ":" = false ->
  contains (String c EmptyString) (replace ":" "" h) =
  contains (String c EmptyString) h.
Proof.
  intros Hc. unfold replace. induction h as [|a h IH]; [done|].
  cbn [replace_from startswith String.length Nat.sub].
  rewrite contains_char_cons. destruct (Ascii.eqb_spec ":" a) as [<-|_].
  - by rewrite app_empty_l, IH, Hc.
  - by rewrite contains_char_cons, IH.
Qed.

(** X24. A hash that cannot be read is refused without any effect: for
    a hash without brackets and separator that holds a character that is
    neither a hexadecimal digit, nor white space, nor a colon, the request
    for a page returns [False] and the request for the list returns, and
    neither announces, waits, records a pending request or sends
    anything: the browser is as it was. *)
Theorem malformed_hash_is_refused
    (server_hash page_name : string) (c : ascii) (s : browser) :
  startswith server_hash "<" = false ->
  contains "/" server_hash = false ->
  hex_value c = None ->
  is_ascii_space c = false ->
  Ascii.eqb c ":" = false ->
  contains (String c EmptyString) server_hash = true ->
  request_page recall server_hash page_name s = (false, s) /\
  _request_page_list recall server_hash s = s.
Proof.
  intros Hbracket Hslash Hvalue Hspace Hcolon Hc.
  assert (bytes_fromhex (replace ":" "" server_hash) = None) as Hnone.
  { apply (bytes_fromhex_bad_char c); [done..|].
    by rewrite contains_char_without_colons. }
  unfold request_page, _request_page_list, strip_brackets.
  rewrite Hbracket. cbn [andb].
  rewrite (plain_hash_is_no_address server_hash Hslash).
  rewrite (partition_absent "/" server_hash Hslash).
  by rewrite Hnone.
Qed.

End RequestForms.

(** ** The wait for a path *)

Section PathWait.
Import PyStr ServerObs.

Variable recall : list byte -> Z -> bool.

Lemma send_request_failure dest m s s' :
  Client.send_request recall dest m s = (false, s') ->
  Client.path_requests s' = Client.path_requests s ++ [dest] /\
  Client.clock s' = Client.clock s + 2300 /\
  Client.pending_requests s' = Client.pending_requests s /\
  Client.outbound s' = Client.outbound s /\
  recall dest (Client.clock s + 300) = false /\
  recall dest (Client.clock s + 2300) = false.
Proof.
  unfold Client.send_request. cbv zeta. simpl.
  destruct (recall dest (Client.clock s + 300)) eqn:H1; [done|].
  replace (Client.clock s + 300 + 2000) with (Client.clock s + 2300) by lia.
  destruct (recall dest (Client.clock s + 2300)) eqn:H2; [done|].
  intros [= <-]. simpl. repeat split; try done. lia.
Qed.

(** C6, as the code has it. A send of the server, of an HTML response or
    of a file response, to a destination whose identity is not recalled
    requests a path and polls the identity every half second, for fifteen
    seconds at most; when no poll recalls it, the send fails after the full
    fifteen seconds and hands nothing over. A page request of the client
    to a destination, addressed by its hash, bare or as it is rendered,
    whose identity is not recalled 0.3 seconds after the call requests a
    path for it and waits 2 seconds; when the identity is still not
    recalled then, the request fails, 2.3 seconds after the call, and
    hands nothing over, and it is sent when the identity is recalled then.
    A page request that fails, however it is addressed, has either not
    been able to read the hash, and then changed nothing, or requested a
    path, waited, and found the identity missing both times. *)
Theorem unrecalled_send_waits :
  (forall dest html text s,
     recall dest (Server.clock s) = false ->
     let r := Server._send_html recall dest html text s in
     Server.path_requests (snd r) = Server.path_requests s ++ [dest] /\
     Server.clock s + 500 <= Server.clock (snd r) <= Server.clock s + 15000 /\
     (~ reachable recall dest s ->
        fst r = false /\ Server.clock (snd r) = Server.clock s + 15000 /\
        Server.outbound (snd r) = Server.outbound s)) /\
  (forall dest file_path filename s,
     recall dest (Server.clock s) = false ->
     let r := Server._send_file recall dest file_path filename s in
     Server.path_requests (snd r) = Server.path_requests s ++ [dest] /\
     Server.clock s + 500 <= Server.clock (snd r) <= Server.clock s + 15000 /\
     (~ reachable recall dest s ->
        fst r = false /\ Server.clock (snd r) = Server.clock s + 15000 /\
        Server.outbound (snd r) = Server.outbound s)) /\
  (forall dest server_hash page_name s,
     server_hash = RNS.prettyhexrep dest \/ server_hash = RNS.hexrep dest ->
     recall dest (Client.clock s + 300) = false ->
     let r := Client.request_page recall server_hash page_name s in
     Client.path_requests (snd r) = Client.path_requests s ++ [dest] /\
     Client.clock (snd r) = Client.clock s + 2300 /\
     fst r = recall dest (Client.clock s + 2300) /\
     (fst r = false -> Client.outbound (snd r) = Client.outbound s) /\
     (fst r = true ->
        exists m, Client.outbound (snd r) = Client.outbound s ++ [m] /\
                  Client.destination m = dest)) /\
  (forall server_hash page_name s s',
     Client.request_page recall server_hash page_name s = (false, s') ->
     s' = s \/
     exists dest,
       Client.path_requests s' = Client.path_requests s ++ [dest] /\
       Client.clock s' = Client.clock s + 2300 /\
       recall dest (Client.clock s + 300) = false /\
       recall dest (Client.clock s + 2300) = false).
Proof.
  split; [|split; [|split]].
  - intros dest html text s Hrec. cbv zeta. unfold Server._send_html.
    destruct (resolve_identity_spec recall dest s)
      as ((_ & _ & _ & Hout) & Hreach & _ & Hwait).
    destruct (Hwait Hrec) as (Hpath & Hclock & Hfail). clear Hwait.
    destruct (Server.resolve_identity recall dest s) as [[|] s1]; simpl in *.
    + split; [done|]. split; [done|]. intros Hn. exfalso. by apply Hn, Hreach.
    + split; [done|]. split; [done|]. intros _. split; [done|].
      split; [by apply Hfail | done].
  - intros dest file_path filename s Hrec. cbv zeta. unfold Server._send_file.
    destruct (resolve_identity_spec recall dest s)
      as ((_ & _ & _ & Hout) & Hreach & _ & Hwait).
    destruct (Hwait Hrec) as (Hpath & Hclock & Hfail). clear Hwait.
    destruct (Server.resolve_identity recall dest s) as [[|] s1]; simpl in *.
    + assert (forall o : bool * Server.server,
                o = (match Server.lookup_path (Server.pages s1) file_path with
                     | Some (Server.RegularFile file_data _) =>
                         (true, Server.handle_outbound
                                  {| Server.destination := dest;
                                     Server.content :=
                                       Server.FileNotice filename (length file_data);
                                     Server.title := filename;
                                     Server.fields :=
                                       {[ Server.FIELD_FILE_ATTACHMENTS :=
                                            Server.AttachmentsValue
                                              [(filename, file_data)] ]} |} s1)
                     | _ => (false, s1)
                     end) ->
                Server.path_requests (snd o) = Server.path_requests s1 /\
                Server.clock (snd o) = Server.clock s1) as Hsame.
      { intros o ->.
        by destruct (Server.lookup_path (Server.pages s1) file_path) as [[|? ?]|]. }
      destruct (Hsame _ eq_refl) as [-> ->].
      split; [done|]. split; [done|]. intros Hn. exfalso. by apply Hn, Hreach.
    + split; [done|]. split; [done|]. intros _. split; [done|].
      split; [by apply Hfail | done].
  - intros dest server_hash page_name s Hform Hrec. cbv zeta.
    rewrite (request_page_by_hash recall dest server_hash page_name s Hform).
    unfold Client.send_request.
    cbn [Client.clock Client.sleep Client.set_announces Client.set_clock
         Client.set_pending_requests Client.set_path_requests].
    rewrite Hrec.
    replace (Client.clock s + 2300) with (Client.clock s + 300 + 2000) by lia.
    destruct (recall dest (Client.clock s + 300 + 2000)); cbn.
    + split; [done|]. split; [done|]. split; [done|]. split; [done|].
      intros _. eexists. split; [reflexivity|done].
    + split; [done|]. split; [done|]. split; [done|]. split; [done|]. done.
  - intros server_hash page_name s s'. unfold Client.request_page. cbv zeta.
    destruct (match partition "/" _ with Some _ => _ | None => _ end) as [key page].
    destruct (bytes_fromhex (replace ":" "" key)) as [dest|]; [|intros [= <-]; by left].
    intros Hsend. right. exists dest.
    apply send_request_failure in Hsend as (Hp & Hc & _ & _ & H1 & H2).
    simpl in *. done.
Qed.

End PathWait.

Section PathWaitSamples.
Import PyStr ServerObs Samples.

(** An HTML response to a requester that is never recalled fails after
    fifteen seconds, with one path request; a page request of the client
    to a server that is never recalled fails after 2.3 seconds, with one
    path request. *)
Lemma unrecalled_send_waits_witness :
  let r := Server._send_html never_known peer (Server.ErrorPage "x")
             (Server.Literal "404: x") small_server in
  let c := Client.request_page never_known "<aabb>" "about.html" fresh_browser in
  never_known peer (Server.clock small_server) = false /\
  fst r = false /\
  Server.path_requests (snd r) = [peer] /\
  Server.clock (snd r) = 15000 /\
  never_known peer (Client.clock fresh_browser + 300) = false /\
  fst c = false /\
  Client.path_requests (snd c) = [peer] /\
  Client.clock (snd c) = 2300 /\
  Client.outbound (snd c) = [].
Proof.
  destruct (unrecalled_send_waits never_known) as (H & _ & Hc & _).
  specialize (H peer (Server.ErrorPage "x") (Server.Literal "404: x")
                small_server eq_refl).
  specialize (Hc peer "<aabb>" "about.html" fresh_browser (or_introl eq_refl) eq_refl).
  cbv zeta in *. destruct H as (Hpath & _ & Hfail).
  destruct (Hfail (never_known_unreachable peer small_server)) as (Hf & Hclock & _).
  destruct Hc as (Hcp & Hcc & Hcf & Hco & _).
  split; [reflexivity|]. split; [exact Hf|]. split; [exact Hpath|].
  split; [exact Hclock|]. split; [reflexivity|]. split; [exact Hcf|].
  split; [exact Hcp|]. split; [exact Hcc|]. exact (Hco Hcf).
Defined.

(** A page request of the client to a server that is never recalled
    fails 2.3 seconds after the call. *)
Lemma request_page_gives_up_after_two_seconds :
  let r := Client.request_page never_known "aabb" "about.html" fresh_browser in
  fst r = false /\
  Client.path_requests (snd r) = [peer] /\
  Client.clock (snd r) - Client.clock fresh_browser = 2300 /\
  Client.clock (snd r) - Client.clock fresh_browser < 15000.
Proof. vm_compute. repeat split. Qed.

End PathWaitSamples.


(** ** The answer to an HTML page, and the page the client makes of it *)

Section PageAnswer.
Import PyStr Posix Server ServerObs.

Variable recall : list byte -> Z -> bool.

(** X19. A request for an HTML page that is there and can be read is
    counted and answered with the page after template processing, under
    the text "Serving: " and the name, when the requester is reachable, and
    with nothing when it is not. A page whose bytes do not decode is not
    answered at all, not by the 404 page either, and not counted. *)
Theorem serve_page_html_answer
    (sender : list byte) (P : string) (s : server)
    (data : list byte) (text : option string) :
  is_index_name (basename P) = false ->
  mem (extension (basename P)) [".html"; ".htm"] = true ->
  lookup_path (pages s) (basename P) = Some (RegularFile data text) ->
  let r := _serve_page recall sender P s in
  match text with
  | Some html =>
      fst r = true /\
      (reachable recall sender s ->
         sent s (snd r)
           [ html_message sender (ProcessedTemplate html (_get_page_list (pages s)))
               (Literal ("Serving: " +:+ basename P)) ]) /\
      (~ reachable recall sender s -> sent s (snd r) []) /\
      requests_served (snd r) = S (requests_served s)
  | None =>
      fst r = false /\ sent s (snd r) [] /\
      requests_served (snd r) = requests_served s
  end.
Proof.
  intros Hindex Hext Hfile. cbv zeta. unfold _serve_page.
  rewrite Hindex, Hfile, Hext. destruct text as [html|].
  - pose proof (send_html_spec recall sender (_process_template html s)
                  (Literal ("Serving: " +:+ basename P)) s) as Hh.
    cbv zeta in Hh. destruct Hh as ((_ & Hc & _) & Hreach & Hsent).
    cbn. split; [done|]. split; [|split; [|by rewrite Hc]].
    + intros Hr. apply Hreach in Hr. unfold sent in *. by rewrite Hr in Hsent.
    + intros Hr. unfold sent in *.
      destruct (fst _); [|done]. exfalso. by apply Hr, Hreach.
  - cbn. split; [done|]. split; [|done]. unfold sent. by rewrite app_nil_r.
Qed.

Lemma supported_is_typed ext v :
  supported_extensions !! ext = Some v -> v <> "application/octet-stream".
Proof.
  unfold supported_extensions. intros H. apply elem_of_list_to_map_2 in H.
  repeat (apply elem_of_cons in H as [H|H]; [by injection H as -> ->|]).
  by apply elem_of_nil in H.
Qed.

(** X20. The index lists exactly the entries of the pages directory
    whose MIME type is known: a file is listed when, and only when, its
    type is not the type of unknown content, application/octet-stream. *)
Theorem listed_iff_typed (pages : gmap string node) (f : string) :
  f ∈ _get_page_list pages <->
  is_Some (pages !! f) /\ _get_mime_type f <> "application/octet-stream".
Proof.
  unfold _get_page_list, _get_mime_type.
  rewrite merge_sort_Permutation, list_elem_of_In, filter_In.
  rewrite <- list_elem_of_In, listdir_spec. unfold is_supported.
  destruct (supported_extensions !! extension f) as [v|] eqn:Hv; cbn.
  - split; intros [Hf _]; (split; [done|]); [|done].
    by apply (supported_is_typed (extension f)).
  - split; intros [Hf H]; done.
Qed.

End PageAnswer.

Section CachedPage.
Import PyStr Client ClientObs WebApiObs.

Variable opens : string -> string -> bool.

Lemma served_page_name N :
  strip N = N -> contains "Serving:" N = false ->
  startswith ("Serving: " +:+ N) "Serving:" = true /\
  strip (replace "Serving:" "" ("Serving: " +:+ N)) = N.
Proof.
  intros Hstrip Hno. split; [done|].
  rewrite (replace_match "Serving:" "" ("Serving: " +:+ N)) by done.
  rewrite app_empty_l.
  change (drop (String.length "Serving:") ("Serving: " +:+ N)) with (String " " N).
  rewrite replace_absent.
  - unfold strip in *. cbn [lstrip]. by change (isspace " ") with true.
  - cbn [contains startswith]. by rewrite Hno.
Qed.

(** X21. An answer with the text "Serving: " and a page name, and
    with the page in the HTML field, is written under the seconds of the
    clock, an underscore and the page name. When the file system takes
    that name, the page is cached under it with the interceptor for the
    sender put in, entered in the history under the page name, and
    reported by one event that names the cached file. When the file system
    refuses the name, nothing happens at all: the browser is as it was.
    This holds for a page name without surrounding white space and
    without the text "Serving:" in it. *)
Theorem handle_html_caches_page (key N html : string) (s : browser) :
  strip N = N ->
  contains "Serving:" N = false ->
  let s' := handle_html opens key ("Serving: " +:+ N) (TextValue html) s in
  let filename := str_of_int (Z.quot (clock s) 1000) +:+ "_" +:+ N in
  if opens html_cache_path filename then
    html_cache s' = <[filename := injected_html html key]> (html_cache s) /\
    history s' =
      last_100 (history s ++
                  [ {| entry_server := key; entry_server_name := server_name_of key s;
                       entry_page := N; entry_timestamp := clock s;
                       entry_is_file := false |} ]) /\
    emitted s' =
      (if socketio s
       then emitted s ++
              [html_received key (server_name_of key s) N filename (clock s)]
       else emitted s) /\
    cache s' = cache s
  else s' = s.
Proof.
  intros Hstrip Hno. cbv zeta. unfold handle_html, _save_html_file.
  destruct (served_page_name N Hstrip Hno) as (-> & ->).
  set (filename := str_of_int (Z.quot (clock s) 1000) +:+ "_" +:+ N).
  destruct (opens html_cache_path filename); [|done]. cbv beta iota zeta.
  set (s1 := set_html_cache _ s).
  set (entry := {| entry_server := key; entry_server_name := server_name_of key s;
                   entry_page := N; entry_timestamp := clock s1;
                   entry_is_file := false |}).
  set (s2 := set_history (history s1 ++ [entry]) s1).
  rewrite clear_pending_history.
  assert (forall t, html_cache (clear_pending key t) = html_cache t /\
                    emitted (clear_pending key t) = emitted t /\
                    cache (clear_pending key t) = cache t) as Hclear.
  { intros t. unfold clear_pending. by destruct (pending_requests t !! key). }
  destruct (Hclear (emit (html_received key (server_name_of key s) N filename
                            (clock (_save_data s2))) (_save_data s2)))
    as (-> & -> & ->).
  destruct (save_data_registry s2) as (_ & _ & _ & He & Hs & Hc).
  rewrite Hc.
  destruct (emit_registry (html_received key (server_name_of key s) N filename
                             (clock s2)) (_save_data s2)) as (_ & _ & _ & ->).
  rewrite He, Hs, emit_history, save_data_history.
  unfold emit, _save_data.
  by destruct (socketio _), (100 <? _)%nat.
Qed.

End CachedPage.

(** ** The further properties on samples *)

Section FurtherSamples.
Import PyStr Client ClientObs WebApi WebApiObs Samples.

Lemma fresh_browser_coherent : coherent fresh_browser.
Proof. unfold coherent. cbn. apply dom_empty_L. Qed.

Lemma registry_stays_coherent_witness :
  coherent fresh_browser /\
  coherent (received_announce bare_name peer
              (list_byte_of_string "[HTML] Node") fresh_browser) /\
  coherent (remove_server "<aabb>" fresh_browser).
Proof.
  split; [exact fresh_browser_coherent|].
  destruct (registry_stays_coherent always_known bare_name opens_plain fresh_browser
              fresh_browser_coherent) as (Hannounce & _ & _ & _ & Hremove & _).
  split; [apply Hannounce|apply Hremove].
Defined.

Lemma known_peer_announce_is_silent_witness :
  let s := received_announce bare_name peer
             (list_byte_of_string "[HTML] Node") fresh_browser in
  let s' := received_announce bare_name peer
              (list_byte_of_string "[HTML] Renamed") s in
  RNS.prettyhexrep peer ∈ known_peers s /\
  emitted s' = [server_discovered "<aabb>" "Node" 0] /\
  (name <$> discovered_servers s' !! "<aabb>") = Some "Node".
Proof.
  cbv zeta.
  assert (RNS.prettyhexrep peer ∈
          known_peers (received_announce bare_name peer
                         (list_byte_of_string "[HTML] Node") fresh_browser)) as Hknown.
  { apply (bool_decide_unpack _). vm_compute. exact I. }
  split; [exact Hknown|].
  destruct (known_peer_announce_is_silent bare_name peer
              (list_byte_of_string "[HTML] Renamed") _ Hknown)
    as (He & _ & Hshown & _).
  split; [rewrite He; vm_compute; reflexivity|].
  apply (f_equal (fun m => fst <$> m !! "<aabb>")) in Hshown.
  rewrite !lookup_fmap in Hshown. rewrite <- !option_fmap_compose in Hshown.
  etrans; [exact Hshown|]. vm_compute. reflexivity.
Defined.

Lemma removed_server_is_rediscovered_witness :
  let s := received_announce bare_name peer
             (list_byte_of_string "[HTML] Node") fresh_browser in
  let s' := received_announce bare_name peer
              (list_byte_of_string "[HTML] Node") (remove_server "<aabb>" s) in
  lxmf_destination s <> Some peer /\
  bare_name (list_byte_of_string "[HTML] Node") = Some "[HTML] Node" /\
  contains "HTML" "[HTML] Node" = true /\
  emitted s' =
    [server_discovered "<aabb>" "Node" 0; server_discovered "<aabb>" "Node" 0].
Proof.
  cbv zeta. split; [vm_compute; discriminate|].
  split; [vm_compute; reflexivity|]. split; [vm_compute; reflexivity|].
  pose proof (removed_server_is_rediscovered bare_name peer
                (list_byte_of_string "[HTML] Node") "[HTML] Node"
                (received_announce bare_name peer
                   (list_byte_of_string "[HTML] Node") fresh_browser)) as H.
  cbv zeta in H. destruct H as (_ & _ & _ & _ & He).
  - vm_compute. discriminate.
  - vm_compute. discriminate.
  - vm_compute. reflexivity.
  - vm_compute. reflexivity.
  - etrans; [exact He|]. vm_compute. reflexivity.
Defined.


Lemma remove_bookmark_undoes_add_witness :
  ("<aabb>" ∉ bookmarked fresh_browser) /\
  bookmarks (remove_bookmark "<aabb>" (add_bookmark "Node" "<aabb>" fresh_browser)) = [].
Proof.
  assert ("<aabb>" ∉ bookmarked fresh_browser) as Hnot by apply not_elem_of_nil.
  split; [exact Hnot|].
  exact (remove_bookmark_undoes_add "Node" "<aabb>" fresh_browser Hnot).
Defined.

Lemma parsed_page_names_are_clean_witness :
  let text := "Available Pages" +:+ String "010" "  [1] about.html (9B)" in
  "about.html" ∈ _parse_page_list text /\
  strip "about.html" = "about.html" /\ contains "(" "about.html" = false.
Proof.
  cbv zeta.
  assert ("about.html" ∈
          _parse_page_list ("Available Pages" +:+ String "010" "  [1] about.html (9B)"))
    as Hin.
  { vm_compute. constructor. }
  split; [exact Hin|].
  exact (proj2 (parsed_page_names_are_clean _ _ Hin)).
Defined.

Lemma request_page_url_form_witness :
  contains "/" "aabb" = false /\ startswith "aabb" "<" = false /\
  request_page always_known "lxmf://aabb/about.html" "" fresh_browser =
  request_page always_known "aabb" "about.html" fresh_browser.
Proof.
  split; [reflexivity|]. split; [reflexivity|].
  exact (request_page_url_form always_known "aabb" "about.html" "" fresh_browser
           eq_refl eq_refl).
Defined.

Lemma malformed_hash_is_refused_witness :
  hex_value "x" = None /\
  contains "x" "0x1f" = true /\
  request_page always_known "0x1f" "about.html" fresh_browser = (false, fresh_browser) /\
  _request_page_list always_known "0x1f" fresh_browser = fresh_browser.
Proof.
  split; [reflexivity|]. split; [reflexivity|].
  exact (malformed_hash_is_refused always_known "0x1f" "about.html" "x" fresh_browser
           eq_refl eq_refl eq_refl eq_refl eq_refl eq_refl).
Defined.

Lemma handle_html_caches_page_witness :
  let s' := handle_html opens_plain "<aabb>" "Serving: about.html"
              (TextValue "<p>About</p>") fresh_browser in
  let t' := handle_html opens_plain "<aabb>" "Serving: a/b.html"
              (TextValue "<p>About</p>") fresh_browser in
  strip "about.html" = "about.html" /\
  html_cache s' !! "0_about.html" = Some (injected_html "<p>About</p>" "<aabb>") /\
  emitted s' = [html_received "<aabb>" "Unknown Server" "about.html" "0_about.html" 0] /\
  t' = fresh_browser.
Proof.
  cbv zeta. split; [reflexivity|].
  pose proof (handle_html_caches_page opens_plain "<aabb>" "about.html" "<p>About</p>"
                fresh_browser eq_refl eq_refl) as H.
  pose proof (handle_html_caches_page opens_plain "<aabb>" "a/b.html" "<p>About</p>"
                fresh_browser eq_refl eq_refl) as H'.
  cbv zeta in H, H'.
  change (opens_plain html_cache_path
            (str_of_int (Z.quot (clock fresh_browser) 1000) +:+ "_" +:+ "about.html"))
    with true in H.
  change (opens_plain html_cache_path
            (str_of_int (Z.quot (clock fresh_browser) 1000) +:+ "_" +:+ "a/b.html"))
    with false in H'.
  destruct H as (Hc & _ & He & _).
  split; [|split].
  - change "Serving: about.html" with ("Serving: " +:+ "about.html").
    rewrite Hc. apply lookup_insert_eq.
  - change "Serving: about.html" with ("Serving: " +:+ "about.html").
    rewrite He. reflexivity.
  - exact H'.
Defined.

End FurtherSamples.

(** ** The templates *)

Section Templates.
Import PyStr Posix Server Template.

Variable timestamp : string.
Variable _get_file_icon : string -> string.

Lemma contains_longer sub b s :
  contains sub s = false -> contains (sub +:+ b) s = false.
Proof.
  intros Hc. apply occurrences_zero in Hc. apply occurrences_zero.
  pose proof (occurrences_drop_suffix sub b s). lia.
Qed.

(** X23. A page without a template marker is served as it is: when
    the text of a page holds no two opening braces in a row, template
    processing gives back the text unchanged, whatever the files of the
    server, the icons and the time. *)
Theorem static_page_is_unchanged (html : string) (s : server) :
  contains "{{" html = false ->
  _process_template timestamp _get_file_icon html s = html.
Proof.
  intros Hc. unfold _process_template. cbv zeta.
  rewrite (replace_absent "{{timestamp}}") by apply (contains_longer "{{" "timestamp}}"), Hc.
  rewrite (replace_absent "{{page_list}}") by apply (contains_longer "{{" "page_list}}"), Hc.
  rewrite (replace_absent "{{page_count}}") by apply (contains_longer "{{" "page_count}}"), Hc.
  done.
Qed.

End Templates.

Section TemplatesSamples.
Import PyStr Posix Server Template Samples.

Lemma static_page_is_unchanged_witness :
  contains "{{" "<p>About {this}</p>" = false /\
  _process_template "2024-01-01 00:00:00" (fun _ => "*") "<p>About {this}</p>"
    small_server = "<p>About {this}</p>".
Proof.
  split; [reflexivity|].
  exact (static_page_is_unchanged "2024-01-01 00:00:00" (fun _ => "*")
           "<p>About {this}</p>" small_server eq_refl).
Defined.

End TemplatesSamples.

(** ** The poll that ends the wait *)

Lemma wait_for_identity_step recall dest waited s :
  Server.wait_for_identity recall dest waited s =
  if Z_lt_dec waited Server.max_wait then
    if recall dest (Server.clock (Server.sleep Server.wait_interval s))
    then (true, Server.sleep Server.wait_interval s)
    else Server.wait_for_identity recall dest (waited + Server.wait_interval)
           (Server.sleep Server.wait_interval s)
  else (false, s).
Proof. apply wait_for_identity_unfold. Qed.

Section FirstRecall.
Import PyStr Posix Server ServerObs.

Variable recall : list byte -> Z -> bool.

Lemma wait_for_identity_first_recall (k : nat) dest waited s :
  waited + 500 * Z.of_nat (S k) <= 15000 ->
  (forall j, 1 <= j <= Z.of_nat k -> recall dest (clock s + 500 * j) = false) ->
  recall dest (clock s + 500 * Z.of_nat (S k)) = true ->
  let r := wait_for_identity recall dest waited s in
  fst r = true /\ clock (snd r) = clock s + 500 * Z.of_nat (S k) /\
  outbound (snd r) = outbound s /\ path_requests (snd r) = path_requests s.
Proof.
  revert waited s. induction k as [|k IH]; intros waited s Hbound Hfalse Htrue;
    cbv zeta;
    remember (wait_for_identity recall dest waited s) as r eqn:Hr;
    rewrite wait_for_identity_step in Hr;
    (destruct (Z_lt_dec waited max_wait) as [_|Hge]; [|unfold max_wait in Hge; lia]);
    unfold wait_interval in Hr; cbn [clock sleep] in Hr.
  - replace (clock s + 500 * Z.of_nat 1) with (clock s + 500) in Htrue by lia.
    rewrite Htrue in Hr. subst r. cbn. repeat split; lia.
  - assert (recall dest (clock s + 500) = false) as Hfirst.
    { rewrite <- (Hfalse 1) by lia. f_equal; lia. }
    rewrite Hfirst in Hr. subst r.
    destruct (IH (waited + 500) (sleep 500 s)) as (Hf & Hc & Ho & Hp).
    + lia.
    + intros j Hj. cbn [clock sleep].
      rewrite <- (Hfalse (j + 1)) by lia. f_equal; lia.
    + cbn [clock sleep]. rewrite <- Htrue. f_equal; lia.
    + cbn [clock sleep] in Hc. repeat split; [done| |done..]. rewrite Hc. lia.
Qed.

(** X22. The wait for a path ends at the first poll at which the
    identity of the requester is recalled: when it is not recalled at once
    nor at the polls before the k-th, and is recalled at the k-th of the
    thirty polls, half a second apart, then an HTML answer, and a file
    likewise, is handed to the router at that poll, after one request for
    a path. *)
Theorem answer_goes_at_first_recall
    (dest : list byte) (html : html_content) (text : text_content)
    (filename : string) (data : list byte) (decoded : option string)
    (s : server) (k : Z) :
  1 <= k <= 30 ->
  (forall j, 0 <= j < k -> recall dest (clock s + 500 * j) = false) ->
  recall dest (clock s + 500 * k) = true ->
  lookup_path (pages s) filename = Some (RegularFile data decoded) ->
  let r := _send_html recall dest html text s in
  let r' := _send_file recall dest filename filename s in
  (fst r = true /\ clock (snd r) = clock s + 500 * k /\
   outbound (snd r) = outbound s ++ [html_message dest html text] /\
   path_requests (snd r) = path_requests s ++ [dest]) /\
  (fst r' = true /\ clock (snd r') = clock s + 500 * k /\
   outbound (snd r') = outbound s ++ [file_message dest filename data] /\
   path_requests (snd r') = path_requests s ++ [dest]).
Proof.
  intros Hk Hfalse Htrue Hfile. cbv zeta.
  assert (recall dest (clock s) = false) as Hnow.
  { rewrite <- (Hfalse 0) by lia. f_equal; lia. }
  pose proof (wait_for_identity_first_recall (Z.to_nat (k - 1)) dest 0
                (request_path dest s)) as Hwait.
  cbv zeta in Hwait. cbn [clock request_path outbound path_requests] in Hwait.
  replace (Z.of_nat (S (Z.to_nat (k - 1)))) with k in Hwait by lia.
  destruct Hwait as (Hf & Hc & Ho & Hp); [lia| |done|].
  { intros j Hj. apply Hfalse. lia. }
  pose proof (resolve_identity_spec recall dest s) as Hres. cbv zeta in Hres.
  destruct Hres as ((Hpages & _) & _).
  unfold _send_html, _send_file, resolve_identity in *. rewrite Hnow in *.
  destruct (wait_for_identity recall dest 0 (request_path dest s)) as [b s1].
  cbn in Hf, Hc, Ho, Hp, Hpages. subst b. rewrite Hpages, Hfile. cbn.
  by rewrite Hc, Ho, Hp.
Qed.

End FirstRecall.

Section PageAnswerSamples.
Import PyStr Posix Server ServerObs Samples.

Lemma serve_page_html_answer_witness :
  let r := _serve_page always_known peer "about.html" small_server in
  is_index_name (basename "about.html") = false /\
  mem (extension (basename "about.html")) [".html"; ".htm"] = true /\
  fst r = true /\
  sent small_server (snd r)
    [ html_message peer (ProcessedTemplate "<p>" ["about.html"; "photo.png"])
        (Literal "Serving: about.html") ].
Proof.
  cbv zeta. split; [vm_compute; reflexivity|]. split; [vm_compute; reflexivity|].
  pose proof (serve_page_html_answer always_known peer "about.html" small_server
                [Byte.x3c; Byte.x70; Byte.x3e] (Some "<p>")) as H.
  cbv zeta in H. destruct H as (Hf & Hsent & _).
  - vm_compute. reflexivity.
  - vm_compute. reflexivity.
  - vm_compute. reflexivity.
  - split; [exact Hf|].
    pose proof (Hsent (always_known_reachable peer small_server)) as Hs.
    unfold sent in *. rewrite Hs. vm_compute. reflexivity.
Defined.

Lemma answer_goes_at_first_recall_witness :
  let r := _send_html (MoreSamples.known_from 1200) peer (ErrorPage "x")
             (Literal "404: x") small_server in
  MoreSamples.known_from 1200 peer (clock small_server + 500 * 3) = true /\
  fst r = true /\ clock (snd r) = 1500 /\ path_requests (snd r) = [peer].
Proof.
  cbv zeta. split; [reflexivity|].
  pose proof (answer_goes_at_first_recall (MoreSamples.known_from 1200) peer
                (ErrorPage "x") (Literal "404: x") "photo.png"
                [Byte.x89; Byte.x50] None small_server 3) as H.
  cbv zeta in H. destruct H as ((Hf & Hc & _ & Hp) & _).
  - lia.
  - intros j Hj. unfold MoreSamples.known_from. cbn [clock small_server].
    apply Z.leb_gt. lia.
  - reflexivity.
  - vm_compute. reflexivity.
  - split; [exact Hf|]. split; [exact Hc|exact Hp].
Defined.

End PageAnswerSamples.
